(** * Dataset download tooling: download engine, wget-script synthesizer,
      target verifier.

    A shallow embedding of [download_data.py], [make_wget.py] and
    [check_targets.py], followed by the properties of the specification
    that are settled against it.

    Conventions.
    - Python [str] values are [string]s over [ascii]; the alphabet in scope
      is ASCII (code points below 128).
    - Python lists are [list]s, Python [set]s of strings are [gset string],
      dictionaries whose iteration order matters are association lists.
    - A function that may raise returns [option] (or the [outcome] type of
      a tool's [main]); the state of the file system and the requests sent
      over the network are passed explicitly. *)

From Stdlib Require Import String Ascii List ZArith Lia Bool Arith QArith DecimalString
  HexadecimalString.
From stdpp Require Import gmap strings.
Import ListNotations.
Open Scope string_scope.
Open Scope list_scope.
Open Scope nat_scope.

(** ** Python string operations *)

Module PyStr.

(** Truth value of a string: only the empty string is false. *)
Definition truthy (s : string) : bool :=
  match s with EmptyString => false | String _ _ => true end.

(** [a or b] on strings. *)
Definition py_or (a b : string) : string := if truthy a then a else b.

Definition is_char (c d : ascii) : bool := Ascii.eqb c d.

(** [str.isspace] on one ASCII character: tab, line feed, vertical tab,
    form feed, carriage return, the separators 0x1c-0x1f, and space. *)
Definition isspace (c : ascii) : bool :=
  let n := nat_of_ascii c in
  ((9 <=? n) && (n <=? 13)) || ((28 <=? n) && (n <=? 32)).

Fixpoint forallb (p : ascii -> bool) (s : string) : bool :=
  match s with
  | EmptyString => true
  | String c r => p c && forallb p r
  end.

Fixpoint existsb (p : ascii -> bool) (s : string) : bool :=
  match s with
  | EmptyString => false
  | String c r => p c || existsb p r
  end.

(** [c in s] for a single character [c]. *)
Definition contains (c : ascii) (s : string) : bool := existsb (is_char c) s.

(** [s.lstrip(chars)], the set [chars] given as a predicate. *)
Fixpoint lstrip (p : ascii -> bool) (s : string) : string :=
  match s with
  | EmptyString => EmptyString
  | String c r => if p c then lstrip p r else s
  end.

Fixpoint rstrip (p : ascii -> bool) (s : string) : string :=
  match s with
  | EmptyString => EmptyString
  | String c r =>
      match rstrip p r with
      | EmptyString => if p c then EmptyString else String c EmptyString
      | r' => String c r'
      end
  end.

(** [s.strip()] *)
Definition strip (s : string) : string := lstrip isspace (rstrip isspace s).

(** [s.startswith(prefix)] *)
Fixpoint startswith (s prefix : string) {struct prefix} : bool :=
  match prefix, s with
  | EmptyString, _ => true
  | String _ _, EmptyString => false
  | String a p', String b s' => Ascii.eqb a b && startswith s' p'
  end.

(** [s[n:]] *)
Fixpoint drop (n : nat) (s : string) : string :=
  match n, s with
  | O, _ => s
  | S _, EmptyString => EmptyString
  | S n', String _ r => drop n' r
  end.

(** The longest prefix of [s] whose characters all satisfy [p], and
    what follows it. *)
Fixpoint span (p : ascii -> bool) (s : string) : string * string :=
  match s with
  | EmptyString => (EmptyString, EmptyString)
  | String c r =>
      if p c then let '(a, b) := span p r in (String c a, b)
      else (EmptyString, s)
  end.

(** [s.partition(c)]: the text before the first [c] and, when [c]
    occurs, the text after it. *)
Fixpoint partition (c : ascii) (s : string) : string * option string :=
  match s with
  | EmptyString => (EmptyString, None)
  | String d r =>
      if Ascii.eqb d c then (EmptyString, Some r)
      else let '(a, b) := partition c r in (String d a, b)
  end.

(** [s.split(sep)] for a set of one-character separators: [n]
    separators give [n + 1] fields. *)
Fixpoint split (p : ascii -> bool) (s : string) : list string :=
  match s with
  | EmptyString => [EmptyString]
  | String c r =>
      if p c then EmptyString :: split p r
      else match split p r with
           | [] => [String c EmptyString]
           | f :: fs => String c f :: fs
           end
  end.

(** Removal of every character satisfying [p]
    ([s.replace(c, "")] for each such [c]). *)
Fixpoint remove (p : ascii -> bool) (s : string) : string :=
  match s with
  | EmptyString => EmptyString
  | String c r => if p c then remove p r else String c (remove p r)
  end.

(** [s.replace(c, t)] for a single character [c]. *)
Fixpoint replace (c : ascii) (t : string) (s : string) : string :=
  match s with
  | EmptyString => EmptyString
  | String d r =>
      if Ascii.eqb d c then t +:+ replace c t r else String d (replace c t r)
  end.

Definition is_upper (c : ascii) : bool :=
  let n := nat_of_ascii c in (65 <=? n) && (n <=? 90).
Definition is_lower (c : ascii) : bool :=
  let n := nat_of_ascii c in (97 <=? n) && (n <=? 122).
Definition is_digit (c : ascii) : bool :=
  let n := nat_of_ascii c in (48 <=? n) && (n <=? 57).
Definition is_alpha (c : ascii) : bool := is_upper c || is_lower c.

Definition lower_char (c : ascii) : ascii :=
  if is_upper c then ascii_of_nat (nat_of_ascii c + 32) else c.

Fixpoint lower (s : string) : string :=
  match s with
  | EmptyString => EmptyString
  | String c r => String (lower_char c) (lower r)
  end.

(** [sep.join(l)] *)
Fixpoint concat (l : list string) : string :=
  match l with
  | [] => EmptyString
  | s :: l' => s +:+ concat l'
  end.

(** The lines of a text file as the iteration over a file opened in
    text mode yields them: a carriage return, with or without a line
    feed after it, is read as a line feed, and every line keeps the
    line feed that ends it; only the last line may have none. *)
Fixpoint text_lines (s : string) : list string :=
  match s with
  | EmptyString => []
  | String c r =>
      if is_char "010" c then String "010" EmptyString :: text_lines r
      else if is_char "013" c then
        String "010" EmptyString
          :: match r with
             | EmptyString => []
             | String d r' => if is_char "010" d then text_lines r' else text_lines r
             end
      else match text_lines r with
           | [] => [String c EmptyString]
           | line :: rest => String c line :: rest
           end
  end.

(** [w in s] for strings: [w] occurs in [s] as a part. *)
Fixpoint has_substring (w s : string) : bool :=
  startswith s w
  || match s with
     | EmptyString => false
     | String _ r => has_substring w r
     end.

(** [s.rpartition(c)[2]]: the text after the last [c], all of [s] when
    there is none. *)
Definition after_last (c : ascii) (s : string) : string :=
  List.last (split (is_char c) s) EmptyString.

End PyStr.

(** ** [re.findall(r"https?://\S+", s)] *)

Module PyRe.
Import PyStr.

Definition head_nonspace (s : string) : bool :=
  match s with
  | EmptyString => false
  | String c _ => negb (isspace c)
  end.

(** The pattern matches at the very start of [s]: [http], an optional
    [s], [://], and at least one character that is not white space. *)
Definition url_head (s : string) : bool :=
  (startswith s "https://" && head_nonspace (drop 8 s))
  || (startswith s "http://" && head_nonspace (drop 7 s)).

(** Left-to-right scan for the non-overlapping matches. [\S+] is
    greedy and the fixed part of the pattern holds no white space, so a
    match that starts at some position is the whole run of non-space
    characters from there; [cur] is the match being read, if any. *)
Fixpoint findall_from (cur : option string) (s : string) : list string :=
  match s with
  | EmptyString => match cur with Some m => [m] | None => [] end
  | String c r =>
      match cur with
      | Some m =>
          if isspace c then m :: findall_from None r
          else findall_from (Some (m +:+ String c EmptyString)) r
      | None =>
          if url_head s then findall_from (Some (String c EmptyString)) r
          else findall_from None r
      end
  end.

Definition findall_urls (s : string) : list string := findall_from None s.

(** *** Backtracking matchers

    The pieces of a pattern as functions of what follows them: a
    matcher takes the continuation [k] for the rest of the pattern and
    the text at the current position, and returns the first success in
    the order in which [re] tries the alternatives. *)
Section Matchers.
Context {R : Type}.

(** A literal text. *)
Definition lit (w : string) (k : string -> option R) (s : string) : option R :=
  if startswith s w then k (drop (String.length w) s) else None.

(** [c*] for a character class [c], greedy: the longest run first. *)
Fixpoint star (p : ascii -> bool) (k : string -> option R) (s : string)
  : option R :=
  match s with
  | EmptyString => k s
  | String c r =>
      if p c then match star p k r with
                  | Some res => Some res
                  | None => k s
                  end
      else k s
  end.

(** [c+], greedy. *)
Definition plus (p : ascii -> bool) (k : string -> option R) (s : string)
  : option R :=
  match s with
  | EmptyString => None
  | String c r => if p c then star p k r else None
  end.

(** [(?:m)?], greedy: with [m] first, then without. *)
Definition opt (m : (string -> option R) -> string -> option R)
    (k : string -> option R) (s : string) : option R :=
  match m k s with
  | Some res => Some res
  | None => k s
  end.

(** [(c?)], a group: the continuation receives the text of the group. *)
Definition opt_group (p : ascii -> bool) (k : string -> string -> option R)
    (s : string) : option R :=
  match s with
  | EmptyString => k EmptyString s
  | String c r =>
      if p c then match k (String c EmptyString) r with
                  | Some res => Some res
                  | None => k EmptyString s
                  end
      else k EmptyString s
  end.

(** [(c*?)], a group, lazy: the shortest run first; [acc] is the text
    of the group so far. *)
Fixpoint lazy_group (p : ascii -> bool) (k : string -> string -> option R)
    (acc : string) (s : string) : option R :=
  match k acc s with
  | Some res => Some res
  | None =>
      match s with
      | EmptyString => None
      | String c r =>
          if p c then lazy_group p k (acc +:+ String c EmptyString) r else None
      end
  end.

End Matchers.

(** [.] without [re.DOTALL]: any character but the line feed. *)
Definition dot (c : ascii) : bool := negb (is_char "010" c).

(** [$] without [re.MULTILINE]: the end of the text, or the position
    before a line feed that ends the text. *)
Definition at_end (s : string) : bool :=
  match s with
  | EmptyString => true
  | String c EmptyString => is_char "010" c
  | String _ (String _ _) => false
  end.

End PyRe.

(** ** [ipaddress.ip_address] on a string *)

Module IpAddress.
Import PyStr.

(** [_HEX_DIGITS] *)
Definition is_hex (c : ascii) : bool :=
  let n := nat_of_ascii c in
  is_digit c || ((97 <=? n) && (n <=? 102)) || ((65 <=? n) && (n <=? 70)).

Definition digit_value (c : ascii) : N :=
  let n := N_of_ascii c in
  if is_digit c then n - 48
  else if (97 <=? n)%N then n - 87 else n - 55.

(** [int(s, base)] for a text [s] of digits of the base. *)
Definition int_of_digits (base : N) (s : string) : N :=
  fold_left (fun acc c => acc * base + digit_value c)%N
            (list_ascii_of_string s) 0%N.

(** ['%x' % n] *)
Definition to_hex (n : N) : string :=
  HexadecimalString.NilZero.string_of_uint (N.to_hex_uint n).

(** [map(f, l)] where [f] may raise. *)
Fixpoint parse_all {A : Type} (f : string -> option A) (l : list string)
  : option (list A) :=
  match l with
  | [] => Some []
  | s :: rest =>
      match f s, parse_all f rest with
      | Some a, Some r => Some (a :: r)
      | _, _ => None
      end
  end.

(** [IPv4Address._parse_octet]; [None] is its [ValueError]. *)
Definition parse_octet (octet_str : string) : option N :=
  if negb (truthy octet_str) then None
  else if negb (forallb is_digit octet_str) then None
  else if 3 <? String.length octet_str then None
  else if negb (String.eqb octet_str "0") && startswith octet_str "0" then None
  else let octet_int := int_of_digits 10 octet_str in
       if (255 <? octet_int)%N then None else Some octet_int.

(** [IPv4Address(s)._ip]; [None] is [AddressValueError]. *)
Definition IPv4Address (addr_str : string) : option N :=
  if contains "/" addr_str then None
  else if negb (truthy addr_str) then None
  else
    let octets := split (is_char ".") addr_str in
    if negb (List.length octets =? 4) then None
    else option_map (fun l => fold_left (fun acc o => acc * 256 + o)%N l 0%N)
                    (parse_all parse_octet octets).

(** [IPv6Address._parse_hextet]; [None] is its [ValueError], also the one
    of [int('', 16)]. *)
Definition parse_hextet (hextet_str : string) : option N :=
  if negb (forallb is_hex hextet_str) then None
  else if 4 <? String.length hextet_str then None
  else if truthy hextet_str then Some (int_of_digits 16 hextet_str)
  else None.

(** [IPv6Address._split_scope_id] *)
Definition split_scope_id (ip_str : string) : option (string * option string) :=
  match partition "%" ip_str with
  | (addr, None) => Some (addr, None)
  | (addr, Some scope_id) =>
      if negb (truthy scope_id) || contains "%" scope_id then None
      else Some (addr, Some scope_id)
  end.

(** The loop over [range(1, len(parts) - 1)] that looks for the one
    empty part between the ends; [i] is the index of the head of
    [middle]. *)
Fixpoint find_skip (i : nat) (middle : list string) (skip_index : option nat)
  : option (option nat) :=
  match middle with
  | [] => Some skip_index
  | part :: rest =>
      if truthy part then find_skip (S i) rest skip_index
      else match skip_index with
           | Some _ => None
           | None => find_skip (S i) rest (Some i)
           end
  end.

(** [IPv6Address._ip_int_from_string]: the eight hextets of the
    address, the most significant first. *)
Definition ip_int_from_string (ip_str : string) : option (list N) :=
  if negb (truthy ip_str) then None
  else
    let parts := split (is_char ":") ip_str in
    if List.length parts <? 3 then None
    else
      let last_part := List.last parts EmptyString in
      match (if contains "." last_part
             then option_map
                    (fun ipv4_int =>
                       removelast parts
                         ++ [to_hex (N.land (N.shiftr ipv4_int 16) 65535);
                             to_hex (N.land ipv4_int 65535)])
                    (IPv4Address last_part)
             else Some parts) with
      | None => None
      | Some parts =>
          let n := List.length parts in
          let first_empty := negb (truthy (List.hd EmptyString parts)) in
          let last_empty := negb (truthy (List.last parts EmptyString)) in
          if 9 <? n then None
          else
            match find_skip 1 (removelast (List.tl parts)) None with
            | None => None
            | Some skip_index =>
                match (match skip_index with
                       | Some k =>
                           let parts_hi := if first_empty then k - 1 else k in
                           let parts_lo :=
                             if last_empty then n - k - 1 - 1 else n - k - 1 in
                           if first_empty && negb (parts_hi =? 0) then None
                           else if last_empty && negb (parts_lo =? 0) then None
                           else if 8 <=? parts_hi + parts_lo then None
                           else Some (parts_hi, parts_lo,
                                      8 - (parts_hi + parts_lo))
                       | None =>
                           if negb (n =? 8) then None
                           else if first_empty then None
                           else if last_empty then None
                           else Some (n, 0, 0)
                       end) with
                | None => None
                | Some (parts_hi, parts_lo, parts_skipped) =>
                    match parse_all parse_hextet (firstn parts_hi parts),
                          parse_all parse_hextet (skipn (n - parts_lo) parts) with
                    | Some hi, Some lo =>
                        Some (hi ++ repeat 0%N parts_skipped ++ lo)
                    | _, _ => None
                    end
                end
            end
      end.

(** [IPv6Address(s)]: the hextets and the scope id. *)
Definition IPv6Address (addr_str : string) : option (list N * option string) :=
  if contains "/" addr_str then None
  else
    match split_scope_id addr_str with
    | None => None
    | Some (addr, scope_id) =>
        option_map (fun ip => (ip, scope_id)) (ip_int_from_string addr)
    end.

Inductive address : Type :=
| V4 (ip : N)
| V6 (hextets : list N) (scope_id : option string).

(** [ip_address(s)]; [None] is its [ValueError]. *)
Definition ip_address (s : string) : option address :=
  match IPv4Address s with
  | Some ip => Some (V4 ip)
  | None =>
      match IPv6Address s with
      | Some (ip, scope_id) => Some (V6 ip scope_id)
      | None => None
      end
  end.

End IpAddress.

(** ** [urllib.parse.urlparse] (CPython 3.12)

    Only the fields the tools read are of interest, but the split is
    modelled as the library performs it, step by step, with the checks
    of a bracketed host ([_check_bracketed_netloc]). The check of the
    host under NFKC normalization ([_checknetloc]) returns at once for
    an ASCII host. *)

Module UrlParse.
Import PyStr.

Record ParseResult : Type := mkParseResult {
  scheme : string;
  netloc : string;
  path : string;
  params : string;
  query : string;
  fragment : string
}.

(** [_WHATWG_C0_CONTROL_OR_SPACE]: the code points 0x00-0x20. *)
Definition c0_control_or_space (c : ascii) : bool := nat_of_ascii c <=? 32.

(** [_UNSAFE_URL_BYTES_TO_REMOVE]: tab, carriage return, line feed. *)
Definition unsafe_url_byte (c : ascii) : bool :=
  let n := nat_of_ascii c in (n =? 9) || (n =? 13) || (n =? 10).

(** [scheme_chars]: letters, digits, and [+ - .] *)
Definition scheme_char (c : ascii) : bool :=
  is_alpha c || is_digit c || is_char "+" c || is_char "-" c || is_char "." c.

(** The scheme test of [urlsplit]: with [i = url.find(':')], the text
    before the colon is a scheme when [i > 0], [url[0]] is an ASCII
    letter, and every character of [url[:i]] is a scheme character. *)
Definition split_scheme (url : string) : string * string :=
  match partition ":" url with
  | (String c0 pre, Some rest) =>
      if is_alpha c0 && forallb scheme_char (String c0 pre)
      then (lower (String c0 pre), rest)
      else (EmptyString, url)
  | _ => (EmptyString, url)
  end.

Definition netloc_delim (c : ascii) : bool :=
  is_char "/" c || is_char "?" c || is_char "#" c.

(** [if url[:2] == '//': netloc, url = _splitnetloc(url, 2)] *)
Definition split_netloc (url : string) : string * string :=
  if startswith url "//"
  then span (fun c => negb (netloc_delim c)) (drop 2 url)
  else (EmptyString, url).

(** [url.split(c, 1)] when [c] occurs, otherwise [(url, '')]. *)
Definition split_once (c : ascii) (url : string) : string * string :=
  match partition c url with
  | (a, Some b) => (a, b)
  | (a, None) => (a, EmptyString)
  end.

(** [uses_params] *)
Definition uses_params : list string :=
  [""; "ftp"; "hdl"; "prospero"; "http"; "imap"; "https"; "shttp";
   "rtsp"; "rtspu"; "sip"; "sips"; "mms"; "sftp"; "tel"].

(** [_splitparams(url)], called when [';' in url]: the cut is at the
    first [;] that is not followed by any [/]
    ([url.find(';', url.rfind('/'))], or [url.find(';')] when there is
    no [/]); without such a [;] the text is returned whole. *)
Fixpoint splitparams (url : string) : string * string :=
  match url with
  | EmptyString => (EmptyString, EmptyString)
  | String c r =>
      if negb (contains "/" r) && is_char ";" c then (EmptyString, r)
      else let '(a, b) := splitparams r in (String c a, b)
  end.

(** [re.match(r"\Av[a-fA-F0-9]+\..+\Z", hostname)] *)
Definition ipvfuture (hostname : string) : bool :=
  match PyRe.lit "v"
          (PyRe.plus IpAddress.is_hex
             (PyRe.lit "."
                (PyRe.plus PyRe.dot
                   (fun rest => if truthy rest then None else Some tt))))
          hostname with
  | Some _ => true
  | None => false
  end.

(** [_check_bracketed_host(hostname)]: [false] is its [ValueError]. *)
Definition check_bracketed_host (hostname : string) : bool :=
  if startswith hostname "v" then ipvfuture hostname
  else match IpAddress.ip_address hostname with
       | Some (IpAddress.V6 _ _) => true
       | Some (IpAddress.V4 _) => false
       | None => false
       end.

(** [_check_bracketed_netloc(netloc)]: [false] is its [ValueError]. *)
Definition check_bracketed_netloc (netloc : string) : bool :=
  let hostname_and_port := after_last "@" netloc in
  match partition "[" hostname_and_port with
  | (before_bracket, Some bracketed) =>
      if truthy before_bracket then false
      else
        let '(hostname, port) := partition "]" bracketed in
        let port := match port with Some p => p | None => EmptyString end in
        if truthy port && negb (startswith port ":") then false
        else check_bracketed_host hostname
  | (_, None) =>
      check_bracketed_host (fst (partition ":" hostname_and_port))
  end.

(** The checks of [urlsplit] on the brackets of the host part: [false]
    is the [ValueError] it raises. *)
Definition valid_netloc (netloc : string) : bool :=
  if (contains "[" netloc && negb (contains "]" netloc))
     || (contains "]" netloc && negb (contains "[" netloc))
  then false
  else if contains "[" netloc && contains "]" netloc
       then check_bracketed_netloc netloc
       else true.

(** [urlparse(url)] for a [str] argument; [None] is the [ValueError]
    raised for a host part with an unbalanced or ill-formed bracketed
    (IPv6 / IPvFuture) literal. *)
Definition urlparse (url : string) : option ParseResult :=
  let url := lstrip c0_control_or_space url in
  let url := remove unsafe_url_byte url in
  let '(scheme, url) := split_scheme url in
  let '(netloc, url) := split_netloc url in
  if negb (valid_netloc netloc) then None else
  let '(url, fragment) := split_once "#" url in
  let '(url, query) := split_once "?" url in
  let '(url, params) :=
    if bool_decide (scheme ∈ uses_params) && contains ";" url
    then splitparams url else (url, EmptyString) in
  Some (mkParseResult scheme netloc url params query fragment).

End UrlParse.

(** ** [pathlib.PurePosixPath] and the file system *)

Module PathLib.
Import PyStr.

(** A path is its root ([""], ["/"] or ["//"]) and its segments. *)
Record PurePath : Type := mkPath {
  root : string;
  parts : list string
}.

(** Parsing of a path string: empty segments and [.] segments are
    dropped, [..] segments are kept; exactly two leading slashes are a
    root of their own. *)
Definition parse (s : string) : PurePath :=
  let root :=
    if startswith s "//" && negb (startswith s "///") then "//"
    else if startswith s "/" then "/" else "" in
  mkPath root
    (List.filter (fun seg => negb (String.eqb seg "") && negb (String.eqb seg "."))
            (split (is_char "/") s)).

Fixpoint join_parts (l : list string) : string :=
  match l with
  | [] => ""
  | [seg] => seg
  | seg :: rest => seg +:+ "/" +:+ join_parts rest
  end.

(** [str(p)] *)
Definition to_str (p : PurePath) : string :=
  match root p, parts p with
  | EmptyString, [] => "."
  | r, l => r +:+ join_parts l
  end.

Definition is_absolute (p : PurePath) : bool := truthy (root p).

(** [p / s] and [Path(p, s)]: an absolute [s] replaces [p]. *)
Definition joinpath (p : PurePath) (s : string) : PurePath :=
  let q := parse s in
  if is_absolute q then q else mkPath (root p) (parts p ++ parts q).

(** [p.name] *)
Definition name (p : PurePath) : string := List.last (parts p) "".

(** [p.parent] *)
Definition parent (p : PurePath) : PurePath :=
  mkPath (root p) (removelast (parts p)).

(** One step of the resolution of [..]: the parent of the root is the
    root. *)
Definition resolve_step (acc : list string) (seg : string) : list string :=
  if String.eqb seg ".." then removelast acc else acc ++ [seg].

(** [p.resolve()] in a file system without symbolic links: a relative
    path is taken from the working directory [cwd], the [..] segments
    are resolved, and the root of the result is ["/"]. *)
Definition resolve (cwd : list string) (p : PurePath) : PurePath :=
  mkPath "/" (fold_left resolve_step (parts p)
                        (if is_absolute p then [] else cwd)).

Fixpoint strip_prefix (pre l : list string) : option (list string) :=
  match pre, l with
  | [], _ => Some l
  | _ :: _, [] => None
  | a :: pre', b :: l' => if String.eqb a b then strip_prefix pre' l' else None
  end.

(** [p.relative_to(other)]; [None] is the [ValueError] raised when [p]
    is not under [other]. *)
Definition relative_to (p other : PurePath) : option PurePath :=
  if String.eqb (root p) (root other)
  then option_map (mkPath "") (strip_prefix (parts other) (parts p))
  else None.

(** [p.expanduser()]: [home] is [os.path.expanduser] on the first
    segment, which returns the segment itself when it finds no home
    directory for it; [None] is the [RuntimeError] raised then. *)
Definition expanduser (home : string -> string) (p : PurePath) : option PurePath :=
  match parts p with
  | first :: rest =>
      if negb (is_absolute p) && startswith first "~" then
        let homedir := parse (home first) in
        if startswith (home first) "~" then None
        else Some (mkPath (root homedir) (parts homedir ++ rest))
      else Some p
  | [] => Some p
  end.

(** [p.is_relative_to(other)] *)
Definition is_relative_to (p other : PurePath) : bool :=
  match relative_to p other with Some _ => true | None => false end.

End PathLib.

(** What [os.stat] reports for an entry. *)
Record stat_result : Type := mkStat {
  st_is_dir : bool;
  st_size : N;
  st_mtime : Z
}.

(** The file system: a table from the resolved absolute path of every
    entry to its [stat] record. There are no symbolic links. A path is
    looked up with its [..] segments folded, which is where the
    operating system finds the entry when the directories that the
    path passes through are there; a path without [..] is looked up as
    the operating system does. *)
Module FileSystem.
Import PathLib.

Record t : Type := mkFs {
  cwd : list string;
  entries : gmap string stat_result
}.

Definition key (fs : t) (p : PurePath) : string := to_str (resolve (cwd fs) p).

Definition lookup (fs : t) (p : PurePath) : option stat_result :=
  entries fs !! key fs p.

(** [p.exists()] *)
Definition exists_ (fs : t) (p : PurePath) : bool :=
  match lookup fs p with Some _ => true | None => false end.

(** [p.is_file()] *)
Definition is_file (fs : t) (p : PurePath) : bool :=
  match lookup fs p with Some st => negb (st_is_dir st) | None => false end.

(** The regular files and their sizes: the content side of the table. *)
Definition files (fs : t) : gmap string stat_result :=
  filter (fun kv => st_is_dir (snd kv) = false) (entries fs).

(** The paths from the first segment down to [p] itself. *)
Definition lineage (p : PurePath) : list PurePath :=
  map (fun n => mkPath (root p) (firstn n (parts p)))
      (seq 1 (List.length (parts p))).

(** [p.mkdir(parents=True, exist_ok=True)] at time [now]: every missing
    directory on the way is created; [None] is the [OSError] raised
    when an entry on the way exists and is not a directory. *)
Definition mkdir_parents (now : Z) (p : PurePath) (fs : t) : option t :=
  fold_left (fun acc q =>
    match acc with
    | None => None
    | Some fs' =>
        match lookup fs' q with
        | Some st => if st_is_dir st then Some fs' else None
        | None => Some (mkFs (cwd fs')
                             (<[key fs' q := mkStat true 4096%N now]> (entries fs')))
        end
    end) (lineage (resolve (cwd fs) p)) (Some fs).

End FileSystem.

(** ** [shlex] *)

Module Shlex.
Import PyStr.

Definition dquote : ascii := "034"%char.
Definition squote : ascii := "039"%char.
Definition backslash : ascii := "092"%char.

(** [shlex.whitespace]: space, tab, carriage return, line feed. *)
Definition whitespace (c : ascii) : bool :=
  is_char " " c || is_char "009" c || is_char "013" c || is_char "010" c.

(** [shlex.quotes] *)
Definition is_quote (c : ascii) : bool := is_char squote c || is_char dquote c.

(** The states of [shlex.read_token] that [shlex.split] can reach:
    [' '] (between tokens), ['a'] (in a word), a quote character (in a
    quoted part), and the escape character with the state to return
    to, a word ([None]) or a quoted part. *)
Inductive state : Type :=
| Blank
| Word
| Quoted (q : ascii)
| Escape (escaped : option ascii).

Definition push (token : string) (c : ascii) : string :=
  token +:+ String c EmptyString.

(** The tokens of the rest [s] of the line, read in state [st] with
    the current [token]; [quoted] records that the token had a quoted
    part, so that it is a token even when empty. [None] is the
    [ValueError] for an unclosed quotation or a trailing escape. The
    lexer is in POSIX mode and splits on white space only. *)
Fixpoint lex (st : state) (token : string) (quoted : bool) (s : string)
  : option (list string) :=
  match s with
  | EmptyString =>
      match st with
      | Blank => Some []
      | Word => if truthy token || quoted then Some [token] else Some []
      | Quoted _ => None
      | Escape _ => None
      end
  | String c r =>
      match st with
      | Blank =>
          if whitespace c then lex Blank token quoted r
          else if is_char backslash c then lex (Escape None) token quoted r
          else if is_quote c then lex (Quoted c) token true r
          else lex Word (String c EmptyString) quoted r
      | Word =>
          if whitespace c then
            if truthy token || quoted
            then option_map (cons token) (lex Blank EmptyString false r)
            else lex Blank token quoted r
          else if is_quote c then lex (Quoted c) token true r
          else if is_char backslash c then lex (Escape None) token quoted r
          else lex Word (push token c) quoted r
      | Quoted q =>
          if Ascii.eqb c q then lex Word token quoted r
          else if is_char backslash c && is_char dquote q
               then lex (Escape (Some q)) token quoted r
          else lex (Quoted q) (push token c) quoted r
      | Escape None => lex Word (push token c) quoted r
      | Escape (Some q) =>
          if negb (is_char backslash c) && negb (Ascii.eqb c q)
          then lex (Quoted q) (push (push token backslash) c) quoted r
          else lex (Quoted q) (push token c) quoted r
      end
  end.

(** [shlex.split(line, posix=True)] *)
Definition split (line : string) : option (list string) :=
  lex Blank EmptyString false line.

(** The characters [shlex.quote] leaves alone: [[A-Za-z0-9_@%+=:,./-]]. *)
Definition safe_char (c : ascii) : bool :=
  is_alpha c || is_digit c
  || List.existsb (is_char c)
       ["_"; "@"; "%"; "+"; "="; ":"; ","; "."; "/"; "-"]%char.

(** [shlex.quote(s)] *)
Definition quote (s : string) : string :=
  if negb (truthy s) then String squote (String squote EmptyString)
  else if forallb safe_char s then s
  else String squote
         (replace squote
            (String squote (String dquote (String squote
               (String dquote (String squote EmptyString))))) s
          +:+ String squote EmptyString).

End Shlex.

(** ** The manifest: a tree as [yaml.safe_load] returns it *)

(** Keys of a mapping are represented by their [str(k)]; the tools only
    compare keys with string constants, and no key that is not a string
    prints as one of those. Scalars other than strings all behave alike
    for the tools (they are neither [str], [list] nor [dict]). *)
#[warnings="-register-all"]
Inductive yaml : Type :=
| YNull
| YBool (b : bool)
| YInt (z : Z)
| YStr (s : string)
| YList (l : list yaml)
| YDict (d : list (string * yaml)).

(** ** [int(s)] on a string *)

Module PyInt.
Import PyStr.

Definition digit_value (c : ascii) : Z := Z.of_nat (nat_of_ascii c - 48).

(** Decimal digits, single underscores allowed between digits. *)
Fixpoint digits (acc : Z) (after_digit : bool) (s : string) : option Z :=
  match s with
  | EmptyString => if after_digit then Some acc else None
  | String c r =>
      if is_digit c then digits (10 * acc + digit_value c)%Z true r
      else if is_char "_" c && after_digit then digits acc false r
      else None
  end.

(** [int(s)]: surrounding white space is ignored, a sign may precede
    the digits; [None] is the [ValueError]. *)
Definition int (s : string) : option Z :=
  match strip s with
  | String "+" r => digits 0 false r
  | String "-" r => option_map Z.opp (digits 0 false r)
  | r => digits 0 false r
  end.

End PyInt.

(** ** The HTTP client: a [requests.Session] whose adapter retries with
       [urllib3.util.retry.Retry] *)

Module Requests.

Record response : Type := mkResponse {
  status : Z;
  retry_after : bool;                (* a Retry-After header is present *)
  content_length : option string;    (* headers.get("Content-Length") *)
  body_size : N
}.

(** What one attempt to send a request meets. *)
Inductive attempt : Type :=
| ConnectError                (* no connection, or connect timeout *)
| ReadError                   (* connection broken, or read timeout *)
| Answer (r : response).

(** What the caller of [session.request] gets: a response, or a
    [requests.RequestException] ([ConnectionError], [RetryError], ...). *)
Inductive sent : Type :=
| Received (r : response)
| RequestException.

(** The remote side: the outcome of the [k]-th attempt (from 0) of a
    request with the given method and URL. *)
Definition network : Type := string -> string -> nat -> attempt.

(** The fields of [Retry] that [make_session] sets, and
    [respect_retry_after_header], which rules the retry decision too.
    Counters are natural numbers: the library decrements a counter and
    gives up when it falls below zero, that is, when it was zero. The
    pauses between attempts are not modelled. *)
Record Retry : Type := mkRetry {
  total : nat;
  connect : nat;
  read : nat;
  backoff_factor : Q;
  status_forcelist : list Z;
  allowed_methods : list string;
  raise_on_status : bool;
  respect_retry_after_header : bool
}.

(** [Retry.RETRY_AFTER_STATUS_CODES] *)
Definition RETRY_AFTER_STATUS_CODES : list Z := [413; 429; 503]%Z.

Definition mem_Z (z : Z) (l : list Z) : bool := List.existsb (Z.eqb z) l.
Definition mem_str (x : string) (l : list string) : bool :=
  List.existsb (String.eqb x) l.

(** [Retry.is_retry(method, status_code, has_retry_after)], with the
    current value [total] of the counter. *)
Definition is_retry (r : Retry) (total : nat) (method : string)
    (status_code : Z) (has_retry_after : bool) : bool :=
  if negb (mem_str method (allowed_methods r)) then false
  else if match status_forcelist r with [] => false | _ :: _ => true end
          && mem_Z status_code (status_forcelist r) then true
  else negb (total =? 0) && respect_retry_after_header r && has_retry_after
       && mem_Z status_code RETRY_AFTER_STATUS_CODES.

(** [HTTPConnectionPool.urlopen] with its retries, from attempt [k]
    on, with the current counters; the result comes with the number of
    attempts made so far. A failed connection costs [total] and
    [connect], a failed read [total] and [read] (and is final for a
    method that may not be retried), a response that [is_retry] selects
    costs [total]; when the counters are used up the error is final,
    or, for a response and [raise_on_status=False], the response is
    returned. *)
Fixpoint urlopen (total connect read : nat) (r : Retry) (method : string)
    (server : nat -> attempt) (k : nat) : sent * nat :=
  match server k with
  | ConnectError =>
      match total, connect with
      | S total', S connect' => urlopen total' connect' read r method server (S k)
      | _, _ => (RequestException, S k)
      end
  | ReadError =>
      if negb (mem_str method (allowed_methods r)) then (RequestException, S k)
      else match total, read with
           | S total', S read' => urlopen total' connect read' r method server (S k)
           | _, _ => (RequestException, S k)
           end
  | Answer resp =>
      if is_retry r total method (status resp) (retry_after resp)
      then match total with
           | S total' => urlopen total' connect read r method server (S k)
           | O => if raise_on_status r then (RequestException, S k)
                  else (Received resp, S k)
           end
      else (Received resp, S k)
  end.

Record Session : Type := mkSession {
  max_retries : Retry;
  pool_connections : nat;
  pool_maxsize : nat
}.

(** [session.request(method, url)]: the result and the number of
    attempts sent. *)
Definition request (sess : Session) (net : network) (method url : string)
  : sent * nat :=
  let r := max_retries sess in
  urlopen (total r) (connect r) (read r) r method (net method url) 0.

End Requests.

(** Results of a tool's [main]. *)
Inductive exception : Type :=
| NameError (name : string)
| IndexError
| OSError
| ValueError
| TypeError
| RuntimeError.

Inductive outcome (A : Type) : Type :=
| Returned (a : A)
| Exit (code : Z)
| Raised (e : exception).
Arguments Returned {A} a.
Arguments Exit {A} code.
Arguments Raised {A} e.

(** ** download_data.py *)

Module DownloadData.
Import PyStr.

Definition DATA_KEYS : gset string :=
  list_to_set ["data-path"; "data_path"; "data-paths"; "data_paths"].

Fixpoint extract_urls_from_any (obj : yaml) : list string :=
  match obj with
  | YStr s => PyRe.findall_urls s
  | YList l => flat_map extract_urls_from_any l
  | YDict d => flat_map (fun kv => let '(_, v) := kv in extract_urls_from_any v) d
  | _ => []
  end.

(** [_walk] appends to [found] in traversal order; the result is that
    list. *)
Fixpoint find_urls_from_data_keys (o : yaml) : list string :=
  match o with
  | YDict d =>
      flat_map (fun kv => let '(k, v) := kv in
                  (if decide (k ∈ DATA_KEYS)
                   then extract_urls_from_any v else [])
                  ++ find_urls_from_data_keys v) d
  | YList l => flat_map find_urls_from_data_keys l
  | _ => []
  end.

Definition fallback_find_all_urls (obj : yaml) : list string :=
  extract_urls_from_any obj.

Definition normalize_relative_path (url trim_prefix : string) : option string :=
  match UrlParse.urlparse url with
  | None => None
  | Some parsed =>
      let path := py_or (UrlParse.path parsed) "/" in
      let rel := lstrip (is_char "/") path in
      let trim := lstrip (is_char "/") (py_or trim_prefix "") in
      let rel :=
        if truthy trim && startswith rel trim
        then lstrip (is_char "/") (drop (String.length trim) rel)
        else rel in
      Some rel
  end.

(** The loop of [gather_urls] that removes duplicates, [seen] being
    the set of the URLs kept so far. *)
Fixpoint dedup_urls (seen : gset string) (urls : list string) : list string :=
  match urls with
  | [] => []
  | u :: rest =>
      if bool_decide (u ∉ seen)
         && (startswith u "http://" || startswith u "https://")
      then u :: dedup_urls ({[u]} ∪ seen) rest
      else dedup_urls seen rest
  end.

Definition gather_urls (yaml_obj : yaml) : list string :=
  let urls := find_urls_from_data_keys yaml_obj in
  let urls := match urls with
              | [] => fallback_find_all_urls yaml_obj
              | _ :: _ => urls
              end in
  dedup_urls ∅ urls.

Definition normalize_prefixes (prefix_args : list string) : list string :=
  flat_map (fun raw =>
    flat_map (fun token =>
      let token := strip token in
      if truthy token then [lstrip (is_char "/") token] else [])
      (split (is_char ",") raw))
    prefix_args.

(** [include_prefixes and not any(rel.startswith(p) for p in
    include_prefixes)] is the condition under which an item is dropped;
    [keeps] is its negation. *)
Definition keeps (include_prefixes : list string) (rel : string) : bool :=
  negb (match include_prefixes with [] => false | _ :: _ => true end
        && negb (List.existsb (startswith rel) include_prefixes)).

Definition make_session (total_retries : nat) (backoff_factor : Q)
    (pool_maxsize : nat) : Requests.Session :=
  let retry :=
    Requests.mkRetry total_retries total_retries total_retries backoff_factor
      [429; 500; 502; 503; 504]%Z ["HEAD"; "GET"] false true in
  Requests.mkSession retry pool_maxsize pool_maxsize.

(** [make_session()] with the defaults of its parameters. *)
Definition default_session : Requests.Session := make_session 5 (1 # 2) 20.

(** [ensure_parent_dir(p)] *)
Definition ensure_parent_dir (now : Z) (p : PathLib.PurePath)
    (fs : FileSystem.t) : option FileSystem.t :=
  FileSystem.mkdir_parents now (PathLib.parent p) fs.

(** [file_size(p)] *)
Definition file_size (fs : FileSystem.t) (p : PathLib.PurePath) : Z :=
  match FileSystem.lookup fs p with
  | Some st => Z.of_N (st_size st)
  | None => (-1)%Z
  end.

(** [should_skip(session, url, dst)]: the answer, and the number of
    [HEAD] requests sent for it. *)
Definition should_skip (session : Requests.Session) (net : Requests.network)
    (fs : FileSystem.t) (url : string) (dst : PathLib.PurePath) : bool * nat :=
  if negb (FileSystem.exists_ fs dst) then (false, 0)
  else
    let local := file_size fs dst in
    if (local <? 0)%Z then (false, 0)
    else
      match Requests.request session net "HEAD" url with
      | (Requests.Received resp, sent_heads) =>
          match Requests.content_length resp with
          | Some cl =>
              match PyInt.int cl with
              | Some remote => ((remote =? local)%Z, sent_heads)
              | None => (false, sent_heads)
              end
          | None => (false, sent_heads)
          end
      | (Requests.RequestException, sent_heads) => (false, sent_heads)
      end.

Record Args : Type := mkArgs {
  data_dir : string;
  trim_prefix : string;
  include_prefix : list string;
  workers : Z
}.

(** The loop of [main] that prepares the tasks. *)
Fixpoint build_tasks (data_dir : PathLib.PurePath) (trim_prefix : string)
    (include_prefixes : list string) (urls : list string)
  : option (list (string * PathLib.PurePath)) :=
  match urls with
  | [] => Some []
  | url :: rest =>
      match normalize_relative_path url trim_prefix,
            build_tasks data_dir trim_prefix include_prefixes rest with
      | Some rel, Some tasks =>
          if keeps include_prefixes rel
          then Some ((url, PathLib.joinpath data_dir rel) :: tasks)
          else Some tasks
      | _, _ => None
      end
  end.

(** The names bound in the module when [main] runs: the imports, the
    constant, and the functions the file defines. *)
Definition module_globals : gset string :=
  list_to_set
    ["argparse"; "Path"; "re"; "sys"; "Any"; "List"; "Set"; "urlparse";
     "yaml"; "requests"; "HTTPAdapter"; "Retry"; "DATA_KEYS";
     "make_session"; "find_urls_from_data_keys"; "extract_urls_from_any";
     "fallback_find_all_urls"; "normalize_relative_path";
     "ensure_parent_dir"; "file_size"; "should_skip"; "gather_urls";
     "normalize_prefixes"; "main"].

(** [futs = [ex.submit(download_one, session, url, dst) for url, dst in
    tasks]]. The arguments of a call are evaluated by the caller, so
    the name [download_one] is looked up by the main thread for the
    first task, before anything is submitted; it is no built-in name,
    and an unbound name raises [NameError]. The model gives no result
    for a module in which the name would be bound. *)
Definition dispatch (tasks : list (string * PathLib.PurePath))
  : option (outcome unit) :=
  match tasks with
  | [] => Some (Returned tt)
  | _ :: _ =>
      if bool_decide ("download_one" ∈ module_globals) then None
      else Some (Raised (NameError "download_one"))
  end.

(** The rough check after the run: the number of destinations that
    are missing or empty. *)
Definition post_check (fs : FileSystem.t)
    (tasks : list (string * PathLib.PurePath)) : nat :=
  List.length
    (List.filter (fun task => negb (FileSystem.exists_ fs (snd task))
                         || (file_size fs (snd task) <=? 0)%Z) tasks).

(** [main()], from the loaded manifest on, in a file system [fs] at
    time [now], [home] being what [os.path.expanduser] answers; what is
    printed is left out. The result is how the run ends and the file
    system it leaves; the requests sent are those of the tasks, none of
    which is started ([dispatch]). The loop that prepares the tasks
    ends the run with the [ValueError] of the URL parser at the first
    URL the parser rejects. *)
Definition main (home : string -> string) (args : Args) (yaml_obj : yaml)
    (now : Z) (fs : FileSystem.t) : option (outcome nat * FileSystem.t) :=
  match PathLib.expanduser home (PathLib.parse (data_dir args)) with
  | None => Some (Raised RuntimeError, fs)
  | Some expanded =>
      let data_dir := PathLib.resolve (FileSystem.cwd fs) expanded in
      match FileSystem.mkdir_parents now data_dir fs with
      | None => Some (Raised OSError, fs)
      | Some fs =>
          let urls := gather_urls yaml_obj in
          match urls with
          | [] => Some (Exit 1, fs)
          | _ :: _ =>
              let include_prefixes := normalize_prefixes (include_prefix args) in
              let session := default_session in
              match build_tasks data_dir (trim_prefix args) include_prefixes urls with
              | None => Some (Raised ValueError, fs)
              | Some tasks =>
                  let kept := List.length tasks in
                  if kept =? 0 then Some (Exit 2, fs)
                  else
                    match dispatch tasks with
                    | None => None
                    | Some (Returned _) =>
                        Some (Returned (post_check fs tasks), fs)
                    | Some (Exit c) => Some (Exit c, fs)
                    | Some (Raised e) => Some (Raised e, fs)
                    end
              end
          end
      end
  end.

End DownloadData.

(** ** make_wget.py *)

Module MakeWget.
Import PyStr.

Definition normalize_relative_path (url trim_prefix : string) : option string :=
  match UrlParse.urlparse url with
  | None => None
  | Some parsed =>
      let rel := lstrip (is_char "/") (py_or (UrlParse.path parsed) "/") in
      let trim := lstrip (is_char "/") (py_or trim_prefix "") in
      if truthy trim && startswith rel trim
      then Some (lstrip (is_char "/") (drop (String.length trim) rel))
      else Some rel
  end.

Definition normalize_prefixes (raw_list : list string) : list string :=
  flat_map (fun raw =>
    flat_map (fun token =>
      let token := strip token in
      if truthy token then [lstrip (is_char "/") token] else [])
      (split (is_char ",") raw))
    raw_list.

Definition nl : string := String "010"%char EmptyString.
Definition dq : string := String Shlex.dquote EmptyString.

(** The text of lines, each ended by a line feed. *)
Definition unlines (lines : list string) : string :=
  concat (map (fun line => line +:+ nl) lines).

(** The lines of the template [HEADER], the placeholder filled in. *)
Definition HEADER_lines (data_dir : string) : list string :=
  ["#!/usr/bin/env bash";
   "set -Eeuo pipefail";
   "";
   "if ! command -v wget >/dev/null 2>&1; then";
   "  echo " +:+ dq +:+ "Error: wget is not installed." +:+ dq +:+ " >&2";
   "  exit 1";
   "fi";
   "";
   "DATA_DIR=" +:+ data_dir;
   "echo " +:+ dq +:+ "Saving to: $DATA_DIR" +:+ dq;
   "mkdir -p " +:+ dq +:+ "$DATA_DIR" +:+ dq].

(** [HEADER.format(data_dir=...)] *)
Definition HEADER (data_dir : string) : string := unlines (HEADER_lines data_dir).

(** The three lines of the template [LINE], which begins with an empty
    line. *)
Definition comment_line (url : string) : string := "# " +:+ url.

Definition mkdir_line (rel : string) : string :=
  "mkdir -p " +:+ dq +:+ "$(dirname " +:+ dq +:+ "$DATA_DIR/" +:+ rel
    +:+ dq +:+ ")" +:+ dq.

Definition wget_line (url rel : string) : string :=
  "wget -c --retry-connrefused -t 5 --timeout=60 " +:+ dq +:+ url +:+ dq
    +:+ " -O " +:+ dq +:+ "$DATA_DIR/" +:+ rel +:+ dq.

(** [LINE.format(url=url, rel=rel)] *)
Definition LINE (url rel : string) : string :=
  nl +:+ unlines [comment_line url; mkdir_line rel; wget_line url rel].

Record Args : Type := mkArgs {
  data_dir : string;
  trim_prefix : string;
  include_prefix : list string;
  out : string
}.

(** [d.get(k)] on a mapping. *)
Definition assoc (k : string) (d : list (string * yaml)) : option yaml :=
  option_map snd (List.find (fun kv => String.eqb (fst kv) k) d).

(** [k in v] for a string [k]: a key of a mapping, an item of a list,
    a part of a string; [None] is the [TypeError] for a value that is
    no container. *)
Definition py_in (k : string) (v : yaml) : option bool :=
  match v with
  | YDict d => Some (match assoc k d with Some _ => true | None => false end)
  | YList l =>
      Some (List.existsb
              (fun x => match x with YStr s => String.eqb s k | _ => false end) l)
  | YStr s => Some (has_substring k s)
  | _ => None
  end.

(** [v[k]] for a string [k]: [None] is the [TypeError] for a value that
    is no mapping (the index of a list or a string must be a number),
    and the [KeyError] of a mapping. *)
Definition getitem (v : yaml) (k : string) : option yaml :=
  match v with
  | YDict d => assoc k d
  | _ => None
  end.

(** The test of [main] on the manifest and [urls = y["data"]["paths"]]:
    the run ends with status 1 when a key is not found, and with a
    [TypeError] when [y] or [y["data"]] is no container or, holding the
    key as an item or a part, is no mapping. *)
Definition data_paths (y : yaml) : outcome yaml :=
  match py_in "data" y with
  | None => Raised TypeError
  | Some false => Exit 1
  | Some true =>
      match getitem y "data" with
      | None => Raised TypeError
      | Some data =>
          match py_in "paths" data with
          | None => Raised TypeError
          | Some false => Exit 1
          | Some true =>
              match getitem data "paths" with
              | None => Raised TypeError
              | Some urls => Returned urls
              end
          end
      end
  end.

(** The items of [urls], which the model takes to be a list of
    strings. *)
Fixpoint str_items (l : list yaml) : option (list string) :=
  match l with
  | [] => Some []
  | YStr u :: rest => option_map (cons u) (str_items rest)
  | _ :: _ => None
  end.

(** The negation of the condition under which the loop of [main]
    drops an item. *)
Definition keeps (include_prefixes : list string) (rel : string) : bool :=
  negb (match include_prefixes with [] => false | _ :: _ => true end
        && negb (List.existsb (startswith rel) include_prefixes)).

(** The loop of [main] that builds [pairs]. *)
Fixpoint build_pairs (trim_prefix : string) (include_prefixes : list string)
    (urls : list string) : option (list (string * string)) :=
  match urls with
  | [] => Some []
  | url :: rest =>
      match normalize_relative_path url trim_prefix,
            build_pairs trim_prefix include_prefixes rest with
      | Some rel, Some pairs =>
          if keeps include_prefixes rel
          then Some ((url, rel) :: pairs)
          else Some pairs
      | _, _ => None
      end
  end.

(** The text of the script for the resolved data directory. *)
Definition render (data_dir : string) (pairs : list (string * string)) : string :=
  fold_left (fun script p => script +:+ LINE (fst p) (snd p)) pairs
            (HEADER (Shlex.quote data_dir)).

(** [main()], from the loaded manifest on: the pairs kept and the text
    written to [--out]. The loop ends the run with the [ValueError] of
    the URL parser at the first URL the parser rejects, and a scalar
    that is no string cannot be iterated ([TypeError]). The model gives
    no result when [urls] is a string or a mapping, or a list with an
    item that is no string. *)
Definition main (args : Args) (y : yaml) (cwd : list string)
  : option (outcome (list (string * string) * string)) :=
  match data_paths y with
  | Exit code => Some (Exit code)
  | Raised e => Some (Raised e)
  | Returned (YList items) =>
      match str_items items with
      | None => None
      | Some urls =>
          let include_prefixes := normalize_prefixes (include_prefix args) in
          match build_pairs (trim_prefix args) include_prefixes urls with
          | None => Some (Raised ValueError)
          | Some [] => Some (Exit 2)
          | Some pairs =>
              let root := PathLib.to_str
                            (PathLib.resolve cwd (PathLib.parse (data_dir args))) in
              Some (Returned (pairs, render root pairs))
          end
      end
  | Returned (YStr _) | Returned (YDict _) => None
  | Returned _ => Some (Raised TypeError)
  end.

End MakeWget.

(** ** check_targets.py *)

Module CheckTargets.
Import PyStr.

(** Decimal notation of a number, as an f-string prints it. *)
Definition show_nat (n : nat) : string :=
  DecimalString.NilEmpty.string_of_uint (Nat.to_uint n).

(** [l[-1]]; [None] is the [IndexError] on an empty list. *)
Definition py_last {A : Type} (l : list A) : option A :=
  List.last (map Some l) None.

Definition line_break (c : ascii) : bool := is_char "010" c || is_char "013" c.

(** The tokens that follow a [-O] in a tokenized line. *)
Fixpoint targets_after_O (tokens : list string) : list string :=
  match tokens with
  | [] => []
  | tok :: rest =>
      match rest with
      | next :: _ =>
          if String.eqb tok "-O" then next :: targets_after_O rest
          else targets_after_O rest
      | [] => []
      end
  end.

(** The body of the loop of [extract_targets_from_sh] for one line. *)
Definition extract_line (raw : string) : list string :=
  let line := strip raw in
  if negb (truthy line) || startswith line "#" then []
  else match Shlex.split line with
       | None => []
       | Some tokens => targets_after_O tokens
       end.

(** [extract_targets_from_sh], on the text of the script. A text file
    is read line by line, the lines ending at a line feed, a carriage
    return, or both; cutting at every line feed and carriage return
    gives the same lines and some empty ones more, which the loop
    skips. *)
Definition extract_targets_from_sh (script : string) : list string :=
  flat_map extract_line (split line_break script).

Definition opt_truthy (o : option string) : option string :=
  match o with
  | Some s => if truthy s then Some s else None
  | None => None
  end.

(** [ASSIGN_RE.match(line)]: the texts of the groups 1 and 2 when the
    pattern [^\s*(?:export\s+)?DATA_DIR\s*=\s*(Q?)(.*?)\1\s*$]
    matches at the start of [line], [Q] being the class of the single
    and the double quote. The class [\s] of a [str] pattern is the
    white space of [str.isspace]. *)
Definition ASSIGN_RE (line : string) : option (string * string) :=
  PyRe.star isspace
    (PyRe.opt (fun k => PyRe.lit "export" (PyRe.plus isspace k))
       (PyRe.lit "DATA_DIR"
          (PyRe.star isspace
             (PyRe.lit "="
                (PyRe.star isspace
                   (PyRe.opt_group Shlex.is_quote (fun g1 =>
                      PyRe.lazy_group PyRe.dot (fun g2 =>
                        PyRe.lit g1
                          (PyRe.star isspace
                             (fun rest => if PyRe.at_end rest
                                          then Some (g1, g2) else None)))
                        EmptyString)))))))
    line.

(** [str(Path(s).expanduser().resolve())]. [expanduser] changes a
    relative path whose first segment starts with [~]; such a path is
    outside the model ([None]). *)
Definition expanduser_resolve (cwd : list string) (s : string) : option string :=
  let p := PathLib.parse s in
  if negb (PathLib.is_absolute p)
     && match PathLib.parts p with
        | first :: _ => startswith first "~"
        | [] => false
        end
  then None
  else Some (PathLib.to_str (PathLib.resolve cwd p)).

(** The loop of [parse_data_dir] over the lines of the script: the
    first assignment whose value is not blank. The outer [None] is a
    value outside the model ([expanduser_resolve]). *)
Fixpoint first_assignment (cwd : list string) (lines : list string)
  : option (option string) :=
  match lines with
  | [] => Some None
  | line :: rest =>
      match ASSIGN_RE line with
      | Some (_, g2) =>
          let value := strip g2 in
          if truthy value then option_map Some (expanduser_resolve cwd value)
          else first_assignment cwd rest
      | None => first_assignment cwd rest
      end
  end.

(** [parse_data_dir(cli_data_dir, script_path)], with the value [env]
    of the environment variable [DATA_DIR] and the text [script] of the
    script, if the file exists. The outer [None] is a value outside the
    model ([expanduser_resolve]); the inner one is the [None] that the
    function returns. *)
Definition parse_data_dir (cli_data_dir env script : option string)
    (cwd : list string) : option (option string) :=
  match opt_truthy cli_data_dir with
  | Some d => option_map Some (expanduser_resolve cwd d)
  | None =>
      match opt_truthy env with
      | Some d => option_map Some (expanduser_resolve cwd d)
      | None =>
          match script with
          | Some text => first_assignment cwd (text_lines text)
          | None => Some None
          end
      end
  end.

Definition normalize_to_relative (cwd : list string) (target_token : string)
    (data_dir : option string) : string * option string :=
  let under (rel : string) : option string :=
    option_map (fun d => PathLib.to_str (PathLib.joinpath (PathLib.parse d) rel))
               (opt_truthy data_dir) in
  if startswith target_token "$DATA_DIR/"
  then let rel := drop (String.length "$DATA_DIR/") target_token in (rel, under rel)
  else if startswith target_token "${DATA_DIR}/"
  then let rel := drop (String.length "${DATA_DIR}/") target_token in (rel, under rel)
  else
    let p := PathLib.parse target_token in
    if PathLib.is_absolute p then
      match opt_truthy data_dir with
      | Some d =>
          let resolved := PathLib.resolve cwd p in
          let rel :=
            match PathLib.relative_to resolved
                    (PathLib.resolve cwd (PathLib.parse d)) with
            | Some r => PathLib.to_str r
            | None => PathLib.name p
            end in
          (rel, Some (PathLib.to_str resolved))
      | None => (PathLib.to_str p, Some (PathLib.to_str p))
      end
    else (target_token, under target_token).

(** [unique_preserve_order] *)
Fixpoint unique_from (seen : gset string) (items : list string) : list string :=
  match items with
  | [] => []
  | x :: rest =>
      if bool_decide (x ∈ seen) then unique_from seen rest
      else x :: unique_from ({[x]} ∪ seen) rest
  end.
Definition unique_preserve_order (items : list string) : list string :=
  unique_from ∅ items.

Record Args : Type := mkArgs {
  filter_prefix : option string;
  show_existing : bool
}.

(** The loop of [main] that normalizes and filters the tokens. *)
Definition rel_abs_pairs (cwd : list string) (filter_prefix : option string)
    (data_dir : string) (targets_tokens : list string)
  : list (string * option string) :=
  flat_map (fun tok =>
    let '(rel, abs_path) := normalize_to_relative cwd tok (Some data_dir) in
    match opt_truthy filter_prefix with
    | Some fp => if negb (startswith rel fp) then [] else [(rel, abs_path)]
    | None => [(rel, abs_path)]
    end) targets_tokens.

(** The loop of [main] that removes duplicates by relative path. *)
Fixpoint dedup_pairs (seen : gset string) (pairs : list (string * option string))
  : list (string * option string) :=
  match pairs with
  | [] => []
  | (rel, ab) :: rest =>
      if bool_decide (rel ∈ seen) then dedup_pairs seen rest
      else (rel, ab) :: dedup_pairs ({[rel]} ∪ seen) rest
  end.

Definition abs_of (data_dir : string) (pair : string * option string) : string :=
  match opt_truthy (snd pair) with
  | Some ab => ab
  | None => PathLib.to_str (PathLib.joinpath (PathLib.parse data_dir) (fst pair))
  end.

Definition on_disk (fs : FileSystem.t) (data_dir : string)
    (pair : string * option string) : bool :=
  FileSystem.is_file fs (PathLib.parse (abs_of data_dir pair)).

(** The loop of [main] that checks existence in script order. *)
Definition existing (fs : FileSystem.t) (data_dir : string)
    (pairs_unique : list (string * option string)) : list (string * string) :=
  map (fun pair => (fst pair, abs_of data_dir pair))
      (List.filter (on_disk fs data_dir) pairs_unique).

Definition missing (fs : FileSystem.t) (data_dir : string)
    (pairs_unique : list (string * option string)) : list (string * string) :=
  map (fun pair => (fst pair, abs_of data_dir pair))
      (List.filter (fun pair => negb (on_disk fs data_dir pair)) pairs_unique).

Definition arrow (p : string * string) : string := fst p +:+ " -> " +:+ snd p.

Definition MISSING_HEADER : string :=
  MakeWget.nl +:+ "--- Missing files (relative -> absolute) ---".
Definition LAST_HEADER : string :=
  MakeWget.nl +:+ "--- Last existing (by script order) ---".
Definition ALL_HEADER : string :=
  MakeWget.nl +:+ "--- All existing (in script order) ---".
Definition NONE_EXISTING : string :=
  MakeWget.nl +:+ "No existing targets found.".

(** The report: the strings printed, one per call of [print]; first the
    three counts, then the missing targets, if any. *)
Definition report_head (data_dir : string)
    (pairs_unique : list (string * option string))
    (existing missing : list (string * string)) : list string :=
  ["DATA_DIR: " +:+ data_dir;
   "Total unique targets: " +:+ show_nat (List.length pairs_unique);
   "Existing: " +:+ show_nat (List.length existing) +:+ "  |  Missing: "
     +:+ show_nat (List.length missing)].

Definition missing_lines (missing : list (string * string)) : list string :=
  match missing with
  | [] => []
  | _ :: _ => MISSING_HEADER :: map arrow missing
  end.

Definition existing_lines (show_all : bool) (existing : list (string * string))
  : list string :=
  if show_all then ALL_HEADER :: map arrow existing else [].

Definition report (show_all : bool) (data_dir : string)
    (pairs_unique : list (string * option string))
    (existing missing : list (string * string)) : exception + list string :=
  let head := report_head data_dir pairs_unique existing missing in
  let miss := missing_lines missing in
  match existing with
  | [] => inr (head ++ miss ++ [NONE_EXISTING])
  | _ :: _ =>
      match py_last existing with
      | None => inl IndexError
      | Some (last_rel, last_abs) =>
          inr (head ++ miss ++ [LAST_HEADER; last_rel; last_abs]
               ++ existing_lines show_all existing)
      end
  end.

(** [main()]: [script] is the text of the script, if the file exists,
    and [data_dir] what [parse_data_dir] returns. The result is what is
    printed to the standard output, or the exit status. *)
Definition main (args : Args) (script : option string) (data_dir : option string)
    (fs : FileSystem.t) : outcome (list string) :=
  match script with
  | None => Exit 1
  | Some text =>
      match opt_truthy data_dir with
      | None => Exit 2
      | Some data_dir =>
          match extract_targets_from_sh text with
          | [] => Exit 3
          | targets_tokens =>
              match rel_abs_pairs (FileSystem.cwd fs) (filter_prefix args)
                      data_dir targets_tokens with
              | [] => Exit 4
              | pairs =>
                  let pairs_unique := dedup_pairs ∅ pairs in
                  match report (show_existing args) data_dir pairs_unique
                          (existing fs data_dir pairs_unique)
                          (missing fs data_dir pairs_unique) with
                  | inl e => Raised e
                  | inr printed => Returned printed
                  end
              end
          end
      end
  end.

End CheckTargets.

(** ** The task function of the Download Engine *)

(** Modelled from the spec: the per-task function [download_one], which
    [download_data.py] submits to the worker pool and neither defines
    nor imports. The steps are those of the per-task protocol of the
    Download Engine (section 4.3): create the parent directory, decide
    to skip with [should_skip], otherwise transfer through the session of
    [make_session] and record [succeeded] or [failed]. A transfer whose
    final answer is an error status (400 and above) or an exception has
    failed. *)
Module DownloadSpec.

Inductive status : Type := skipped | succeeded | failed.

Record DownloadResult : Type := mkResult {
  result_url : string;
  result_status : status;
  bytesWritten : N;
  probes_sent : nat;       (* HEAD attempts *)
  transfers_sent : nat     (* GET attempts *)
}.

Definition write_file (now : Z) (dst : PathLib.PurePath) (size : N)
    (fs : FileSystem.t) : FileSystem.t :=
  FileSystem.mkFs (FileSystem.cwd fs)
    (<[FileSystem.key fs dst := mkStat false size now]> (FileSystem.entries fs)).

Definition download_one (session : Requests.Session) (net : Requests.network)
    (now : Z) (url : string) (dst : PathLib.PurePath) (fs : FileSystem.t)
  : DownloadResult * FileSystem.t :=
  match DownloadData.ensure_parent_dir now dst fs with
  | None => (mkResult url failed 0 0 0, fs)
  | Some fs =>
      let '(skip, probes) := DownloadData.should_skip session net fs url dst in
      if skip then (mkResult url skipped 0 probes 0, fs)
      else
        match Requests.request session net "GET" url with
        | (Requests.Received resp, attempts) =>
            if (Requests.status resp <? 400)%Z
            then (mkResult url succeeded (Requests.body_size resp) probes attempts,
                  write_file now dst (Requests.body_size resp) fs)
            else (mkResult url failed 0 probes attempts, fs)
        | (Requests.RequestException, attempts) =>
            (mkResult url failed 0 probes attempts, fs)
        end
  end.

End DownloadSpec.

(** ** The specification's wording of the Normalizer *)

Module Spec.
Import PyStr.

(** "Strip any leading slash; if the result starts with [trimPrefix]
    (also slash-stripped), remove that prefix and any resulting leading
    slash", applied to the path component of the URL. *)
Definition normalize_path (path trimPrefix : string) : string :=
  let stripped := lstrip (is_char "/") path in
  let trim := lstrip (is_char "/") trimPrefix in
  if startswith stripped trim
  then lstrip (is_char "/") (drop (String.length trim) stripped)
  else stripped.

(** "RelativePath: slash-separated string, no leading slash, no
    parent-directory traversal segments." *)
Definition segments (rel : string) : list string := split (is_char "/") rel.

Definition traversal_free (rel : string) : bool :=
  negb (List.existsb (String.eqb "..") (segments rel)).

Definition relative_path (rel : string) : bool :=
  negb (startswith rel "/") && traversal_free rel.

(** "Keep an item only if its relative path starts with one of the
    supplied include-prefixes (case-sensitive, slash-stripped, may be
    comma-expanded into a set); absence of any include-prefix means
    keep everything." *)
Definition include_prefixes (supplied : list string) : list string :=
  map (lstrip (is_char "/")) (flat_map (split (is_char ",")) supplied).

Definition keeps (supplied : list string) (rel : string) : bool :=
  match supplied with
  | [] => true
  | _ :: _ => List.existsb (startswith rel) (include_prefixes supplied)
  end.

End Spec.

(** ** Notions used in the statements *)

(** What both normalizers compute from the path that [urlparse] found. *)
Definition trim_path (path trim_prefix : string) : string :=
  let rel := PyStr.lstrip (PyStr.is_char "/") (PyStr.py_or path "/") in
  let trim := PyStr.lstrip (PyStr.is_char "/") (PyStr.py_or trim_prefix "") in
  if PyStr.truthy trim && PyStr.startswith rel trim
  then PyStr.lstrip (PyStr.is_char "/") (PyStr.drop (String.length trim) rel)
  else rel.

(** The prefixes the Download Engine and the Script Synthesizer match
    against: the tokens between commas, trimmed of white space, the
    empty ones dropped, the leading slashes stripped. *)
Definition supplied_prefix (supplied : list string) (p : string) : Prop :=
  exists raw token : string,
    In raw supplied /\ In token (PyStr.split (PyStr.is_char ",") raw)
    /\ PyStr.strip token <> ""
    /\ p = PyStr.lstrip (PyStr.is_char "/") (PyStr.strip token).

(** The rule of the two tools that take [--include-prefix]. *)
Definition kept_rule (supplied : list string) (rel : string) : Prop :=
  DownloadData.normalize_prefixes supplied = []
  \/ exists p, supplied_prefix supplied p /\ PyStr.startswith rel p = true.

(** The rule of the Target Verifier: one prefix, matched as given. *)
Definition verifier_keeps (filter_prefix : option string) (rel : string) : bool :=
  match filter_prefix with
  | Some fp => negb (PyStr.truthy fp) || PyStr.startswith rel fp
  | None => true
  end.

(** [avoids p s]: no character of [s] satisfies [p]. *)
Definition avoids (p : ascii -> bool) (s : string) : Prop :=
  PyStr.existsb p s = false.

(** A host part that holds a bracket. *)
Definition has_bracket (s : string) : bool :=
  PyStr.contains "[" s || PyStr.contains "]" s.

(** [params_free s]: [_splitparams] finds nothing to cut in [s]. *)
Definition params_free (s : string) : Prop :=
  fst (UrlParse.splitparams s) = s.

(** The path that [urlparse] returns, step by step. *)
Definition cleaned (url : string) : string :=
  PyStr.remove UrlParse.unsafe_url_byte
    (PyStr.lstrip UrlParse.c0_control_or_space url).

Definition after_netloc (url : string) : string :=
  snd (UrlParse.split_netloc (snd (UrlParse.split_scheme (cleaned url)))).

Definition before_params (url : string) : string :=
  fst (UrlParse.split_once "?" (fst (UrlParse.split_once "#" (after_netloc url)))).

(** A string that is one match of the URL pattern of the Extractor: it
    starts with [http://] or [https://], something follows, and it holds
    no white space. *)
Definition single_url (u : string) : Prop :=
  PyRe.url_head u = true /\ avoids PyStr.isspace u.

(** The items of a list in the order of their first occurrences: the
    head is kept, and removed from what follows. *)
Fixpoint first_occurrences (l : list string) : list string :=
  match l with
  | [] => []
  | x :: rest =>
      x :: List.filter (fun y => negb (String.eqb y x)) (first_occurrences rest)
  end.

(** A value of the manifest in which the Extractor finds no URL. *)
Definition url_free (v : yaml) : Prop :=
  DownloadData.extract_urls_from_any v = [].

(** The manifest with the list [urls] under [data.paths], among further
    entries of the manifest and of the mapping under [data]. *)
Definition listing (before dbefore : list (string * yaml)) (urls : list string)
    (dafter after : list (string * yaml)) : yaml :=
  YDict (before
         ++ ("data", YDict (dbefore ++ ("paths", YList (map YStr urls)) :: dafter))
         :: after).

(** The manifest [{data: {paths: [u1, ..., un]}}]. *)
Definition paths_manifest (urls : list string) : yaml :=
  YDict [("data", YDict [("paths", YList (map YStr urls))])].

(** The task of the Download Engine for a pair of the Script
    Synthesizer. *)
Definition task_of_pair (D : PathLib.PurePath) (pair : string * string)
  : string * PathLib.PurePath :=
  (fst pair, PathLib.joinpath D (snd pair)).



(** Sample data for the instances. *)
Definition sample_fs : FileSystem.t :=
  FileSystem.mkFs []
    (<["/data" := mkStat true 4096%N 0%Z]>
       (<["/data/a" := mkStat true 4096%N 0%Z]>
          (<["/data/a/x" := mkStat false 10%N 0%Z]> ∅))).

Definition sample_response (status : Z) (content_length : option string)
  : Requests.response :=
  Requests.mkResponse status false content_length 10%N.

(** A remote side that answers every probe with the size 10, and the
    transfers with a 503 followed by a 200. *)
Definition sample_net : Requests.network :=
  fun method url k =>
    if String.eqb method "HEAD"
    then Requests.Answer (sample_response 200 (Some "10"))
    else match k with
         | O => Requests.Answer (sample_response 503 None)
         | S _ => Requests.Answer (sample_response 200 (Some "10"))
         end.


(** A script with four targets, and a file system in which the second
    and the fourth exist, the second being the more recent file. *)
Definition four_targets : string :=
  "wget -c https://h/A -O $DATA_DIR/A" +:+ MakeWget.nl +:+
  "wget -c https://h/B -O $DATA_DIR/B" +:+ MakeWget.nl +:+
  "wget -c https://h/C -O $DATA_DIR/C" +:+ MakeWget.nl +:+
  "wget -c https://h/D -O $DATA_DIR/D" +:+ MakeWget.nl.

Definition second_and_fourth : FileSystem.t :=
  FileSystem.mkFs []
    (<["/data" := mkStat true 4096%N 0%Z]>
       (<["/data/B" := mkStat false 10%N 200%Z]>
          (<["/data/D" := mkStat false 10%N 100%Z]> ∅))).

(** The characters that the script and its reader treat specially
    between double quotes, and white space. *)
Definition shell_special (c : ascii) : bool :=
  PyStr.isspace c || PyStr.is_char Shlex.dquote c
  || PyStr.is_char Shlex.backslash c.

(** The fetch target that the script names for a relative path. *)
Definition fetch_target (rel : string) : string := "$DATA_DIR/" +:+ rel.

(** The file system after a change of every modification time. *)
Definition touch (t : Z) (fs : FileSystem.t) : FileSystem.t :=
  FileSystem.mkFs (FileSystem.cwd fs)
    ((fun st => mkStat (st_is_dir st) (st_size st) t) <$> FileSystem.entries fs).

(** The manifest of the end-to-end example, and a file system in which
    both of its files are present. *)
Definition two_urls : yaml :=
  paths_manifest ["https://h/p/a/x"; "https://h/p/a/y"].

Definition both_present : FileSystem.t :=
  FileSystem.mkFs []
    (<["/data/root/a/x" := mkStat false 10%N 0%Z]>
       (<["/data/root/a/y" := mkStat false 10%N 0%Z]> ∅)).

(** [ends_well p s]: [s] is not empty and [rstrip] leaves it alone. *)
Definition ends_well (p : ascii -> bool) (s : string) : Prop :=
  PyStr.rstrip p s = s /\ s <> "".

(** The characters that extend a word of the tokenizer. *)
Definition word_char (c : ascii) : bool :=
  negb (Shlex.whitespace c) && negb (Shlex.is_quote c)
  && negb (PyStr.is_char Shlex.backslash c).

(** The characters that are taken as they are between double quotes. *)
Definition dquoted_char (c : ascii) : bool :=
  negb (PyStr.is_char Shlex.dquote c) && negb (PyStr.is_char Shlex.backslash c).

(** The replacement of a single quote by [shlex.quote]. *)
Definition squote_escape : string :=
  String Shlex.squote (String Shlex.dquote (String Shlex.squote
    (String Shlex.dquote (String Shlex.squote EmptyString)))).

(** A URL that holds a double quote. *)
Definition quoted_url : string := "https://h/p/a" +:+ MakeWget.dq +:+ "b".

(** [is_directory fs p]: the path [p] exists in [fs] and is a
    directory. *)
Definition is_directory (fs : FileSystem.t) (p : PathLib.PurePath) : Prop :=
  exists st, FileSystem.lookup fs p = Some st /\ st_is_dir st = true.

(** [grown fs fs']: [fs'] is [fs] with directories added; the working
    directory is the same, every entry of [fs] is in [fs'] unchanged,
    and what [fs'] has more are directories. *)
Definition grown (fs fs' : FileSystem.t) : Prop :=
  FileSystem.cwd fs' = FileSystem.cwd fs
  /\ (forall k st, FileSystem.entries fs !! k = Some st ->
                   FileSystem.entries fs' !! k = Some st)
  /\ (forall k st, FileSystem.entries fs' !! k = Some st ->
                   FileSystem.entries fs !! k = Some st
                   \/ (FileSystem.entries fs !! k = None /\ st_is_dir st = true)).

(** A segment of a resolved path: not empty, without slash, and neither
    [.] nor [..]. *)
Definition plain_segment (s : string) : Prop :=
  s <> "" /\ s <> "." /\ s <> ".." /\ avoids (PyStr.is_char "/") s.

(** White space only. *)
Definition blank (s : string) : Prop := PyStr.forallb PyStr.isspace s = true.

(** The entries of all the mappings of a manifest, at any depth. *)
Fixpoint all_entries (y : yaml) : list (string * yaml) :=
  match y with
  | YDict d => flat_map (fun kv => let '(k, v) := kv in (k, v) :: all_entries v) d
  | YList l => flat_map all_entries l
  | _ => []
  end.


(** * Properties *)

(** ** Strings *)

(** String concatenation reduces on a constructor, as list concatenation
    does. *)
Arguments String.append !s1 s2 : simpl nomatch.
Arguments Ascii.eqb : simpl never.
Arguments PyStr.is_char : simpl never.

Section StringFacts.
Import PyStr.
Variable p : ascii -> bool.

Lemma append_nil_r (s : string) : s +:+ "" = s.
Proof. induction s as [|c s IH]; simpl; [reflexivity | now rewrite IH]. Qed.

Lemma append_assoc (a b c : string) : (a +:+ b) +:+ c = a +:+ (b +:+ c).
Proof. induction a as [|x a IH]; simpl; [reflexivity | now rewrite IH]. Qed.

Lemma length_append (a b : string) :
  String.length (a +:+ b) = String.length a + String.length b.
Proof. induction a as [|x a IH]; simpl; [reflexivity | now rewrite IH]. Qed.

Lemma truthy_false (s : string) : truthy s = false -> s = "".
Proof. destruct s; [reflexivity | discriminate]. Qed.

Lemma lstrip_head (s : string) :
  existsb p (String.substring 0 1 (lstrip p s)) = false.
Proof.
  induction s as [|c s IH]; simpl; [reflexivity|].
  destruct (p c) eqn:E; [exact IH|].
  simpl. destruct s; simpl; now rewrite E.
Qed.

Lemma lstrip_idem (s : string) : lstrip p (lstrip p s) = lstrip p s.
Proof.
  induction s as [|c s IH]; simpl; [reflexivity|].
  destruct (p c) eqn:E; [exact IH|]. simpl. now rewrite E.
Qed.

(** A string whose first character is kept is not changed. *)
Lemma lstrip_fixed (c : ascii) (s : string) :
  p c = false -> lstrip p (String c s) = String c s.
Proof. intros E. simpl. now rewrite E. Qed.

Lemma lstrip_all (s : string) : forallb p s = true -> lstrip p s = "".
Proof.
  induction s as [|c s IH]; simpl; [reflexivity|].
  intros H. apply andb_prop in H as [Hc Hs]. rewrite Hc. auto.
Qed.

Lemma lstrip_nil_all (s : string) : lstrip p s = "" -> forallb p s = true.
Proof.
  induction s as [|c s IH]; simpl; [reflexivity|].
  destruct (p c); [auto | discriminate].
Qed.

Lemma lstrip_app_all (a b : string) :
  forallb p a = true -> lstrip p (a +:+ b) = lstrip p b.
Proof.
  induction a as [|c a IH]; simpl; [reflexivity|].
  intros H. apply andb_prop in H as [Hc Ha]. rewrite Hc. auto.
Qed.

Lemma lstrip_app_keep (a b : string) :
  lstrip p a <> "" -> lstrip p (a +:+ b) = lstrip p a +:+ b.
Proof.
  induction a as [|c a IH]; simpl; [congruence|].
  destruct (p c); [exact IH | reflexivity].
Qed.

Lemma startswith_nil (s : string) : startswith s "" = true.
Proof. destruct s; reflexivity. Qed.

Lemma startswith_app (a b : string) : startswith (a +:+ b) a = true.
Proof.
  induction a as [|c a IH]; simpl; [reflexivity|].
  now rewrite Ascii.eqb_refl.
Qed.

Lemma startswith_inv (s t : string) :
  startswith s t = true -> s = t +:+ drop (String.length t) s.
Proof.
  revert s. induction t as [|c t IH]; intros s H; [reflexivity|].
  destruct s as [|d s]; simpl in H; [discriminate|].
  apply andb_prop in H as [Hc Hs]. apply Ascii.eqb_eq in Hc. subst d.
  simpl. f_equal. auto.
Qed.

Lemma drop_app (a b : string) : drop (String.length a) (a +:+ b) = b.
Proof. induction a as [|c a IH]; simpl; [reflexivity | exact IH]. Qed.

Lemma drop_nil (n : nat) : drop n "" = "".
Proof. destruct n; reflexivity. Qed.

End StringFacts.

(** ** C1: the contract of the Normalizer *)

Section Normalizer.
Import PyStr.

Local Abbreviation slash := (PyStr.is_char "/").

Lemma download_normalize_unfold (u t : string) :
  DownloadData.normalize_relative_path u t
  = option_map (fun parsed => trim_path (UrlParse.path parsed) t)
               (UrlParse.urlparse u).
Proof.
  unfold DownloadData.normalize_relative_path.
  destruct (UrlParse.urlparse u); reflexivity.
Qed.

Lemma wget_normalize_unfold (u t : string) :
  MakeWget.normalize_relative_path u t
  = option_map (fun parsed => trim_path (UrlParse.path parsed) t)
               (UrlParse.urlparse u).
Proof.
  unfold MakeWget.normalize_relative_path, trim_path.
  destruct (UrlParse.urlparse u) as [parsed|]; [simpl|reflexivity].
  match goal with |- (if ?b then _ else _) = _ => destruct b end;
    reflexivity.
Qed.

Lemma py_or_slash_lstrip (path : string) :
  lstrip slash (py_or path "/") = lstrip slash path.
Proof. destruct path; reflexivity. Qed.

Lemma py_or_nil (t : string) : py_or t "" = t.
Proof. destruct t; reflexivity. Qed.

(** The guard [trim and ...] of the code is immaterial: with an empty
    [trim] the branch taken strips an already stripped string. *)
Lemma trim_path_spec (path t : string) :
  trim_path path t = Spec.normalize_path path t.
Proof.
  unfold trim_path, Spec.normalize_path.
  rewrite py_or_slash_lstrip, py_or_nil.
  destruct (lstrip slash t) as [|c trim] eqn:Et.
  - rewrite startswith_nil. simpl. now rewrite lstrip_idem.
  - reflexivity.
Qed.

Lemma trim_path_prefix (t rel : string) :
  startswith rel "/" = false -> trim_path (t +:+ rel) t = rel.
Proof.
  intros Hrel.
  assert (Hfix : lstrip slash rel = rel).
  { destruct rel as [|c r]; [reflexivity|]. cbn [startswith lstrip] in *.
    unfold is_char. rewrite andb_true_r in Hrel. now rewrite Hrel. }
  rewrite trim_path_spec. unfold Spec.normalize_path.
  destruct (lstrip slash t) as [|c trim] eqn:Et.
  - rewrite startswith_nil. simpl.
    rewrite lstrip_idem, lstrip_app_all by now apply lstrip_nil_all.
    exact Hfix.
  - rewrite lstrip_app_keep by congruence. rewrite Et.
    now rewrite startswith_app, drop_app.
Qed.

End Normalizer.


(** ** C9: filtering by include-prefix *)

Section IncludePrefix.
Import PyStr.

Local Abbreviation slash := (PyStr.is_char "/").
Local Abbreviation comma := (PyStr.is_char ",").

Lemma normalize_prefixes_same (supplied : list string) :
  MakeWget.normalize_prefixes supplied = DownloadData.normalize_prefixes supplied.
Proof. reflexivity. Qed.

Lemma in_normalize_prefixes (supplied : list string) (p : string) :
  In p (DownloadData.normalize_prefixes supplied) <-> supplied_prefix supplied p.
Proof.
  unfold DownloadData.normalize_prefixes, supplied_prefix.
  rewrite in_flat_map. split.
  - intros (raw & Hraw & Hin). apply in_flat_map in Hin as (token & Htok & Hp).
    exists raw, token. destruct (strip token) eqn:E; simpl in Hp; [tauto|].
    destruct Hp as [<-|[]]. repeat split; auto; congruence.
  - intros (raw & token & Hraw & Htok & Hne & ->).
    exists raw. split; [assumption|]. apply in_flat_map.
    exists token. split; [assumption|].
    destruct (strip token); [congruence|]. now left.
Qed.

Lemma keeps_iff (prefixes : list string) (rel : string) :
  DownloadData.keeps prefixes rel = true
  <-> prefixes = [] \/ exists p, In p prefixes /\ startswith rel p = true.
Proof.
  unfold DownloadData.keeps. destruct prefixes as [|q ps].
  - simpl. intuition.
  - rewrite andb_true_l, negb_involutive, existsb_exists.
    split; [intros H; now right | intros [H|H]; [discriminate | exact H]].
Qed.

Lemma wget_keeps_same (prefixes : list string) (rel : string) :
  MakeWget.keeps prefixes rel = DownloadData.keeps prefixes rel.
Proof. reflexivity. Qed.

Lemma keeps_rule (supplied : list string) (rel : string) :
  DownloadData.keeps (DownloadData.normalize_prefixes supplied) rel = true
  <-> kept_rule supplied rel.
Proof.
  rewrite keeps_iff. unfold kept_rule.
  split; (intros [H|(p & Hp & Hs)]; [now left | right; exists p]);
    (split; [now apply in_normalize_prefixes | assumption]).
Qed.

Lemma rel_abs_pairs_one (cwd : list string) (fp : option string)
    (d tok : string) :
  CheckTargets.rel_abs_pairs cwd fp d [tok]
  = let pair := CheckTargets.normalize_to_relative cwd tok (Some d) in
    if verifier_keeps fp (fst pair) then [pair] else [].
Proof.
  unfold CheckTargets.rel_abs_pairs, verifier_keeps. simpl.
  destruct (CheckTargets.normalize_to_relative cwd tok (Some d)) as [rel ab].
  cbn [fst]. rewrite app_nil_r.
  destruct fp as [[|c fp]|]; cbn [CheckTargets.opt_truthy truthy negb orb];
    try reflexivity.
  destruct (startswith rel (String c fp)); reflexivity.
Qed.

End IncludePrefix.

(** The Target Verifier drops [a/x] under the filter [/a], which the
    rule of the claim (slash-stripped prefixes) keeps. *)
Lemma C9_verifier_counterexample :
  CheckTargets.rel_abs_pairs [] (Some "/a") "/d" ["$DATA_DIR/a/x"] = []
  /\ fst (CheckTargets.normalize_to_relative [] "$DATA_DIR/a/x" (Some "/d")) = "a/x"
  /\ Spec.keeps ["/a"] "a/x" = true.
Proof. repeat split. Qed.

(** C9 (amended). In the Download Engine and the Script Synthesizer an
    item is kept iff no prefix remains after normalization or its
    relative path starts with one of the prefixes, which are the tokens
    between the commas of the supplied arguments, trimmed of white
    space, without the empty ones, and slash-stripped; matching is exact
    on characters, and without any argument every item is kept. In the
    Target Verifier the single filter prefix is matched as given,
    neither split at commas nor slash-stripped, and an absent or empty
    prefix keeps every item. *)
Theorem C9_include_prefix_filter :
  forall (supplied : list string) (url t rel : string) (D : PathLib.PurePath),
    DownloadData.normalize_relative_path url t = Some rel ->
    let prefixes := DownloadData.normalize_prefixes supplied in
    (* Download Engine *)
    (DownloadData.build_tasks D t prefixes [url]
       = Some (if DownloadData.keeps prefixes rel
               then [(url, PathLib.joinpath D rel)] else []))
    /\ (DownloadData.keeps prefixes rel = true <-> kept_rule supplied rel)
    (* Script Synthesizer *)
    /\ (MakeWget.build_pairs t (MakeWget.normalize_prefixes supplied) [url]
          = Some (if DownloadData.keeps prefixes rel then [(url, rel)] else []))
    (* no include-prefix *)
    /\ DownloadData.keeps (DownloadData.normalize_prefixes []) rel = true
    (* Target Verifier *)
    /\ (forall (cwd : list string) (fp : option string) (d tok : string),
          CheckTargets.rel_abs_pairs cwd fp d [tok]
          = let pair := CheckTargets.normalize_to_relative cwd tok (Some d) in
            if verifier_keeps fp (fst pair) then [pair] else []).
Proof.
  intros supplied url t rel D Hrel prefixes.
  assert (Hw : MakeWget.normalize_relative_path url t = Some rel).
  { now rewrite wget_normalize_unfold, <- download_normalize_unfold. }
  repeat split.
  - simpl. rewrite Hrel. now destruct (DownloadData.keeps prefixes rel).
  - apply keeps_rule.
  - apply keeps_rule.
  - simpl. rewrite Hw, normalize_prefixes_same, wget_keeps_same.
    fold prefixes. now destruct (DownloadData.keeps prefixes rel).
  - apply rel_abs_pairs_one.
Qed.

Lemma C9_include_prefix_filter_witness :
  DownloadData.build_tasks (PathLib.parse "/d") "/p/"
      (DownloadData.normalize_prefixes [" /a/ ,b"]) ["https://h/p/a/x"]
    = Some [("https://h/p/a/x", PathLib.joinpath (PathLib.parse "/d") "a/x")]
  /\ MakeWget.build_pairs "/p/" (MakeWget.normalize_prefixes [" /a/ ,b"])
       ["https://h/p/a/x"]
     = Some [("https://h/p/a/x", "a/x")].
Proof.
  pose proof (C9_include_prefix_filter [" /a/ ,b"] "https://h/p/a/x" "/p/" "a/x"
                (PathLib.parse "/d") eq_refl) as (H1 & _ & H3 & _).
  split; [exact H1 | exact H3].
Defined.


(** ** C3: relative paths and the data root *)

Section Segments.
Import PyStr.
Variable p : ascii -> bool.

Lemma split_not_nil (s : string) : split p s <> [].
Proof.
  destruct s as [|c s]; simpl; [discriminate|].
  destruct (p c); [discriminate|]. destruct (split p s); discriminate.
Qed.

(** Cutting at a separator cuts the list of fields. *)
Lemma split_app_sep (a b : string) (c : ascii) :
  p c = true -> split p (a +:+ String c b) = split p a ++ split p b.
Proof.
  intros Hc. induction a as [|x a IH]; simpl.
  - now rewrite Hc.
  - rewrite IH. destruct (p x); [reflexivity|].
    destruct (split p a) eqn:E; [now apply split_not_nil in E | reflexivity].
Qed.

Lemma split_lstrip_incl (s x : string) :
  In x (split p (lstrip p s)) -> In x (split p s).
Proof.
  induction s as [|c s IH]; simpl; [auto|].
  destruct (p c) eqn:E; [intros H; right; auto|].
  simpl. now rewrite E.
Qed.

(** A string without separator is a single field. *)
Lemma split_plain (s : string) :
  existsb p s = false -> split p s = [s].
Proof.
  induction s as [|c s IH]; simpl; [reflexivity|].
  intros H. apply orb_false_elim in H as [Hc Hs].
  now rewrite Hc, IH.
Qed.

End Segments.

Section DataRoot.
Import PyStr PathLib.

Local Abbreviation slash := (PyStr.is_char "/").

Lemma lstrip_slash_head (s : string) : startswith (lstrip slash s) "/" = false.
Proof.
  induction s as [|c s IH]; simpl; [reflexivity|].
  destruct (slash c) eqn:E; [exact IH|].
  cbn [startswith]. unfold is_char in E. now rewrite E.
Qed.

Lemma trim_path_head (path t : string) :
  startswith (trim_path path t) "/" = false.
Proof.
  unfold trim_path.
  destruct (truthy _ && startswith _ _); apply lstrip_slash_head.
Qed.

Lemma normalize_head (u t rel : string) :
  DownloadData.normalize_relative_path u t = Some rel ->
  startswith rel "/" = false.
Proof.
  rewrite download_normalize_unfold.
  destruct (UrlParse.urlparse u); simpl; [|discriminate].
  intros [= <-]. apply trim_path_head.
Qed.

(** Every segment of the result is one of the path, when the
    slash-stripped trim prefix is empty or ends with a slash. *)
Lemma trim_path_segments (path t x : string) :
  lstrip slash t = "" \/ (exists a, lstrip slash t = a +:+ "/") ->
  In x (Spec.segments (trim_path path t)) -> In x (Spec.segments path).
Proof.
  intros Ht. unfold trim_path, Spec.segments.
  rewrite py_or_slash_lstrip, py_or_nil.
  destruct (truthy (lstrip slash t) && startswith (lstrip slash path) (lstrip slash t))
    eqn:E; [|apply split_lstrip_incl].
  apply andb_prop in E as [Hne Hsw].
  destruct Ht as [Ht|[a Ht]]; [rewrite Ht in Hne; discriminate|].
  intros Hx. apply split_lstrip_incl in Hx.
  apply split_lstrip_incl. apply startswith_inv in Hsw.
  rewrite Hsw, Ht at 1. rewrite append_assoc.
  change ("/" +:+ ?r) with (String "/" r).
  rewrite split_app_sep by reflexivity. apply in_or_app. now right.
Qed.

Lemma traversal_free_iff (s : string) :
  Spec.traversal_free s = true <-> ~ In ".." (Spec.segments s).
Proof.
  unfold Spec.traversal_free. rewrite negb_true_iff.
  split.
  - intros H Hin. apply not_true_iff_false in H. apply H.
    apply existsb_exists. exists "..". split; [assumption | reflexivity].
  - intros H. apply not_true_iff_false. intros Hex.
    apply existsb_exists in Hex as (x & Hin & Hx).
    apply String.eqb_eq in Hx. now subst.
Qed.

Lemma trim_path_traversal_free (path t : string) :
  lstrip slash t = "" \/ (exists a, lstrip slash t = a +:+ "/") ->
  Spec.traversal_free path = true ->
  Spec.traversal_free (trim_path path t) = true.
Proof.
  rewrite !traversal_free_iff. intros Ht H Hin.
  apply H. now apply trim_path_segments with (t := t).
Qed.

Lemma fold_resolve_plain (l acc : list string) :
  ~ In ".." l -> fold_left resolve_step l acc = acc ++ l.
Proof.
  revert acc. induction l as [|seg l IH]; intros acc H; simpl.
  - now rewrite app_nil_r.
  - unfold resolve_step at 2.
    destruct (String.eqb_spec seg "..") as [->|Hne]; [exfalso; apply H; now left|].
    rewrite IH by (intros Hin; apply H; now right).
    now rewrite <- app_assoc.
Qed.

Lemma strip_prefix_app (pre l : list string) :
  strip_prefix pre (pre ++ l) = Some l.
Proof.
  induction pre as [|a pre IH]; simpl; [reflexivity|].
  now rewrite String.eqb_refl.
Qed.

Lemma parse_relative (rel : string) :
  startswith rel "/" = false -> root (parse rel) = "".
Proof.
  intros H. unfold parse. cbn [root].
  destruct rel as [|c r]; [reflexivity|].
  cbn [startswith] in *. apply andb_false_iff in H as [H|H]; [|discriminate].
  now rewrite H.
Qed.

Lemma parts_parse_in (rel x : string) :
  In x (parts (parse rel)) -> In x (Spec.segments rel).
Proof. unfold parse. cbn [parts]. intros H. now apply filter_In in H. Qed.

(** A destination built from a relative path without [..] segments
    resolves to a path under the data root. *)
Lemma joinpath_under (cwd : list string) (D : PurePath) (rel : string) :
  root D = "/" -> ~ In ".." (parts D) ->
  startswith rel "/" = false -> Spec.traversal_free rel = true ->
  is_relative_to (resolve cwd (joinpath D rel)) D = true.
Proof.
  intros HD Hparts Hhead Hfree.
  unfold joinpath, is_absolute. rewrite (parse_relative rel Hhead).
  cbn [truthy]. unfold resolve, is_absolute. cbn [root parts]. rewrite HD.
  cbn [truthy]. rewrite fold_resolve_plain.
  - unfold is_relative_to, relative_to. cbn [root parts]. rewrite HD.
    cbn [String.eqb]. rewrite Ascii.eqb_refl. cbn [app].
    now rewrite strip_prefix_app.
  - intros Hin. apply in_app_or in Hin as [Hin|Hin]; [auto|].
    apply traversal_free_iff in Hfree. apply Hfree.
    now apply parts_parse_in.
Qed.

Lemma build_tasks_in (D : PurePath) (t : string) (ps urls : list string)
    (tasks : list (string * PurePath)) (url : string) (dst : PurePath) :
  DownloadData.build_tasks D t ps urls = Some tasks ->
  In (url, dst) tasks ->
  exists rel, In url urls
              /\ DownloadData.normalize_relative_path url t = Some rel
              /\ DownloadData.keeps ps rel = true
              /\ dst = joinpath D rel.
Proof.
  revert tasks. induction urls as [|u urls IH]; intros tasks; simpl.
  - intros [= <-] [].
  - destruct (DownloadData.normalize_relative_path u t) as [rel|] eqn:Hn;
      [|discriminate].
    destruct (DownloadData.build_tasks D t ps urls) as [rest|]; [|discriminate].
    destruct (DownloadData.keeps ps rel) eqn:Hk; intros [= <-] Hin.
    + destruct Hin as [[= <- <-]|Hin].
      * exists rel. auto.
      * destruct (IH rest eq_refl Hin) as (r & ? & ? & ? & ?). exists r. auto.
    + destruct (IH rest eq_refl Hin) as (r & ? & ? & ? & ?). exists r. auto.
Qed.

End DataRoot.

(** A URL whose path holds [..] segments: the relative path keeps them,
    and the destination of the task resolves outside the data root. *)
Lemma C3_traversal_counterexample :
  DownloadData.normalize_relative_path "https://h/../etc/passwd" "/p/"
    = Some "../etc/passwd"
  /\ Spec.traversal_free "../etc/passwd" = false
  /\ DownloadData.build_tasks (PathLib.parse "/data") "/p/" []
       ["https://h/../etc/passwd"]
     = Some [("https://h/../etc/passwd",
              PathLib.joinpath (PathLib.parse "/data") "../etc/passwd")]
  /\ PathLib.to_str (PathLib.resolve []
       (PathLib.joinpath (PathLib.parse "/data") "../etc/passwd")) = "/etc/passwd"
  /\ PathLib.is_relative_to
       (PathLib.resolve [] (PathLib.joinpath (PathLib.parse "/data") "../etc/passwd"))
       (PathLib.parse "/data") = false.
Proof. repeat split. Qed.

(** C3 (amended). For every URL the relative path produced by the
    Normalizer has no leading slash. It has no parent-directory segment
    when the path component of the URL has none and the slash-stripped
    trim prefix is empty or ends with a slash. For every task created
    from a relative path without parent-directory segment, the resolved
    destination [dataRoot / rel] stays under the (resolved) data root. *)
Theorem C3_relative_path_under_root :
  forall (u t : string) (parsed : UrlParse.ParseResult) (rel : string),
    UrlParse.urlparse u = Some parsed ->
    DownloadData.normalize_relative_path u t = Some rel ->
    PyStr.startswith rel "/" = false
    /\ (Spec.traversal_free (UrlParse.path parsed) = true ->
        PyStr.lstrip (PyStr.is_char "/") t = ""
        \/ (exists a, PyStr.lstrip (PyStr.is_char "/") t = a +:+ "/") ->
        Spec.relative_path rel = true)
    /\ (forall (cwd : list string) (D : PathLib.PurePath) (ps urls : list string)
               (tasks : list (string * PathLib.PurePath)) (dst : PathLib.PurePath),
          PathLib.root D = "/" -> ~ In ".." (PathLib.parts D) ->
          DownloadData.build_tasks D t ps urls = Some tasks ->
          In (u, dst) tasks ->
          Spec.traversal_free rel = true ->
          dst = PathLib.joinpath D rel
          /\ PathLib.is_relative_to (PathLib.resolve cwd dst) D = true).
Proof.
  intros u t parsed rel Hparse Hrel.
  pose proof (normalize_head u t rel Hrel) as Hhead.
  split; [exact Hhead|]. split.
  - intros Hfree Ht. unfold Spec.relative_path. rewrite Hhead. cbn [negb andb].
    rewrite download_normalize_unfold, Hparse in Hrel. injection Hrel as <-.
    now apply trim_path_traversal_free.
  - intros cwd D ps urls tasks dst HD Hparts Hbuild Hin Hfree.
    destruct (build_tasks_in D t ps urls tasks u dst Hbuild Hin)
      as (rel' & _ & Hrel' & _ & ->).
    rewrite Hrel in Hrel'. injection Hrel' as <-.
    split; [reflexivity|]. now apply joinpath_under.
Qed.

Lemma C3_relative_path_under_root_witness :
  Spec.relative_path "a/x" = true
  /\ PathLib.is_relative_to
       (PathLib.resolve ["home"] (PathLib.joinpath (PathLib.parse "/data") "a/x"))
       (PathLib.parse "/data") = true.
Proof.
  pose proof (C3_relative_path_under_root "https://h/p/a/x" "/p/" _ "a/x"
                eq_refl eq_refl) as (_ & H2 & H3).
  split.
  - apply H2; [reflexivity | right; now exists "p"].
  - refine (proj2 (H3 ["home"] (PathLib.parse "/data") [] ["https://h/p/a/x"]
                      _ _ eq_refl _ eq_refl _ eq_refl)).
    + cbn. intros [H|[]]. discriminate.
    + now left.
Defined.


(** ** C10: normalizing a relative path again *)

Section Tails.
Import PyStr.

(** Properties that pass from a string to the string without its first
    character pass to what [lstrip] and [drop] leave. *)
Variable P : string -> Prop.
Hypothesis P_tail : forall c s, P (String c s) -> P s.

Lemma lstrip_tail (p : ascii -> bool) (s : string) : P s -> P (lstrip p s).
Proof.
  induction s as [|c s IH]; simpl; [auto|].
  destruct (p c); eauto.
Qed.

Lemma drop_tail (n : nat) (s : string) : P s -> P (drop n s).
Proof.
  revert s. induction n as [|n IH]; intros [|c s]; simpl; eauto.
Qed.

Lemma partition_snd_tail (c : ascii) (s a b : string) :
  partition c s = (a, Some b) -> P s -> P b.
Proof.
  revert a. induction s as [|d s IH]; intros a; simpl; [discriminate|].
  destruct (Ascii.eqb d c).
  - intros [= <- <-]. apply P_tail.
  - destruct (partition c s) as [a' o]. intros [= <- ->] H. eauto.
Qed.

Lemma span_snd_tail (p : ascii -> bool) (s : string) :
  P s -> P (snd (span p s)).
Proof.
  induction s as [|c s IH]; simpl; [auto|].
  destruct (p c); [|auto].
  destruct (span p s) as [a b]. simpl in *. eauto.
Qed.

End Tails.

Section Avoids.
Import PyStr.

Variable p : ascii -> bool.

Lemma avoids_cons (c : ascii) (s : string) :
  avoids p (String c s) <-> p c = false /\ avoids p s.
Proof. unfold avoids. simpl. apply orb_false_iff. Qed.

Lemma avoids_tail (c : ascii) (s : string) : avoids p (String c s) -> avoids p s.
Proof. intros H. now apply avoids_cons in H. Qed.

Lemma avoids_app (a b : string) :
  avoids p (a +:+ b) <-> avoids p a /\ avoids p b.
Proof.
  induction a as [|c a IH]; simpl.
  - unfold avoids at 2. simpl. tauto.
  - rewrite !avoids_cons, IH. tauto.
Qed.

Lemma remove_avoids (s : string) : avoids p (remove p s).
Proof.
  induction s as [|c s IH]; simpl; [reflexivity|].
  destruct (p c) eqn:E; [exact IH|]. now apply avoids_cons.
Qed.

Lemma remove_id (s : string) : avoids p s -> remove p s = s.
Proof.
  induction s as [|c s IH]; simpl; [reflexivity|].
  intros H. apply avoids_cons in H as [Hc Hs]. now rewrite Hc, IH.
Qed.

Lemma avoids_remove (q : ascii -> bool) (s : string) :
  avoids p s -> avoids p (remove q s).
Proof.
  induction s as [|c s IH]; simpl; [auto|].
  intros H. apply avoids_cons in H as [Hc Hs].
  destruct (q c); [auto|]. apply avoids_cons. auto.
Qed.

Lemma avoids_partition_fst (c : ascii) (s : string) :
  avoids p s -> avoids p (fst (partition c s)).
Proof.
  induction s as [|d s IH]; simpl; [auto|].
  intros H. apply avoids_cons in H as [Hd Hs].
  destruct (Ascii.eqb d c); [reflexivity|].
  destruct (partition c s) as [a o]. simpl in *. apply avoids_cons. auto.
Qed.

Lemma avoids_span_fst (q : ascii -> bool) (s : string) :
  avoids p s -> avoids p (fst (span q s)).
Proof.
  induction s as [|d s IH]; simpl; [auto|].
  intros H. apply avoids_cons in H as [Hd Hs].
  destruct (q d); [|reflexivity].
  destruct (span q s) as [a b]. simpl in *. apply avoids_cons. auto.
Qed.

Lemma avoids_splitparams_fst (s : string) :
  avoids p s -> avoids p (fst (UrlParse.splitparams s)).
Proof.
  induction s as [|d s IH]; simpl; [auto|].
  intros H. apply avoids_cons in H as [Hd Hs].
  destruct (negb (contains "/" s) && is_char ";" d); [reflexivity|].
  destruct (UrlParse.splitparams s) as [a b]. simpl in *.
  apply avoids_cons. auto.
Qed.

End Avoids.

Section PartitionFacts.
Import PyStr.

Lemma is_char_sym (c d : ascii) : is_char c d = Ascii.eqb d c.
Proof. apply Ascii.eqb_sym. Qed.

(** The text before the first [c] holds no [c]. *)
Lemma partition_fst_free (c : ascii) (s : string) :
  avoids (is_char c) (fst (partition c s)).
Proof.
  induction s as [|d s IH]; simpl; [reflexivity|].
  destruct (Ascii.eqb d c) eqn:E; [reflexivity|].
  destruct (partition c s) as [a o]. simpl in *.
  apply avoids_cons. split; [|exact IH]. now rewrite is_char_sym.
Qed.

Lemma partition_none (c : ascii) (s : string) :
  avoids (is_char c) s -> partition c s = (s, None).
Proof.
  induction s as [|d s IH]; simpl; [reflexivity|].
  intros H. apply avoids_cons in H as [Hd Hs].
  rewrite is_char_sym in Hd. now rewrite Hd, IH.
Qed.

Lemma split_once_fst (c : ascii) (s : string) :
  fst (UrlParse.split_once c s) = fst (partition c s).
Proof.
  unfold UrlParse.split_once. now destruct (partition c s) as [a [b|]].
Qed.

Lemma split_once_none (c : ascii) (s : string) :
  avoids (is_char c) s -> UrlParse.split_once c s = (s, "").
Proof.
  intros H. unfold UrlParse.split_once. now rewrite partition_none.
Qed.

End PartitionFacts.

Section Params.
Import PyStr UrlParse.

Lemma params_free_tail (c : ascii) (s : string) :
  params_free (String c s) -> params_free s.
Proof.
  unfold params_free. simpl.
  destruct (negb (contains "/" s) && is_char ";" c); [discriminate|].
  destruct (splitparams s) as [a b]. simpl. now intros [= ->].
Qed.

Lemma params_free_plain (s : string) :
  avoids (is_char ";") s -> params_free s.
Proof.
  unfold params_free. induction s as [|c s IH]; simpl; [reflexivity|].
  intros H. apply avoids_cons in H as [Hc Hs].
  rewrite Hc, andb_false_r. specialize (IH Hs).
  destruct (splitparams s) as [a b]. simpl in *. now subst.
Qed.

(** What [_splitparams] keeps is cut no further. *)
Lemma splitparams_idem (s : string) : params_free (fst (splitparams s)).
Proof.
  unfold params_free. induction s as [|d s IH]; simpl; [reflexivity|].
  destruct (negb (contains "/" s) && is_char ";" d) eqn:E; [reflexivity|].
  destruct (splitparams s) as [a b] eqn:Es. simpl in *.
  assert (Hslash : contains "/" a = contains "/" s).
  { clear IH E. revert a b Es. induction s as [|e s IHs]; intros a b; simpl.
    - now intros [= <- <-].
    - destruct (negb (contains "/" s) && is_char ";" e) eqn:E.
      + intros [= <- <-]. apply andb_prop in E as [Hs He].
        apply negb_true_iff in Hs. apply Ascii.eqb_eq in He. subst e.
        unfold contains in *. simpl. now rewrite Hs.
      + destruct (splitparams s) as [a' b']. intros [= <- <-].
        unfold contains in *. simpl. now rewrite (IHs a' b' eq_refl). }
  rewrite Hslash, E. destruct (splitparams a) as [a' b']. simpl in *.
  now subst.
Qed.

End Params.

Section UrlPath.
Import PyStr UrlParse.

Local Abbreviation slash := (PyStr.is_char "/").

Lemma urlparse_path (u : string) (parsed : ParseResult) :
  urlparse u = Some parsed ->
  scheme parsed = fst (split_scheme (cleaned u))
  /\ path parsed
     = if bool_decide (scheme parsed ∈ uses_params)
          && contains ";" (before_params u)
       then fst (splitparams (before_params u)) else before_params u.
Proof.
  unfold urlparse, before_params, after_netloc, cleaned.
  destruct (split_scheme _) as [sch s2]. cbn [fst snd].
  destruct (split_netloc s2) as [nl s3]. cbn [fst snd].
  destruct (negb (valid_netloc nl)); [discriminate|].
  destruct (split_once "#" s3) as [s4 frag]. cbn [fst snd].
  destruct (split_once "?" s4) as [s5 qry]. cbn [fst snd].
  destruct (bool_decide (sch ∈ uses_params) && contains ";" s5) eqn:E.
  - destruct (splitparams s5) as [a b]. intros [= <-].
    cbn [scheme path fst]. now rewrite E.
  - intros [= <-]. cbn [scheme path]. now rewrite E.
Qed.

Lemma split_scheme_tail (P : string -> Prop) (s : string) :
  (forall c r, P (String c r) -> P r) -> P s -> P (snd (split_scheme s)).
Proof.
  intros Ht Hs. unfold split_scheme.
  destruct (partition ":" s) as [[|c0 pre] [rest|]] eqn:E; cbn [snd];
    try exact Hs.
  destruct (is_alpha c0 && forallb scheme_char (String c0 pre)); cbn [snd];
    [|exact Hs].
  now apply (partition_snd_tail P Ht ":" s (String c0 pre) rest).
Qed.

Lemma split_netloc_tail (P : string -> Prop) (s : string) :
  (forall c r, P (String c r) -> P r) -> P s -> P (snd (split_netloc s)).
Proof.
  intros Ht Hs. unfold split_netloc.
  destruct (startswith s "//"); [|exact Hs].
  apply span_snd_tail; [exact Ht|]. now apply drop_tail.
Qed.

Lemma after_netloc_avoids (p : ascii -> bool) (u : string) :
  avoids p (cleaned u) -> avoids p (after_netloc u).
Proof.
  intros H. unfold after_netloc.
  apply split_netloc_tail; [apply avoids_tail|].
  apply split_scheme_tail; [apply avoids_tail|]. exact H.
Qed.

Lemma before_params_avoids (p : ascii -> bool) (u : string) :
  avoids p (cleaned u) -> avoids p (before_params u).
Proof.
  intros H. unfold before_params. rewrite !split_once_fst.
  do 2 apply avoids_partition_fst. now apply after_netloc_avoids.
Qed.

Lemma before_params_no_query (u : string) :
  avoids (is_char "?") (before_params u)
  /\ avoids (is_char "#") (before_params u).
Proof.
  unfold before_params. rewrite !split_once_fst. split.
  - apply partition_fst_free.
  - apply avoids_partition_fst, partition_fst_free.
Qed.

(** What the path of a parsed URL cannot contain. *)
Lemma path_avoids (u : string) (parsed : ParseResult) (p : ascii -> bool) :
  urlparse u = Some parsed ->
  avoids p (before_params u) -> avoids p (path parsed).
Proof.
  intros Hparse H. destruct (urlparse_path u parsed Hparse) as [_ ->].
  destruct (_ && _); [now apply avoids_splitparams_fst | exact H].
Qed.

Lemma path_params_free (u : string) (parsed : ParseResult) :
  urlparse u = Some parsed ->
  scheme parsed ∈ uses_params -> params_free (path parsed).
Proof.
  intros Hparse Hs. destruct (urlparse_path u parsed Hparse) as [_ ->].
  rewrite (bool_decide_eq_true_2 _ Hs). cbn [andb].
  destruct (contains ";" (before_params u)) eqn:E.
  - apply splitparams_idem.
  - now apply params_free_plain.
Qed.

(** Both properties pass to the result of the Normalizer. *)
Lemma trim_path_tail (P : string -> Prop) (path t : string) :
  (forall c r, P (String c r) -> P r) ->
  P path -> P (trim_path path t).
Proof.
  intros Ht H. unfold trim_path. rewrite py_or_slash_lstrip.
  destruct (_ && _).
  - apply lstrip_tail; [exact Ht|]. apply drop_tail; [exact Ht|].
    now apply lstrip_tail.
  - now apply lstrip_tail.
Qed.

Lemma remove_app (p : ascii -> bool) (a b : string) :
  remove p (a +:+ b) = remove p a +:+ remove p b.
Proof.
  induction a as [|c a IH]; simpl; [reflexivity|].
  destruct (p c); simpl; now rewrite IH.
Qed.

Lemma partition_hit (c : ascii) (a b : string) :
  avoids (is_char c) a -> partition c (a +:+ String c b) = (a, Some b).
Proof.
  induction a as [|d a IH]; simpl.
  - now rewrite Ascii.eqb_refl.
  - intros H. apply avoids_cons in H as [Hd Ha].
    rewrite is_char_sym in Hd. now rewrite Hd, IH.
Qed.

Lemma split_scheme_hit (sch rest : string) :
  avoids (is_char ":") sch ->
  (match sch with
   | EmptyString => false
   | String c0 _ => is_alpha c0 && forallb scheme_char sch
   end) = true ->
  split_scheme (sch +:+ String ":" rest) = (lower sch, rest).
Proof.
  intros Hfree Hok. unfold split_scheme. rewrite partition_hit by assumption.
  destruct sch as [|c0 pre]; [discriminate|]. now rewrite Hok.
Qed.

(** The start of a URL that begins with [http://] or [https://]: the
    scheme, and the text handed to the split of the host. *)
Lemma cleaned_http (sch u : string) :
  sch = "http" \/ sch = "https" ->
  startswith u (sch +:+ "://") = true ->
  split_scheme (cleaned u)
  = (sch, "//" +:+ remove unsafe_url_byte (drop (String.length (sch +:+ "://")) u)).
Proof.
  intros Hsch H. apply startswith_inv in H.
  set (rest := drop _ u) in *. rewrite H. unfold cleaned.
  assert (Hl : lstrip c0_control_or_space ((sch +:+ "://") +:+ rest)
               = (sch +:+ "://") +:+ rest).
  { destruct Hsch as [-> | ->]; reflexivity. }
  rewrite Hl, remove_app.
  replace (remove unsafe_url_byte (sch +:+ "://")) with (sch +:+ String ":" "//")
    by (destruct Hsch as [-> | ->]; reflexivity).
  rewrite append_assoc. cbn [String.append].
  rewrite split_scheme_hit.
  - destruct Hsch as [-> | ->]; reflexivity.
  - destruct Hsch as [-> | ->]; reflexivity.
  - destruct Hsch as [-> | ->]; reflexivity.
Qed.

Lemma http_scheme (u : string) :
  startswith u "http://" || startswith u "https://" = true ->
  fst (split_scheme (cleaned u)) ∈ uses_params.
Proof.
  intros H. apply orb_prop in H as [H|H].
  - rewrite (cleaned_http "http" u) by auto. cbn [fst].
    unfold uses_params. set_solver.
  - rewrite (cleaned_http "https" u) by auto. cbn [fst].
    unfold uses_params. set_solver.
Qed.

End UrlPath.

Section HttpUrl.
Import PyStr UrlParse.

Lemma span_app (P : ascii -> bool) (a b : string) :
  forallb P a = true ->
  match b with EmptyString => True | String c _ => P c = false end ->
  span P (a +:+ b) = (a, b).
Proof.
  intros Ha Hb. induction a as [|x a IH]; cbn [String.append].
  - destruct b as [|c b]; [reflexivity|]. cbn [span]. now rewrite Hb.
  - cbn [forallb] in Ha. apply andb_prop in Ha as [Hx Ha].
    cbn [span]. now rewrite Hx, IH.
Qed.

Lemma partition_app (c : ascii) (a b : string) :
  avoids (is_char c) a ->
  partition c (a +:+ b) = (a +:+ fst (partition c b), snd (partition c b)).
Proof.
  induction a as [|d a IH]; cbn [String.append].
  - intros _. now destruct (partition c b).
  - intros H. apply avoids_cons in H as [Hd Ha]. rewrite is_char_sym in Hd.
    cbn [partition]. now rewrite Hd, IH.
Qed.

Lemma no_bracket_valid (host : string) :
  has_bracket host = false -> valid_netloc host = true.
Proof.
  unfold has_bracket, valid_netloc. intros H.
  apply orb_false_elim in H as [-> ->]. reflexivity.
Qed.

(** The parser accepts exactly the URLs whose host part passes the
    checks of the brackets. *)
Lemma urlparse_accepts (u : string) :
  valid_netloc (fst (split_netloc (snd (split_scheme (cleaned u))))) = true ->
  exists parsed,
    urlparse u = Some parsed
    /\ netloc parsed = fst (split_netloc (snd (split_scheme (cleaned u)))).
Proof.
  unfold urlparse, cleaned.
  destruct (split_scheme _) as [sch s2]. cbn [fst snd].
  destruct (split_netloc s2) as [nl s3]. cbn [fst snd]. intros ->. cbn [negb].
  destruct (split_once "#" s3) as [s4 frag].
  destruct (split_once "?" s4) as [s5 qry].
  destruct (bool_decide (sch ∈ uses_params) && contains ";" s5).
  - destruct (splitparams s5) as [a b]. eexists. split; reflexivity.
  - eexists. split; reflexivity.
Qed.

Lemma urlparse_rejects (u : string) :
  valid_netloc (fst (split_netloc (snd (split_scheme (cleaned u))))) = false ->
  urlparse u = None.
Proof.
  unfold urlparse, cleaned.
  destruct (split_scheme _) as [sch s2]. cbn [fst snd].
  destruct (split_netloc s2) as [nl s3]. cbn [fst snd]. now intros ->.
Qed.

(** The parts of [scheme://host path tail], where the tail is empty or
    begins the query or the fragment, as the parser splits them. *)
Lemma http_url_parts (sch host p tail : string) :
  sch = "http" \/ sch = "https" ->
  avoids unsafe_url_byte (host +:+ p +:+ tail) ->
  avoids netloc_delim host ->
  p = "" \/ startswith p "/" = true ->
  avoids (is_char "?") p -> avoids (is_char "#") p ->
  tail = "" \/ startswith tail "?" = true \/ startswith tail "#" = true ->
  let u := sch +:+ "://" +:+ host +:+ p +:+ tail in
  fst (split_scheme (cleaned u)) = sch
  /\ fst (split_netloc (snd (split_scheme (cleaned u)))) = host
  /\ before_params u = p.
Proof.
  intros Hsch Hunsafe Hhost Hp Hq Hf Htail u.
  assert (Hstart : startswith u (sch +:+ "://") = true).
  { unfold u. rewrite <- append_assoc. apply startswith_app. }
  assert (Hdrop : drop (String.length (sch +:+ "://")) u = host +:+ p +:+ tail).
  { unfold u. rewrite <- append_assoc. apply drop_app. }
  pose proof (cleaned_http sch u Hsch Hstart) as Hscheme.
  rewrite Hdrop, (remove_id _ _ Hunsafe) in Hscheme.
  assert (Hnet : split_netloc ("//" +:+ host +:+ p +:+ tail) = (host, p +:+ tail)).
  { unfold split_netloc. cbn [String.append startswith drop].
    replace (Ascii.eqb "/" "/") with true by reflexivity. cbn [andb].
    apply span_app.
    - clear -Hhost. induction host as [|c host IH]; [reflexivity|].
      apply avoids_cons in Hhost as [Hc Hh]. cbn [forallb].
      now rewrite Hc, IH.
    - destruct Hp as [->|Hp].
      + cbn [String.append].
        destruct Htail as [->|[Ht|Ht]]; [exact I| |];
          destruct tail as [|c tail]; try discriminate;
          cbn [startswith] in Ht; rewrite andb_true_r in Ht;
          apply Ascii.eqb_eq in Ht; subst c; reflexivity.
      + destruct p as [|c p]; [discriminate|]. cbn [String.append].
        cbn [startswith] in Hp. rewrite andb_true_r in Hp.
        apply Ascii.eqb_eq in Hp. subst c. reflexivity. }
  rewrite Hscheme. cbn [fst snd]. rewrite Hnet. cbn [fst].
  split; [reflexivity|]. split; [reflexivity|].
  { unfold before_params, after_netloc. rewrite Hscheme. cbn [snd].
    rewrite Hnet. cbn [snd]. rewrite !split_once_fst.
    destruct Htail as [->|[Ht|Ht]].
    - rewrite append_nil_r, (partition_none _ _ Hf). cbn [fst].
      now rewrite (partition_none _ _ Hq).
    - destruct tail as [|c tail]; [discriminate|].
      cbn [startswith] in Ht. rewrite andb_true_r in Ht.
      apply Ascii.eqb_eq in Ht. subst c.
      rewrite (partition_app "#" p _ Hf). cbn [fst partition].
      replace (Ascii.eqb "?" "#") with false by reflexivity.
      destruct (partition "#" tail) as [q o]. cbn [fst].
      now rewrite (partition_hit "?" p q Hq).
    - destruct tail as [|c tail]; [discriminate|].
      cbn [startswith] in Ht. rewrite andb_true_r in Ht.
      apply Ascii.eqb_eq in Ht. subst c.
      rewrite (partition_hit "#" p tail Hf). cbn [fst].
      now rewrite (partition_none _ _ Hq). }
Qed.

(** What the parser returns for such a URL: the path is cut at the
    parameters of its last segment. *)
Lemma urlparse_http_url (sch host p tail : string) :
  sch = "http" \/ sch = "https" ->
  avoids unsafe_url_byte (host +:+ p +:+ tail) ->
  avoids netloc_delim host -> valid_netloc host = true ->
  p = "" \/ startswith p "/" = true ->
  avoids (is_char "?") p -> avoids (is_char "#") p ->
  tail = "" \/ startswith tail "?" = true \/ startswith tail "#" = true ->
  exists parsed,
    urlparse (sch +:+ "://" +:+ host +:+ p +:+ tail) = Some parsed
    /\ scheme parsed = sch /\ netloc parsed = host
    /\ path parsed = fst (splitparams p).
Proof.
  intros Hsch Hunsafe Hhost Hbr Hp Hq Hf Htail.
  destruct (http_url_parts sch host p tail Hsch Hunsafe Hhost Hp Hq Hf Htail)
    as (Hscheme & Hnet & Hbefore).
  set (u := sch +:+ "://" +:+ host +:+ p +:+ tail) in *.
  destruct (urlparse_accepts u) as (parsed & Hparse & Hnetloc).
  { now rewrite Hnet. }
  exists parsed. split; [exact Hparse|].
  destruct (urlparse_path u parsed Hparse) as [Hsch' Hpath].
  rewrite Hscheme in Hsch'. rewrite Hnet in Hnetloc.
  split; [exact Hsch'|]. split; [exact Hnetloc|].
  rewrite Hbefore in Hpath. rewrite Hpath.
  destruct (contains ";" p) eqn:E.
  - rewrite andb_true_r.
    rewrite Hsch'. now destruct Hsch as [-> | ->].
  - rewrite andb_false_r. symmetry. now apply params_free_plain.
Qed.

Lemma urlparse_http_url_rejected (sch host p tail : string) :
  sch = "http" \/ sch = "https" ->
  avoids unsafe_url_byte (host +:+ p +:+ tail) ->
  avoids netloc_delim host -> valid_netloc host = false ->
  p = "" \/ startswith p "/" = true ->
  avoids (is_char "?") p -> avoids (is_char "#") p ->
  tail = "" \/ startswith tail "?" = true \/ startswith tail "#" = true ->
  urlparse (sch +:+ "://" +:+ host +:+ p +:+ tail) = None.
Proof.
  intros Hsch Hunsafe Hhost Hbr Hp Hq Hf Htail.
  destruct (http_url_parts sch host p tail Hsch Hunsafe Hhost Hp Hq Hf Htail)
    as (_ & Hnet & _).
  apply urlparse_rejects. now rewrite Hnet.
Qed.

End HttpUrl.

Section SecondPass.
Import PyStr UrlParse.

Local Abbreviation slash := (PyStr.is_char "/").

Lemma lstrip_no_head (s : string) :
  startswith s "/" = false -> lstrip slash s = s.
Proof.
  destruct s as [|c s]; [reflexivity|]. cbn [startswith lstrip].
  rewrite andb_true_r. unfold is_char. now intros ->.
Qed.

Lemma empty_scheme_uses_params : bool_decide ("" ∈ uses_params) = true.
Proof. apply bool_decide_eq_true_2. unfold uses_params. set_solver. Qed.

(** A string that the parser takes for a bare path is its own path. *)
Lemma urlparse_plain (r : string) :
  lstrip c0_control_or_space r = r ->
  avoids unsafe_url_byte r ->
  avoids (is_char ":") r ->
  startswith r "/" = false ->
  avoids (is_char "#") r -> avoids (is_char "?") r ->
  params_free r ->
  exists parsed, urlparse r = Some parsed /\ path parsed = r.
Proof.
  intros Hc0 Hunsafe Hcolon Hhead Hfrag Hquery Hparams.
  unfold urlparse. rewrite Hc0, (remove_id _ _ Hunsafe).
  assert (Hs : split_scheme r = ("", r)).
  { unfold split_scheme. rewrite partition_none by assumption.
    now destruct r. }
  rewrite Hs.
  assert (Hn : split_netloc r = ("", r)).
  { unfold split_netloc. destruct r as [|c r]; [reflexivity|].
    cbn [startswith] in *. rewrite andb_true_r in Hhead.
    now rewrite Hhead. }
  rewrite Hn. replace (valid_netloc "") with true by reflexivity. cbn [negb].
  rewrite (split_once_none _ _ Hfrag), (split_once_none _ _ Hquery).
  rewrite empty_scheme_uses_params. cbn [andb].
  destruct (contains ";" r).
  - unfold params_free in Hparams. destruct (splitparams r) as [a b].
    cbn [fst] in Hparams. subst a. eexists. split; reflexivity.
  - eexists. split; reflexivity.
Qed.

(** What the Normalizer returns for a URL that starts with [http://]
    or [https://] holds no tab, line break, [?] or [#], no [;] in its
    last segment, and no leading slash. *)
Lemma normalized_shape (u t r : string) :
  startswith u "http://" || startswith u "https://" = true ->
  DownloadData.normalize_relative_path u t = Some r ->
  avoids unsafe_url_byte r /\ avoids (is_char "#") r
  /\ avoids (is_char "?") r /\ params_free r /\ startswith r "/" = false.
Proof.
  intros Hurl Hr. pose proof (normalize_head u t r Hr) as Hhead.
  rewrite download_normalize_unfold in Hr.
  destruct (urlparse u) as [parsed|] eqn:Hparse; [|discriminate].
  injection Hr as <-.
  destruct (before_params_no_query u) as [Hq Hf].
  repeat split; try exact Hhead.
  - apply trim_path_tail; [apply avoids_tail|].
    apply (path_avoids u parsed _ Hparse), before_params_avoids, remove_avoids.
  - apply trim_path_tail; [apply avoids_tail|].
    now apply (path_avoids u parsed _ Hparse).
  - apply trim_path_tail; [apply avoids_tail|].
    now apply (path_avoids u parsed _ Hparse).
  - apply trim_path_tail; [apply params_free_tail|].
    apply (path_params_free u parsed Hparse).
    destruct (urlparse_path u parsed Hparse) as [-> _].
    now apply http_scheme.
Qed.

End SecondPass.

(** Two URLs for which a second application changes the result: the
    relative path starts with the trim prefix again, or it holds a colon
    and is parsed as a scheme and a path. *)
Lemma C10_idempotence_counterexample :
  DownloadData.normalize_relative_path "https://h/p/p/a" "/p/" = Some "p/a"
  /\ DownloadData.normalize_relative_path "p/a" "/p/" = Some "a"
  /\ DownloadData.normalize_relative_path "https://h/x:y" "" = Some "x:y"
  /\ DownloadData.normalize_relative_path "x:y" "" = Some "y".
Proof. repeat split. Qed.

(** C10 (amended). For every URL [u] that starts with [http://] or
    [https://] and every trim prefix [t], with [r] the relative path the
    Normalizer returns for [u]: if [r] holds no colon, does not begin
    with a control character or a space, and does not start with the
    slash-stripped trim prefix (unless that is empty), then applying the
    Normalizer to [r] returns [r]. This holds for the normalizers of the
    Download Engine and of the Script Synthesizer. *)
Theorem C10_normalize_idempotent :
  forall u t r : string,
    PyStr.startswith u "http://" || PyStr.startswith u "https://" = true ->
    DownloadData.normalize_relative_path u t = Some r ->
    PyStr.contains ":" r = false ->
    PyStr.lstrip UrlParse.c0_control_or_space r = r ->
    PyStr.lstrip (PyStr.is_char "/") t = ""
    \/ PyStr.startswith r (PyStr.lstrip (PyStr.is_char "/") t) = false ->
    DownloadData.normalize_relative_path r t = Some r
    /\ MakeWget.normalize_relative_path r t = Some r.
Proof.
  intros u t r Hurl Hr Hcolon Hc0 Htrim.
  destruct (normalized_shape u t r Hurl Hr) as (Hu & Hf & Hq & Hp & Hhead).
  destruct (urlparse_plain r Hc0 Hu Hcolon Hhead Hf Hq Hp) as (parsed & Hparse & Hpath).
  rewrite wget_normalize_unfold, download_normalize_unfold, Hparse. cbn [option_map].
  rewrite Hpath.
  assert (Hfix : trim_path r t = r).
  { unfold trim_path. rewrite py_or_slash_lstrip, py_or_nil.
    rewrite (lstrip_no_head r Hhead).
    destruct Htrim as [-> | ->]; [reflexivity | now rewrite andb_false_r]. }
  now rewrite Hfix.
Qed.

Lemma C10_normalize_idempotent_witness :
  DownloadData.normalize_relative_path "c/file.npy" "/a/b/" = Some "c/file.npy"
  /\ MakeWget.normalize_relative_path "c/file.npy" "/a/b/" = Some "c/file.npy".
Proof.
  apply (C10_normalize_idempotent "https://host/a/b/c/file.npy" "/a/b/" "c/file.npy");
    try reflexivity.
  right. reflexivity.
Defined.

(** An http URL that the Extractor finds and both normalizers refuse
    with the [ValueError] of the URL parser, its host part being an
    opening bracket; and a URL whose path component holds parameters,
    which the normalizers drop with the query. *)
Lemma C1_bracket_counterexample :
  PyRe.findall_urls "mirror: http://[/p/a" = ["http://[/p/a"]
  /\ DownloadData.normalize_relative_path "http://[/p/a" "/p/" = None
  /\ MakeWget.normalize_relative_path "http://[/p/a" "/p/" = None
  /\ DownloadData.normalize_relative_path "https://h/p/a;type=b?x=1" "/p/"
     = Some "a".
Proof. repeat split. Qed.

(** C1 (amended). For every URL [u] and every trim prefix [t], the
    normalizers of the Download Engine and of the Script Synthesizer
    give the same result, which is no result (the [ValueError] of the
    URL parser) exactly when the parser rejects [u]. When the parser
    accepts [u], with path component [path parsed], the result is that
    path with its leading slashes stripped and, when the result starts
    with the slash-stripped [t], with that prefix and the leading
    slashes that follow it removed (the specification's wording,
    [Spec.normalize_path]); and if the path is [t ++ rel] where [rel]
    has no leading slash, the result is [rel]. For a URL
    [scheme://host path tail] with scheme [http] or [https], where the
    tail is empty or begins the query or the fragment: if the host part
    passes the parser's checks of a bracketed host (as every host
    without a bracket does), the path component is [path] cut at the
    parameters of its last segment, scheme, host, parameters, query and
    fragment being discarded; otherwise the parser rejects the URL. *)
Theorem C1_normalizer_contract :
  forall (u t : string),
    MakeWget.normalize_relative_path u t = DownloadData.normalize_relative_path u t
    /\ (DownloadData.normalize_relative_path u t = None
        <-> UrlParse.urlparse u = None)
    /\ (forall parsed : UrlParse.ParseResult,
          UrlParse.urlparse u = Some parsed ->
          DownloadData.normalize_relative_path u t
            = Some (Spec.normalize_path (UrlParse.path parsed) t)
          /\ (forall rel : string,
                UrlParse.path parsed = t +:+ rel ->
                PyStr.startswith rel "/" = false ->
                DownloadData.normalize_relative_path u t = Some rel))
    /\ (forall sch host p tail : string,
          u = sch +:+ "://" +:+ host +:+ p +:+ tail ->
          sch = "http" \/ sch = "https" ->
          avoids UrlParse.unsafe_url_byte (host +:+ p +:+ tail) ->
          avoids UrlParse.netloc_delim host ->
          p = "" \/ PyStr.startswith p "/" = true ->
          avoids (PyStr.is_char "?") p -> avoids (PyStr.is_char "#") p ->
          tail = "" \/ PyStr.startswith tail "?" = true
          \/ PyStr.startswith tail "#" = true ->
          (has_bracket host = false -> UrlParse.valid_netloc host = true)
          /\ (avoids (PyStr.is_char ";") p -> fst (UrlParse.splitparams p) = p)
          /\ (UrlParse.valid_netloc host = true ->
              DownloadData.normalize_relative_path u t
              = Some (Spec.normalize_path (fst (UrlParse.splitparams p)) t))
          /\ (UrlParse.valid_netloc host = false ->
              DownloadData.normalize_relative_path u t = None)).
Proof.
  intros u t. split; [|split; [|split]].
  - now rewrite wget_normalize_unfold, download_normalize_unfold.
  - rewrite download_normalize_unfold.
    destruct (UrlParse.urlparse u); cbn [option_map]; split; intros H;
      try discriminate H; reflexivity.
  - intros parsed Hparse.
    rewrite download_normalize_unfold, Hparse. cbn [option_map].
    split; [now rewrite trim_path_spec|].
    intros rel Hpath Hrel. now rewrite Hpath, trim_path_prefix by assumption.
  - intros sch host p tail -> Hsch Hunsafe Hhost Hp Hq Hf Htail.
    split; [apply no_bracket_valid|]. split; [apply params_free_plain|]. split.
    + intros Hbr.
      destruct (urlparse_http_url sch host p tail Hsch Hunsafe Hhost Hbr Hp Hq Hf
                  Htail) as (parsed & Hparse & _ & _ & Hpath).
      rewrite download_normalize_unfold, Hparse.
      cbn [option_map]. now rewrite Hpath, trim_path_spec.
    + intros Hbr. rewrite download_normalize_unfold.
      now rewrite (urlparse_http_url_rejected sch host p tail Hsch Hunsafe Hhost
                     Hbr Hp Hq Hf Htail).
Qed.

Lemma C1_normalizer_contract_witness :
  DownloadData.normalize_relative_path "https://[::1]:80/a/b/c/file.npy;v=2?v=1" "/a/b/"
    = Some "c/file.npy".
Proof.
  exact (proj1 (proj2 (proj2 (proj2 (proj2 (proj2
           (C1_normalizer_contract "https://[::1]:80/a/b/c/file.npy;v=2?v=1" "/a/b/")))
           "https" "[::1]:80" "/a/b/c/file.npy;v=2" "?v=1" eq_refl
           (or_intror eq_refl) eq_refl eq_refl (or_intror eq_refl)
           eq_refl eq_refl (or_intror (or_introl eq_refl))))) eq_refl).
Defined.


(** ** C6: the pairs of the Script Synthesizer and the tasks of the
       Download Engine *)

Section Extractor.
Import PyStr.

(** Once a match has begun, text without white space extends it to the
    end. *)
Lemma findall_run (m s : string) :
  avoids isspace s -> PyRe.findall_from (Some m) s = [m +:+ s].
Proof.
  revert m. induction s as [|c s IH]; intros m H; simpl.
  - now rewrite append_nil_r.
  - apply avoids_cons in H as [Hc Hs]. rewrite Hc, IH by assumption.
    now rewrite append_assoc.
Qed.

Lemma findall_single (u : string) :
  single_url u -> PyRe.findall_urls u = [u].
Proof.
  intros [Hhead Hsp]. unfold PyRe.findall_urls.
  destruct u as [|c u]; [discriminate|].
  cbn [PyRe.findall_from]. rewrite Hhead.
  apply avoids_cons in Hsp as [_ Hsp]. now rewrite findall_run.
Qed.

Lemma single_url_scheme (u : string) :
  single_url u -> startswith u "http://" || startswith u "https://" = true.
Proof.
  intros [Hhead _]. unfold PyRe.url_head in Hhead.
  apply orb_prop in Hhead as [H|H]; apply andb_prop in H as [H _];
    rewrite H; auto using orb_true_r.
Qed.

Lemma extract_urls_strs (urls : list string) :
  Forall single_url urls ->
  flat_map DownloadData.extract_urls_from_any (map YStr urls) = urls.
Proof.
  induction 1 as [|u urls Hu _ IH]; simpl; [reflexivity|].
  now rewrite findall_single, IH.
Qed.

Lemma find_urls_strs (urls : list string) :
  flat_map DownloadData.find_urls_from_data_keys (map YStr urls) = [].
Proof. induction urls; simpl; auto. Qed.

(** Distinct URLs are all kept by the loop that removes duplicates. *)
Lemma dedup_urls_nodup (seen : gset string) (urls : list string) :
  NoDup urls ->
  (forall u, In u urls ->
     (u ∉ seen) /\ (startswith u "http://" || startswith u "https://" = true)) ->
  DownloadData.dedup_urls seen urls = urls.
Proof.
  intros Hnd. revert seen. induction Hnd as [|u urls Hnotin Hnd IH];
    intros seen H; cbn [DownloadData.dedup_urls]; [reflexivity|].
  destruct (H u (or_introl eq_refl)) as [Hu Hs].
  rewrite (bool_decide_eq_true_2 _ Hu), Hs. cbn [andb]. f_equal.
  apply IH. intros v Hv. destruct (H v (or_intror Hv)) as [Hv1 Hv2].
  split; [|exact Hv2].
  intros Hin. apply elem_of_union in Hin as [Hin|Hin]; [|contradiction].
  apply elem_of_singleton in Hin. subst v.
  apply Hnotin. now apply list_elem_of_In.
Qed.

Lemma not_data_key (k : string) :
  ~ In k ["data-path"; "data_path"; "data-paths"; "data_paths"] ->
  k ∉ DownloadData.DATA_KEYS.
Proof.
  intros H Hin. apply H. unfold DownloadData.DATA_KEYS in Hin.
  apply elem_of_list_to_set in Hin. now apply list_elem_of_In.
Qed.

(** [~ In k l] for a literal [k] and a list [l] of literals. *)
Ltac not_in_literals :=
  let H := fresh in
  cbn [In]; intros H;
  repeat (destruct H as [H|H]; [discriminate H|]); exact H.

(** Induction on a manifest, with the hypothesis for every item of a
    list and every value of a mapping. *)
Lemma yaml_nested_ind (P : yaml -> Prop) :
  P YNull -> (forall b, P (YBool b)) -> (forall z, P (YInt z)) ->
  (forall s, P (YStr s)) ->
  (forall l, Forall P l -> P (YList l)) ->
  (forall d, Forall (fun kv => P (snd kv)) d -> P (YDict d)) ->
  forall y, P y.
Proof.
  intros Hn Hb Hz Hs Hl Hd. fix IH 1. intros [| b | z | s | l | d].
  - exact Hn.
  - apply Hb.
  - apply Hz.
  - apply Hs.
  - apply Hl. induction l as [|y l IHl]; constructor; [apply IH | exact IHl].
  - apply Hd. induction d as [|[k v] d IHd]; constructor; [apply IH | exact IHd].
Qed.

(** What the walk over the data-path keys finds, the scan of the whole
    manifest finds too. *)
Lemma find_urls_in_extract (y : yaml) (u : string) :
  In u (DownloadData.find_urls_from_data_keys y) -> In u (DownloadData.extract_urls_from_any y).
Proof.
  revert u.
  induction y as [| b | z | s | l IH | d IH] using yaml_nested_ind;
    cbn [DownloadData.find_urls_from_data_keys DownloadData.extract_urls_from_any]; intros u Hu;
    try contradiction.
  - apply in_flat_map in Hu as (x & Hx & Hu). apply in_flat_map.
    exists x. split; [assumption|].
    rewrite List.Forall_forall in IH. now apply IH.
  - apply in_flat_map in Hu as ([k v] & Hkv & Hu). apply in_flat_map.
    exists (k, v). split; [assumption|].
    apply in_app_or in Hu as [Hu|Hu].
    + destruct (decide (k ∈ DownloadData.DATA_KEYS)); [assumption | contradiction].
    + rewrite List.Forall_forall in IH. now apply (IH (k, v)).
Qed.

Lemma find_urls_free (v : yaml) :
  url_free v -> DownloadData.find_urls_from_data_keys v = [].
Proof.
  intros H. destruct (DownloadData.find_urls_from_data_keys v) as [|u l] eqn:E;
    [reflexivity|].
  assert (Hin : In u (DownloadData.find_urls_from_data_keys v))
    by (rewrite E; now left).
  apply find_urls_in_extract in Hin. rewrite H in Hin. contradiction.
Qed.

Lemma extract_entries_free (d : list (string * yaml)) :
  Forall (fun kv => url_free (snd kv)) d ->
  flat_map (fun kv : string * yaml =>
              let '(_, v) := kv in DownloadData.extract_urls_from_any v) d = [].
Proof.
  induction 1 as [|[k v] d Hv _ IH]; cbn [flat_map]; [reflexivity|].
  cbn [snd] in Hv. now rewrite Hv, IH.
Qed.

Lemma find_entries_free (d : list (string * yaml)) :
  Forall (fun kv => url_free (snd kv)) d ->
  flat_map (fun kv : string * yaml =>
              let '(k, v) := kv in
              (if decide (k ∈ DownloadData.DATA_KEYS)
               then DownloadData.extract_urls_from_any v else [])
              ++ DownloadData.find_urls_from_data_keys v) d = [].
Proof.
  induction 1 as [|[k v] d Hv _ IH]; cbn [flat_map]; [reflexivity|].
  cbn [snd] in Hv. rewrite (find_urls_free v Hv), Hv, IH.
  now destruct (decide _).
Qed.

(** The Extractor on a manifest that lists distinct URLs under
    [data.paths] and holds no URL elsewhere: it returns the list. *)
Lemma gather_urls_listing (before dbefore dafter after : list (string * yaml))
    (urls : list string) :
  Forall (fun kv => url_free (snd kv)) (before ++ after ++ dbefore ++ dafter) ->
  NoDup urls -> Forall single_url urls ->
  DownloadData.gather_urls (listing before dbefore urls dafter after) = urls.
Proof.
  intros Hfree Hnd Hall.
  apply List.Forall_app in Hfree as [Hb Hfree].
  apply List.Forall_app in Hfree as [Ha Hfree].
  apply List.Forall_app in Hfree as [Hdb Hda].
  unfold DownloadData.gather_urls, listing.
  assert (Hfind : DownloadData.find_urls_from_data_keys
                    (YDict (before
                       ++ ("data", YDict (dbefore
                             ++ ("paths", YList (map YStr urls)) :: dafter))
                       :: after)) = []).
  { cbn [DownloadData.find_urls_from_data_keys].
    rewrite flat_map_app. cbn [flat_map].
    rewrite !find_entries_free by assumption.
    destruct (decide ("data" ∈ DownloadData.DATA_KEYS)) as [Hin|_];
      [exfalso; revert Hin; apply not_data_key; not_in_literals|].
    cbn [DownloadData.find_urls_from_data_keys].
    rewrite flat_map_app. cbn [flat_map].
    rewrite !find_entries_free by assumption.
    destruct (decide ("paths" ∈ DownloadData.DATA_KEYS)) as [Hin|_];
      [exfalso; revert Hin; apply not_data_key; not_in_literals|].
    cbn [DownloadData.find_urls_from_data_keys].
    now rewrite find_urls_strs. }
  rewrite Hfind. unfold DownloadData.fallback_find_all_urls.
  cbn [DownloadData.extract_urls_from_any].
  rewrite flat_map_app. cbn [flat_map].
  rewrite !extract_entries_free by assumption.
  cbn [DownloadData.extract_urls_from_any].
  rewrite flat_map_app. cbn [flat_map].
  rewrite !extract_entries_free by assumption.
  cbn [DownloadData.extract_urls_from_any].
  rewrite extract_urls_strs by assumption. cbn [app]. rewrite !app_nil_r.
  apply dedup_urls_nodup; [assumption|].
  intros u Hu. split; [set_solver|].
  apply single_url_scheme. rewrite List.Forall_forall in Hall. now apply Hall.
Qed.

Lemma gather_urls_paths (urls : list string) :
  NoDup urls -> Forall single_url urls ->
  DownloadData.gather_urls (paths_manifest urls) = urls.
Proof.
  intros Hnd Hall. now apply (gather_urls_listing [] [] [] []).
Qed.

End Extractor.

Section PairsAndTasks.

Lemma build_tasks_pairs (D : PathLib.PurePath) (t : string)
    (prefixes urls : list string) :
  DownloadData.build_tasks D t prefixes urls
  = option_map (map (task_of_pair D)) (MakeWget.build_pairs t prefixes urls).
Proof.
  induction urls as [|u urls IH]; [reflexivity|].
  cbn [DownloadData.build_tasks MakeWget.build_pairs].
  rewrite IH, wget_normalize_unfold, download_normalize_unfold.
  destruct (UrlParse.urlparse u) as [parsed|]; [|reflexivity].
  cbn [option_map].
  destruct (MakeWget.build_pairs t prefixes urls) as [pairs|]; [|reflexivity].
  cbn [option_map]. unfold MakeWget.keeps, DownloadData.keeps.
  now destruct (negb _).
Qed.

Lemma str_items_strs (urls : list string) :
  MakeWget.str_items (map YStr urls) = Some urls.
Proof.
  induction urls as [|u urls IH]; [reflexivity|].
  cbn [map MakeWget.str_items]. now rewrite IH.
Qed.

(** The pairs of the Script Synthesizer for a manifest that lists URLs
    under [data.paths] are those of its loop over the list, and they
    are what is rendered. *)
Lemma wget_main_pairs (args : MakeWget.Args) (y : yaml) (urls cwd : list string)
    (pairs : list (string * string)) (script : string) :
  MakeWget.data_paths y = Returned (YList (map YStr urls)) ->
  MakeWget.main args y cwd = Some (Returned (pairs, script)) ->
  MakeWget.build_pairs (MakeWget.trim_prefix args)
    (MakeWget.normalize_prefixes (MakeWget.include_prefix args)) urls = Some pairs
  /\ script = MakeWget.render
                (PathLib.to_str (PathLib.resolve cwd
                   (PathLib.parse (MakeWget.data_dir args)))) pairs.
Proof.
  unfold MakeWget.main. intros ->. rewrite str_items_strs.
  destruct (MakeWget.build_pairs _ _ urls) as [[|pair rest]|]; try discriminate.
  now intros [= <- <-].
Qed.

End PairsAndTasks.

(** A manifest that lists a URL twice: the Script Synthesizer renders
    two blocks for it, the Download Engine builds one task. And a
    manifest with a URL under a data-path key beside the list: the
    Script Synthesizer renders the listed URL, the Download Engine
    takes the other one. *)
Lemma C6_duplicate_counterexample :
  match MakeWget.main (MakeWget.mkArgs "/d" "/p/" [] "download_data.sh")
          (paths_manifest ["https://h/p/a/x"; "https://h/p/a/x"]) [] with
  | Some (Returned (pairs, _)) => map fst pairs
  | _ => []
  end = ["https://h/p/a/x"; "https://h/p/a/x"]
  /\ option_map (map fst)
       (DownloadData.build_tasks (PathLib.parse "/d") "/p/"
          (DownloadData.normalize_prefixes [])
          (DownloadData.gather_urls
             (paths_manifest ["https://h/p/a/x"; "https://h/p/a/x"])))
     = Some ["https://h/p/a/x"]
  /\ match MakeWget.main (MakeWget.mkArgs "/d" "/p/" [] "download_data.sh")
             (listing [] [] ["https://h/p/a/x"] []
                [("data-path", YStr "https://h/p/a/y")]) [] with
     | Some (Returned (pairs, _)) => map fst pairs
     | _ => []
     end = ["https://h/p/a/x"]
  /\ option_map (map fst)
       (DownloadData.build_tasks (PathLib.parse "/d") "/p/"
          (DownloadData.normalize_prefixes [])
          (DownloadData.gather_urls
             (listing [] [] ["https://h/p/a/x"] []
                [("data-path", YStr "https://h/p/a/y")])))
     = Some ["https://h/p/a/y"].
Proof. repeat split; vm_compute; reflexivity. Qed.

(** C6 (amended). For every manifest [y] for which the Script
    Synthesizer writes a script, [urls] being the list of strings under
    [data.paths], and the same trim prefix and include prefixes in both
    tools: the script is the rendering of the pairs; whenever the
    Extractor of the Download Engine gathers exactly the list [urls]
    from [y], the task list the Download Engine builds is, pair by pair
    and in the same order, the list of (url, relative path) pairs that
    the Script Synthesizer renders, each relative path joined to the
    data root; and the Extractor gathers exactly [urls] when [y] is a
    mapping whose key [data] holds a mapping whose key [paths] holds
    the list, the entries being distinct http/https URLs without white
    space, and no other value of the manifest holds a URL. *)
Theorem C6_synthesizer_pairs_are_engine_tasks :
  forall (y : yaml) (urls : list string) (args : MakeWget.Args)
         (cwd : list string) (D : PathLib.PurePath)
         (pairs : list (string * string)) (script : string),
    MakeWget.data_paths y = Returned (YList (map YStr urls)) ->
    MakeWget.main args y cwd = Some (Returned (pairs, script)) ->
    script = MakeWget.render
               (PathLib.to_str (PathLib.resolve cwd
                  (PathLib.parse (MakeWget.data_dir args)))) pairs
    /\ (DownloadData.gather_urls y = urls ->
        DownloadData.build_tasks D (MakeWget.trim_prefix args)
          (DownloadData.normalize_prefixes (MakeWget.include_prefix args))
          (DownloadData.gather_urls y)
        = Some (map (task_of_pair D) pairs))
    /\ (forall before dbefore dafter after : list (string * yaml),
          y = listing before dbefore urls dafter after ->
          Forall (fun kv => url_free (snd kv))
                 (before ++ after ++ dbefore ++ dafter) ->
          NoDup urls -> Forall single_url urls ->
          DownloadData.gather_urls y = urls).
Proof.
  intros y urls args cwd D pairs script Hlist Hmain.
  destruct (wget_main_pairs args y urls cwd pairs script Hlist Hmain)
    as [Hpairs Hscript].
  split; [exact Hscript|]. split.
  - intros ->.
    rewrite build_tasks_pairs, <- normalize_prefixes_same, Hpairs. reflexivity.
  - intros before dbefore dafter after -> Hfree Hnd Hall.
    now apply gather_urls_listing.
Qed.

Lemma C6_synthesizer_pairs_are_engine_tasks_witness :
  DownloadData.build_tasks (PathLib.parse "/d") "/p/"
    (DownloadData.normalize_prefixes [])
    (DownloadData.gather_urls
       (listing [("name", YStr "proof-pile")] [("format", YStr "npy")]
          ["https://h/p/a/x"; "https://h/p/a/y"] [("shuffle", YBool true)]
          [("seed", YInt 7)]))
  = Some (map (task_of_pair (PathLib.parse "/d"))
            [("https://h/p/a/x", "a/x"); ("https://h/p/a/y", "a/y")]).
Proof.
  destruct (C6_synthesizer_pairs_are_engine_tasks
    (listing [("name", YStr "proof-pile")] [("format", YStr "npy")]
       ["https://h/p/a/x"; "https://h/p/a/y"] [("shuffle", YBool true)]
       [("seed", YInt 7)])
    ["https://h/p/a/x"; "https://h/p/a/y"]
    (MakeWget.mkArgs "/d" "/p/" [] "download_data.sh") [] (PathLib.parse "/d")
    [("https://h/p/a/x", "a/x"); ("https://h/p/a/y", "a/y")] _ eq_refl eq_refl)
    as (_ & Htasks & Hgather).
  apply Htasks.
  apply (Hgather [("name", YStr "proof-pile")] [("format", YStr "npy")]
           [("shuffle", YBool true)] [("seed", YInt 7)] eq_refl).
  - repeat constructor.
  - apply NoDup_cons_2; [|apply NoDup_singleton].
    intros H. apply list_elem_of_In in H. destruct H as [H|[]]. discriminate H.
  - constructor; [|constructor; [|constructor]]; split; reflexivity.
Defined.


(** ** C2: a run of the Download Engine *)

Section EngineRun.

(** Creating directories changes no regular file. *)
Lemma mkdir_step_files (now : Z) (q : PathLib.PurePath) (fs fs' : FileSystem.t) :
  match FileSystem.lookup fs q with
  | Some st => if st_is_dir st then Some fs else None
  | None => Some (FileSystem.mkFs (FileSystem.cwd fs)
                    (<[FileSystem.key fs q := mkStat true 4096%N now]>
                       (FileSystem.entries fs)))
  end = Some fs' ->
  FileSystem.files fs' = FileSystem.files fs
  /\ FileSystem.cwd fs' = FileSystem.cwd fs.
Proof.
  unfold FileSystem.lookup.
  destruct (FileSystem.entries fs !! FileSystem.key fs q) as [st|] eqn:E.
  - destruct (st_is_dir st); [|discriminate]. now intros [= <-].
  - intros [= <-]. split; [|reflexivity].
    unfold FileSystem.files. cbn [FileSystem.entries].
    rewrite map_filter_insert_False by (cbn; discriminate).
    now rewrite delete_id.
Qed.

Lemma mkdir_fold_files (now : Z) (qs : list PathLib.PurePath)
    (acc : option FileSystem.t) (fs fs' : FileSystem.t) :
  acc = Some fs ->
  fold_left (fun acc q =>
    match acc with
    | None => None
    | Some fs' =>
        match FileSystem.lookup fs' q with
        | Some st => if st_is_dir st then Some fs' else None
        | None => Some (FileSystem.mkFs (FileSystem.cwd fs')
                          (<[FileSystem.key fs' q := mkStat true 4096%N now]>
                             (FileSystem.entries fs')))
        end
    end) qs acc = Some fs' ->
  FileSystem.files fs' = FileSystem.files fs
  /\ FileSystem.cwd fs' = FileSystem.cwd fs.
Proof.
  revert acc fs. induction qs as [|q qs IH]; intros acc fs -> H; cbn [fold_left] in H.
  - now injection H as <-.
  - destruct (match FileSystem.lookup fs q with
              | Some st => if st_is_dir st then Some fs else None
              | None => _ end) as [fs1|] eqn:E.
    + destruct (mkdir_step_files now q fs fs1 E) as [Hf Hc].
      destruct (IH _ fs1 eq_refl H) as [Hf' Hc']. split; congruence.
    + exfalso. clear -H. induction qs as [|q' qs IHq]; [discriminate|].
      now apply IHq.
Qed.

Lemma mkdir_parents_files (now : Z) (p : PathLib.PurePath) (fs fs' : FileSystem.t) :
  FileSystem.mkdir_parents now p fs = Some fs' ->
  FileSystem.files fs' = FileSystem.files fs
  /\ FileSystem.cwd fs' = FileSystem.cwd fs.
Proof. unfold FileSystem.mkdir_parents. now apply mkdir_fold_files. Qed.

(** The name [download_one] is not bound in the module: dispatching a
    non-empty list of tasks raises [NameError]. *)
Lemma dispatch_raises (task : string * PathLib.PurePath)
    (tasks : list (string * PathLib.PurePath)) :
  DownloadData.dispatch (task :: tasks)
  = Some (Raised (NameError "download_one")).
Proof. reflexivity. Qed.

(** How a run ends, step by step. *)
Lemma main_cases (home : string -> string) (args : DownloadData.Args) (y : yaml)
    (now : Z) (fs : FileSystem.t) :
  match PathLib.expanduser home (PathLib.parse (DownloadData.data_dir args)) with
  | None => DownloadData.main home args y now fs = Some (Raised RuntimeError, fs)
  | Some expanded =>
      match FileSystem.mkdir_parents now
              (PathLib.resolve (FileSystem.cwd fs) expanded) fs with
      | None => DownloadData.main home args y now fs = Some (Raised OSError, fs)
      | Some fs1 =>
          match DownloadData.gather_urls y with
          | [] => DownloadData.main home args y now fs = Some (Exit 1, fs1)
          | _ :: _ =>
              match DownloadData.build_tasks
                      (PathLib.resolve (FileSystem.cwd fs) expanded)
                      (DownloadData.trim_prefix args)
                      (DownloadData.normalize_prefixes
                         (DownloadData.include_prefix args))
                      (DownloadData.gather_urls y) with
              | None =>
                  DownloadData.main home args y now fs
                  = Some (Raised ValueError, fs1)
              | Some [] =>
                  DownloadData.main home args y now fs = Some (Exit 2, fs1)
              | Some (_ :: _) =>
                  DownloadData.main home args y now fs
                  = Some (Raised (NameError "download_one"), fs1)
              end
          end
      end
  end.
Proof.
  unfold DownloadData.main.
  destruct (PathLib.expanduser home _) as [expanded|]; [|reflexivity].
  cbv zeta.
  destruct (FileSystem.mkdir_parents now _ fs) as [fs1|]; [|reflexivity].
  destruct (DownloadData.gather_urls y) as [|u urls]; [reflexivity|].
  destruct (DownloadData.build_tasks _ _ _ (u :: urls)) as [[|task tasks]|];
    reflexivity.
Qed.

End EngineRun.

(** A manifest with one URL: the run ends with a [NameError] raised in
    the main thread, and the check after the run is not reached. *)
Lemma C2_name_error_counterexample :
  option_map fst
    (DownloadData.main (fun _ => "/home/me")
       (DownloadData.mkArgs "/data/root" "/p/" [] 8)
       (paths_manifest ["https://h/p/a/x"]) 0%Z (FileSystem.mkFs [] ∅))
  = Some (Raised (NameError "download_one")).
Proof. vm_compute. reflexivity. Qed.

(** C2. Every run of the Download Engine, whatever the manifest, the
    configuration and the file system, ends in one of six ways, none of
    which is a return from [main], and writes no file content: the
    regular files after the run are those before it. The per-task
    function [download_one] is not defined, and the name is looked up by
    the main thread when the first task is submitted: every run that has
    prepared at least one task ends there with [NameError], before any
    task is dispatched, and the check after the run (which would count
    each destination that is missing or of size [<= 0]) is never
    reached. The other runs end before the dispatch: with the
    [RuntimeError] of a home directory that cannot be found, the error
    of creating the data directory, status 1 (no URL), the
    [ValueError] of a URL that the parser rejects, or status 2 (no URL
    kept). *)
Theorem C2_run_ends_before_dispatch :
  forall (home : string -> string) (args : DownloadData.Args) (y : yaml)
         (now : Z) (fs : FileSystem.t),
  exists (out : outcome nat) (fs' : FileSystem.t),
    DownloadData.main home args y now fs = Some (out, fs')
    /\ FileSystem.files fs' = FileSystem.files fs
    /\ (forall errors : nat, out <> Returned errors)
    /\ (out = Raised RuntimeError \/ out = Raised OSError \/ out = Exit 1
        \/ out = Raised ValueError \/ out = Exit 2
        \/ out = Raised (NameError "download_one"))
    /\ (out = Raised RuntimeError
        <-> PathLib.expanduser home (PathLib.parse (DownloadData.data_dir args))
            = None)
    /\ (forall expanded : PathLib.PurePath,
          PathLib.expanduser home (PathLib.parse (DownloadData.data_dir args))
          = Some expanded ->
          (out = Raised OSError
           <-> FileSystem.mkdir_parents now
                 (PathLib.resolve (FileSystem.cwd fs) expanded) fs = None)
          /\ (FileSystem.mkdir_parents now
                (PathLib.resolve (FileSystem.cwd fs) expanded) fs <> None ->
              (out = Exit 1 <-> DownloadData.gather_urls y = [])
              /\ (out = Raised ValueError
                  <-> DownloadData.build_tasks
                        (PathLib.resolve (FileSystem.cwd fs) expanded)
                        (DownloadData.trim_prefix args)
                        (DownloadData.normalize_prefixes
                           (DownloadData.include_prefix args))
                        (DownloadData.gather_urls y) = None)
              /\ (out = Exit 2
                  <-> DownloadData.gather_urls y <> []
                      /\ DownloadData.build_tasks
                           (PathLib.resolve (FileSystem.cwd fs) expanded)
                           (DownloadData.trim_prefix args)
                           (DownloadData.normalize_prefixes
                              (DownloadData.include_prefix args))
                           (DownloadData.gather_urls y) = Some [])
              /\ (out = Raised (NameError "download_one")
                  <-> exists task tasks,
                        DownloadData.build_tasks
                          (PathLib.resolve (FileSystem.cwd fs) expanded)
                          (DownloadData.trim_prefix args)
                          (DownloadData.normalize_prefixes
                             (DownloadData.include_prefix args))
                          (DownloadData.gather_urls y) = Some (task :: tasks)))).
Proof.
  intros home args y now fs.
  pose proof (main_cases home args y now fs) as H.
  destruct (PathLib.expanduser home _) as [expanded|].
  2:{ exists (Raised RuntimeError), fs. split; [exact H|].
      split; [reflexivity|]. split; [discriminate|]. split; [auto|].
      split; [now split|]. discriminate. }
  destruct (FileSystem.mkdir_parents now _ fs) as [fs1|] eqn:Hmk.
  2:{ exists (Raised OSError), fs. split; [exact H|].
      split; [reflexivity|]. split; [discriminate|]. split; [auto|].
      split; [split; discriminate|].
      intros expanded' [= <-]. rewrite Hmk. split; [now split|].
      intros Hne. now elim Hne. }
  apply mkdir_parents_files in Hmk as Hfiles. destruct Hfiles as [Hfiles _].
  destruct (DownloadData.gather_urls y) as [|u urls] eqn:Hg.
  { exists (Exit 1), fs1. split; [exact H|].
    split; [exact Hfiles|]. split; [discriminate|]. split; [auto|].
    split; [split; discriminate|].
    intros expanded' [= <-]. rewrite Hmk. split; [split; discriminate|].
    intros _. cbn [DownloadData.build_tasks]. repeat split; try discriminate.
    - intros [Hne _]. now elim Hne.
    - intros (task & tasks & Hb). discriminate Hb. }
  destruct (DownloadData.build_tasks _ _ _ (u :: urls)) as [[|task tasks]|] eqn:Hb.
  - exists (Exit 2), fs1. split; [exact H|].
    split; [exact Hfiles|]. split; [discriminate|]. split; [auto 7|].
    split; [split; discriminate|].
    intros expanded' [= <-]. rewrite Hmk, Hb. split; [split; discriminate|].
    intros _. repeat split; try discriminate.
    intros (task & tasks & Hb'). discriminate Hb'.
  - exists (Raised (NameError "download_one")), fs1. split; [exact H|].
    split; [exact Hfiles|]. split; [discriminate|]. split; [auto 7|].
    split; [split; discriminate|].
    intros expanded' [= <-]. rewrite Hmk, Hb. split; [split; discriminate|].
    intros _. repeat split; try discriminate; eauto.
    intros [_ Hb']. discriminate Hb'.
  - exists (Raised ValueError), fs1. split; [exact H|].
    split; [exact Hfiles|]. split; [discriminate|]. split; [auto 7|].
    split; [split; discriminate|].
    intros expanded' [= <-]. rewrite Hmk, Hb. split; [split; discriminate|].
    intros _. repeat split; try discriminate.
    + intros [_ Hb']. discriminate Hb'.
    + intros (task & tasks & Hb'). discriminate Hb'.
Qed.

Lemma C2_run_ends_before_dispatch_witness :
  exists (out : outcome nat) (fs' : FileSystem.t),
    DownloadData.main (fun _ => "/home/me")
      (DownloadData.mkArgs "~/data" "/p/" [] 8)
      (paths_manifest ["https://h/p/a/x"]) 0%Z (FileSystem.mkFs [] ∅)
    = Some (out, fs')
    /\ FileSystem.files fs' = FileSystem.files (FileSystem.mkFs [] ∅)
    /\ out = Raised (NameError "download_one").
Proof.
  destruct (C2_run_ends_before_dispatch (fun _ => "/home/me")
              (DownloadData.mkArgs "~/data" "/p/" [] 8)
              (paths_manifest ["https://h/p/a/x"]) 0%Z (FileSystem.mkFs [] ∅))
    as (out & fs' & Hmain & Hfiles & _ & _ & _ & Hrest).
  exists out, fs'. split; [exact Hmain|]. split; [exact Hfiles|].
  destruct (Hrest (PathLib.parse "/home/me/data") eq_refl) as [_ Hends].
  apply Hends; [now vm_compute|].
  eexists _, _. vm_compute. reflexivity.
Defined.


(** ** C4 and C5: retries and the skip decision *)

Section Retries.
Import Requests.

(** Every call sends at least one attempt, and at most one more than
    the counter [total] allows retries. *)
Lemma urlopen_attempts (total connect read : nat) (r : Retry) (method : string)
    (server : nat -> attempt) (k : nat) :
  S k <= snd (urlopen total connect read r method server k) <= k + total + 1.
Proof.
  revert connect read k. induction total as [|total IH]; intros connect read k;
    cbn [urlopen]; destruct (server k) as [| |resp].
  - destruct connect; cbn [snd]; lia.
  - destruct (negb _); [|destruct read]; cbn [snd]; lia.
  - destruct (is_retry _ _ _ _ _); [destruct (raise_on_status r)|]; cbn [snd]; lia.
  - destruct connect as [|connect]; [cbn [snd]; lia|].
    specialize (IH connect read (S k)). lia.
  - destruct (negb _); [cbn [snd]; lia|].
    destruct read as [|read]; [cbn [snd]; lia|].
    specialize (IH connect read (S k)). lia.
  - destruct (is_retry _ _ _ _ _); [|cbn [snd]; lia].
    specialize (IH connect read (S k)). lia.
Qed.

Local Abbreviation policy := (max_retries DownloadData.default_session).








End Retries.

Section PerTask.
Import Requests.

Lemma should_skip_absent (session : Session) (net : network)
    (fs : FileSystem.t) (url : string) (dst : PathLib.PurePath) :
  FileSystem.lookup fs dst = None ->
  DownloadData.should_skip session net fs url dst = (false, 0).
Proof.
  intros H. unfold DownloadData.should_skip, FileSystem.exists_. now rewrite H.
Qed.

Lemma should_skip_present (session : Session) (net : network)
    (fs : FileSystem.t) (url : string) (dst : PathLib.PurePath) (st : stat_result) :
  FileSystem.lookup fs dst = Some st ->
  DownloadData.should_skip session net fs url dst
  = match request session net "HEAD" url with
    | (Received resp, sent_heads) =>
        match content_length resp with
        | Some cl =>
            match PyInt.int cl with
            | Some remote => ((remote =? Z.of_N (st_size st))%Z, sent_heads)
            | None => (false, sent_heads)
            end
        | None => (false, sent_heads)
        end
    | (RequestException, sent_heads) => (false, sent_heads)
    end.
Proof.
  intros H. unfold DownloadData.should_skip, FileSystem.exists_,
    DownloadData.file_size. rewrite H. cbn [negb].
  destruct (Z.ltb_spec (Z.of_N (st_size st)) 0); [lia | reflexivity].
Qed.

(** The task function once the parent directory is there and the skip
    decision is taken. *)
Lemma download_one_skip (session : Session) (net : network) (now : Z)
    (url : string) (dst : PathLib.PurePath) (fs0 fs : FileSystem.t) (probes : nat) :
  DownloadData.ensure_parent_dir now dst fs0 = Some fs ->
  DownloadData.should_skip session net fs url dst = (true, probes) ->
  DownloadSpec.download_one session net now url dst fs0
  = (DownloadSpec.mkResult url DownloadSpec.skipped 0 probes 0, fs).
Proof.
  intros Hdir Hskip. unfold DownloadSpec.download_one. now rewrite Hdir, Hskip.
Qed.

Lemma download_one_transfer (session : Session) (net : network) (now : Z)
    (url : string) (dst : PathLib.PurePath) (fs0 fs : FileSystem.t) (probes : nat) :
  DownloadData.ensure_parent_dir now dst fs0 = Some fs ->
  DownloadData.should_skip session net fs url dst = (false, probes) ->
  fst (DownloadSpec.download_one session net now url dst fs0)
  = match request session net "GET" url with
    | (Received resp, attempts) =>
        if (status resp <? 400)%Z
        then DownloadSpec.mkResult url DownloadSpec.succeeded (body_size resp)
               probes attempts
        else DownloadSpec.mkResult url DownloadSpec.failed 0 probes attempts
    | (RequestException, attempts) =>
        DownloadSpec.mkResult url DownloadSpec.failed 0 probes attempts
    end.
Proof.
  intros Hdir Hskip. unfold DownloadSpec.download_one. rewrite Hdir, Hskip.
  destruct (request session net "GET" url) as [[resp|] attempts]; [|reflexivity].
  now destruct (status resp <? 400)%Z.
Qed.

Lemma download_one_transfers (session : Session) (net : network) (now : Z)
    (url : string) (dst : PathLib.PurePath) (fs0 fs : FileSystem.t) (probes : nat) :
  DownloadData.ensure_parent_dir now dst fs0 = Some fs ->
  DownloadData.should_skip session net fs url dst = (false, probes) ->
  let result := fst (DownloadSpec.download_one session net now url dst fs0) in
  DownloadSpec.result_status result <> DownloadSpec.skipped
  /\ DownloadSpec.probes_sent result = probes
  /\ DownloadSpec.transfers_sent result = snd (request session net "GET" url)
  /\ 1 <= DownloadSpec.transfers_sent result.
Proof.
  intros Hdir Hskip result. subst result.
  rewrite (download_one_transfer _ _ _ _ _ _ _ _ Hdir Hskip).
  pose proof (urlopen_attempts (total (max_retries session))
                (connect (max_retries session)) (read (max_retries session))
                (max_retries session) "GET" (net "GET" url) 0) as Hn.
  fold (request session net "GET" url) in Hn.
  destruct (request session net "GET" url) as [[resp|] attempts]; cbn [snd] in *.
  - destruct (status resp <? 400)%Z; cbn; repeat split; (discriminate || lia).
  - cbn; repeat split; (discriminate || lia).
Qed.

End PerTask.

(** C5. At the skip decision of a task (the parent directory of the
    destination having been created): if the destination exists with
    size [S] and the probe returns a response whose Content-Length
    parses to [S], the task is skipped and no transfer request is sent;
    if the probe raises (an error or a timeout) or its response has no
    Content-Length or one that does not parse, the task is not skipped
    and a transfer is attempted; if the destination does not exist, no
    probe is sent, the task is not skipped and a transfer is attempted. *)
Theorem C5_skip_decision :
  forall (session : Requests.Session) (net : Requests.network) (now : Z)
         (url : string) (dst : PathLib.PurePath) (fs0 fs : FileSystem.t),
    DownloadData.ensure_parent_dir now dst fs0 = Some fs ->
    let probe := Requests.request session net "HEAD" url in
    let result := fst (DownloadSpec.download_one session net now url dst fs0) in
    (forall st : stat_result,
       FileSystem.lookup fs dst = Some st ->
       (forall (resp : Requests.response) (cl : string),
          fst probe = Requests.Received resp ->
          Requests.content_length resp = Some cl ->
          PyInt.int cl = Some (Z.of_N (st_size st)) ->
          DownloadData.should_skip session net fs url dst = (true, snd probe)
          /\ DownloadSpec.result_status result = DownloadSpec.skipped
          /\ DownloadSpec.transfers_sent result = 0)
       /\ (fst probe = Requests.RequestException
           \/ (exists resp, fst probe = Requests.Received resp
                 /\ (Requests.content_length resp = None
                     \/ exists cl, Requests.content_length resp = Some cl
                                   /\ PyInt.int cl = None)) ->
           DownloadData.should_skip session net fs url dst = (false, snd probe)
           /\ DownloadSpec.result_status result <> DownloadSpec.skipped
           /\ 1 <= DownloadSpec.transfers_sent result))
    /\ (FileSystem.lookup fs dst = None ->
        DownloadData.should_skip session net fs url dst = (false, 0)
        /\ DownloadSpec.probes_sent result = 0
        /\ DownloadSpec.result_status result <> DownloadSpec.skipped
        /\ 1 <= DownloadSpec.transfers_sent result).
Proof.
  intros session net now url dst fs0 fs Hdir probe result. split.
  - intros st Hst. pose proof (should_skip_present session net fs url dst st Hst) as Hs.
    fold probe in Hs. split.
    + intros resp cl Hp Hcl Hint.
      destruct probe as [sent heads]. cbn [fst snd] in *. subst sent.
      rewrite Hcl, Hint, Z.eqb_refl in Hs. split; [exact Hs|].
      subst result. rewrite (download_one_skip _ _ _ _ _ _ _ _ Hdir Hs).
      now split.
    + intros Hp.
      assert (Hskip : DownloadData.should_skip session net fs url dst
                      = (false, snd probe)).
      { destruct probe as [sent heads]. cbn [fst snd] in *.
        destruct Hp as [->|(resp & -> & [Hcl|(cl & Hcl & Hint)])].
        - exact Hs.
        - now rewrite Hcl in Hs.
        - now rewrite Hcl, Hint in Hs. }
      split; [exact Hskip|].
      destruct (download_one_transfers _ _ _ _ _ _ _ _ Hdir Hskip)
        as (H1 & _ & _ & H4). now split.
  - intros Hnone. pose proof (should_skip_absent session net fs url dst Hnone) as Hskip.
    split; [exact Hskip|].
    destruct (download_one_transfers _ _ _ _ _ _ _ _ Hdir Hskip)
      as (H1 & H2 & _ & H4). auto.
Qed.

Lemma C5_skip_decision_witness :
  DownloadData.should_skip DownloadData.default_session sample_net sample_fs
    "https://h/p/a/x" (PathLib.parse "/data/a/x") = (true, 1)
  /\ DownloadSpec.result_status
       (fst (DownloadSpec.download_one DownloadData.default_session sample_net 0%Z
               "https://h/p/a/x" (PathLib.parse "/data/a/x") sample_fs))
     = DownloadSpec.skipped
  /\ DownloadSpec.transfers_sent
       (fst (DownloadSpec.download_one DownloadData.default_session sample_net 0%Z
               "https://h/p/a/x" (PathLib.parse "/data/a/x") sample_fs))
     = 0.
Proof.
  assert (Hdir : DownloadData.ensure_parent_dir 0%Z (PathLib.parse "/data/a/x")
                   sample_fs = Some sample_fs) by (vm_compute; reflexivity).
  pose proof (C5_skip_decision DownloadData.default_session sample_net 0%Z
                "https://h/p/a/x" (PathLib.parse "/data/a/x") sample_fs sample_fs
                Hdir) as [H _].
  destruct (H (mkStat false 10%N 0%Z) ltac:(vm_compute; reflexivity)) as [Ha _].
  exact (Ha (sample_response 200 (Some "10")) "10"
            ltac:(vm_compute; reflexivity) eq_refl ltac:(vm_compute; reflexivity)).
Defined.





(** ** C8: the last existing target *)

#[local] Set Warnings "-clear-no-such-hyp".

Section Dedup.
Import CheckTargets.

Local Abbreviation rels P := (list_to_set (map fst P) : gset string).

(** The loop that removes duplicates keeps the first pair of every
    relative path: a pair it keeps splits the input at a first
    occurrence. *)
Lemma dedup_pairs_split (P : list (string * option string)) :
  forall (seen : gset string) (U1 U2 : list (string * option string))
         (pair : string * option string),
    dedup_pairs seen P = U1 ++ pair :: U2 ->
    exists P1 P2,
      P = P1 ++ pair :: P2
      /\ (fst pair ∉ seen) /\ ~ In (fst pair) (map fst P1)
      /\ U1 = dedup_pairs seen P1
      /\ U2 = dedup_pairs ({[fst pair]} ∪ (rels P1 ∪ seen)) P2.
Proof.
  induction P as [|[rel ab] P IH]; intros seen U1 U2 pair H; cbn [dedup_pairs] in H.
  - destruct U1; discriminate.
  - destruct (bool_decide_reflect (rel ∈ seen)) as [Hin|Hnotin].
    + destruct (IH seen U1 U2 pair H) as (P1 & P2 & -> & Hs & Hn & -> & ->).
      exists ((rel, ab) :: P1), P2. cbn [app map fst In dedup_pairs].
      rewrite (bool_decide_eq_true_2 _ Hin).
      repeat split; auto.
      * intros [E|E]; [|auto]. apply Hs. now rewrite <- E.
      * f_equal. cbn [list_to_set]. set_solver.
    + destruct U1 as [|u U1].
      * injection H as <- <-. exists [], P. cbn [app map fst In dedup_pairs].
        repeat split; auto. f_equal. cbn [list_to_set]. set_solver.
      * injection H as <- H.
        destruct (IH _ U1 U2 pair H) as (P1 & P2 & -> & Hs & Hn & -> & ->).
        exists ((rel, ab) :: P1), P2. cbn [app map fst In dedup_pairs].
        rewrite (bool_decide_eq_false_2 _ Hnotin).
        repeat split; auto.
        -- set_solver.
        -- intros [E|E]; [|auto]. apply Hs. cbn [fst] in E. set_solver.
        -- f_equal. cbn [list_to_set fst]. set_solver.
Qed.

(** Conversely, a first occurrence is kept. *)
Lemma dedup_pairs_first (P1 P2 : list (string * option string))
    (q : string * option string) :
  forall seen : gset string,
    fst q ∉ seen -> ~ In (fst q) (map fst P1) ->
    In q (dedup_pairs seen (P1 ++ q :: P2)).
Proof.
  induction P1 as [|[rel ab] P1 IH]; intros seen Hs Hn; cbn [app dedup_pairs].
  - destruct q as [r a]. cbn [fst] in *.
    rewrite (bool_decide_eq_false_2 _ Hs). now left.
  - cbn [map fst In] in Hn.
    destruct (bool_decide (rel ∈ seen)).
    + apply IH; auto.
    + right. apply IH; [|auto]. set_solver.
Qed.

End Dedup.

Section LastExisting.
Import CheckTargets.

Lemma py_last_app {A : Type} (l : list A) (x : A) : py_last (l ++ [x]) = Some x.
Proof. unfold py_last. rewrite List.map_app. cbn [map]. apply last_last. Qed.

Lemma py_last_cons {A : Type} (a : A) (l : list A) : py_last (a :: l) <> None.
Proof.
  destruct (exists_last (l := a :: l) ltac:(discriminate)) as (l' & x & ->).
  now rewrite py_last_app.
Qed.

(** The last element that passes a filter splits the list: it passes,
    and nothing after it does. *)
Lemma filter_last_split {A : Type} (p : A -> bool) (l kept : list A) (x : A) :
  List.filter p l = kept ++ [x] ->
  exists l1 l2, l = l1 ++ x :: l2 /\ p x = true
                /\ List.filter p l1 = kept /\ List.filter p l2 = [].
Proof.
  revert kept. induction l as [|a l IH]; intros kept H; cbn [List.filter] in H.
  - destruct kept; discriminate.
  - destruct (p a) eqn:Ea.
    + destruct kept as [|k kept].
      * injection H as <- H. exists [], l. cbn. now rewrite Ea.
      * injection H as <- H. destruct (IH kept H) as (l1 & l2 & -> & Hx & H1 & H2).
        exists (a :: l1), l2. cbn [app List.filter]. rewrite Ea, H1. auto.
    + destruct (IH kept H) as (l1 & l2 & -> & Hx & H1 & H2).
      exists (a :: l1), l2. cbn [app List.filter]. rewrite Ea. auto.
Qed.

Lemma filter_nil_iff {A : Type} (p : A -> bool) (l : list A) :
  List.filter p l = [] <-> forall x, In x l -> p x = false.
Proof.
  induction l as [|a l IH]; cbn [List.filter In]; [tauto|].
  destruct (p a) eqn:Ea; split.
  - discriminate.
  - intros H. specialize (H a (or_introl eq_refl)). congruence.
  - intros H x [<-|Hx]; [assumption|]. now apply IH.
  - intros H. apply IH. auto.
Qed.

(** The report never indexes an empty list. *)
Lemma report_total (show_all : bool) (d : string)
    (U : list (string * option string)) (ex mi : list (string * string)) :
  report show_all d U ex mi <> inl IndexError.
Proof.
  unfold report. destruct ex as [|e ex]; [discriminate|].
  pose proof (py_last_cons e ex) as H.
  destruct (py_last (e :: ex)) as [[r a]|]; [discriminate | contradiction].
Qed.

Lemma report_none (show_all : bool) (d : string)
    (U : list (string * option string)) (mi : list (string * string)) :
  report show_all d U [] mi
  = inr (report_head d U [] mi ++ missing_lines mi ++ [NONE_EXISTING]).
Proof. reflexivity. Qed.

Lemma report_last (show_all : bool) (d : string)
    (U : list (string * option string)) (ex mi : list (string * string))
    (last : string * string) :
  report show_all d U (ex ++ [last]) mi
  = inr (report_head d U (ex ++ [last]) mi ++ missing_lines mi
         ++ [LAST_HEADER; fst last; snd last]
         ++ existing_lines show_all (ex ++ [last])).
Proof.
  unfold report. rewrite py_last_app. destruct last as [r a].
  destruct (ex ++ [(r, a)]) eqn:E; [now destruct ex|reflexivity].
Qed.

(** Only whether a path is a regular file matters to the check. *)
Lemma on_disk_ext (fs fs' : FileSystem.t) (d : string)
    (pair : string * option string) :
  (forall p, FileSystem.is_file fs' p = FileSystem.is_file fs p) ->
  on_disk fs' d pair = on_disk fs d pair.
Proof. intros H. unfold on_disk. apply H. Qed.

Lemma main_ext (args : Args) (script data_dir : option string)
    (fs fs' : FileSystem.t) :
  FileSystem.cwd fs' = FileSystem.cwd fs ->
  (forall p, FileSystem.is_file fs' p = FileSystem.is_file fs p) ->
  main args script data_dir fs' = main args script data_dir fs.
Proof.
  intros Hcwd Hfile. unfold main, existing, missing. rewrite Hcwd.
  destruct script as [text|]; [|reflexivity].
  destruct (opt_truthy data_dir) as [d|]; [|reflexivity].
  destruct (extract_targets_from_sh text) as [|tok toks]; [reflexivity|].
  destruct (rel_abs_pairs _ _ d (tok :: toks)) as [|pair pairs]; [reflexivity|].
  set (U := dedup_pairs ∅ (pair :: pairs)).
  rewrite (filter_ext (on_disk fs' d) (on_disk fs d)) by
    (intros q; now apply on_disk_ext).
  rewrite (filter_ext (fun q => negb (on_disk fs' d q))
                      (fun q => negb (on_disk fs d q))) by
    (intros q; f_equal; now apply on_disk_ext).
  reflexivity.
Qed.

End LastExisting.

Section VerifierReport.
Import CheckTargets.

(** What a completed run has printed, in terms of the pairs in script
    order. *)
Lemma main_returned (args : Args) (script data_dir : option string)
    (fs : FileSystem.t) (printed : list string) :
  main args script data_dir fs = Returned printed ->
  exists text d,
    script = Some text /\ opt_truthy data_dir = Some d
    /\ let U := dedup_pairs ∅
                  (rel_abs_pairs (FileSystem.cwd fs) (filter_prefix args) d
                     (extract_targets_from_sh text)) in
       report (show_existing args) d U (existing fs d U) (missing fs d U)
       = inr printed.
Proof.
  unfold main. destruct script as [text|]; [|discriminate].
  destruct (opt_truthy data_dir) as [d|]; [|discriminate].
  destruct (extract_targets_from_sh text) as [|tok toks] eqn:Et; [discriminate|].
  destruct (rel_abs_pairs _ _ d (tok :: toks)) as [|pair pairs] eqn:Ep;
    [discriminate|].
  destruct (report _ _ _ _ _) as [e|out] eqn:Er; [discriminate|].
  intros [= <-]. exists text, d. rewrite Et. cbv zeta. rewrite Ep. auto.
Qed.

Lemma main_no_index_error (args : Args) (script data_dir : option string)
    (fs : FileSystem.t) :
  main args script data_dir fs <> Raised IndexError.
Proof.
  unfold main. destruct script as [text|]; [|discriminate].
  destruct (opt_truthy data_dir) as [d|]; [|discriminate].
  destruct (extract_targets_from_sh text) as [|tok toks]; [discriminate|].
  destruct (rel_abs_pairs _ _ d (tok :: toks)) as [|pair pairs]; [discriminate|].
  pose proof (report_total (show_existing args) d
                (dedup_pairs ∅ (pair :: pairs))
                (existing fs d (dedup_pairs ∅ (pair :: pairs)))
                (missing fs d (dedup_pairs ∅ (pair :: pairs)))) as H.
  destruct (report _ _ _ _ _) as [[]|out]; try discriminate. contradiction.
Qed.

(** The pair reported as last existing, among the pairs [P] in script
    order: it is a first occurrence, it is on disk, and no later first
    occurrence is. *)
Lemma last_existing_position (fs : FileSystem.t) (d : string)
    (P : list (string * option string)) (kept : list (string * option string))
    (x : string * option string) :
  List.filter (on_disk fs d) (dedup_pairs ∅ P) = kept ++ [x] ->
  exists P1 P2,
    P = P1 ++ x :: P2
    /\ ~ In (fst x) (map fst P1)
    /\ on_disk fs d x = true
    /\ (forall P2a q P2b,
          P2 = P2a ++ q :: P2b ->
          ~ In (fst q) (map fst (P1 ++ x :: P2a)) ->
          on_disk fs d q = false).
Proof.
  intros H. destruct (filter_last_split _ _ _ _ H) as (U1 & U2 & HU & Hx & _ & H2).
  destruct (dedup_pairs_split P ∅ U1 U2 x HU) as (P1 & P2 & -> & _ & Hn & _ & ->).
  exists P1, P2. repeat split; auto.
  intros P2a q P2b -> Hq.
  rewrite filter_nil_iff in H2. apply H2. apply dedup_pairs_first.
  - rewrite List.map_app, in_app_iff in Hq. cbn [map In] in Hq.
    intros Hin. apply Hq. rewrite !elem_of_union, elem_of_singleton in Hin.
    destruct Hin as [->|[Hin|Hin]].
    + right. now left.
    + left. apply elem_of_list_to_set in Hin. now apply list_elem_of_In.
    + now apply not_elem_of_empty in Hin.
  - rewrite List.map_app, in_app_iff in Hq. cbn [map In] in Hq. tauto.
Qed.

Lemma four_targets_report :
  main (mkArgs None false) (Some four_targets) (Some "/data") second_and_fourth
  = Returned
      ["DATA_DIR: /data"; "Total unique targets: 4";
       "Existing: 2  |  Missing: 2";
       MISSING_HEADER; "A -> /data/A"; "C -> /data/C";
       LAST_HEADER; "D"; "/data/D"].
Proof. vm_compute. reflexivity. Qed.

End VerifierReport.

(** C8. A run of the Target Verifier never indexes an empty list, and
    what it prints depends on the file system only through which paths
    are regular files (not through modification times). When the run
    completes, with [P] the (relative, absolute) pairs of the targets
    that pass the filter, in script order: either no deduplicated target
    is on disk and the report ends with the line that says so, or the
    report names as last existing a pair that is the first occurrence of
    its relative path in [P], is on disk, and is followed in [P] by no
    first occurrence that is on disk. For the script order
    [A (missing), B (exists), C (missing), D (exists)] the report names
    [D], although [B] is the more recent file. *)
Theorem C8_last_existing_by_script_order :
  forall (args : CheckTargets.Args) (script data_dir : option string)
         (fs : FileSystem.t),
    CheckTargets.main args script data_dir fs <> Raised IndexError
    /\ (forall fs' : FileSystem.t,
          FileSystem.cwd fs' = FileSystem.cwd fs ->
          (forall p, FileSystem.is_file fs' p = FileSystem.is_file fs p) ->
          CheckTargets.main args script data_dir fs'
          = CheckTargets.main args script data_dir fs)
    /\ (forall printed : list string,
          CheckTargets.main args script data_dir fs = Returned printed ->
          exists text d,
            script = Some text /\ CheckTargets.opt_truthy data_dir = Some d
            /\ let P := CheckTargets.rel_abs_pairs (FileSystem.cwd fs)
                          (CheckTargets.filter_prefix args) d
                          (CheckTargets.extract_targets_from_sh text) in
               let U := CheckTargets.dedup_pairs ∅ P in
               let mi := CheckTargets.missing fs d U in
               let ex := CheckTargets.existing fs d U in
               ((forall q, In q U -> CheckTargets.on_disk fs d q = false)
                /\ printed = CheckTargets.report_head d U [] mi
                             ++ CheckTargets.missing_lines mi
                             ++ [CheckTargets.NONE_EXISTING])
               \/ (exists P1 pair P2,
                     P = P1 ++ pair :: P2
                     /\ ~ In (fst pair) (map fst P1)
                     /\ CheckTargets.on_disk fs d pair = true
                     /\ (forall P2a q P2b,
                           P2 = P2a ++ q :: P2b ->
                           ~ In (fst q) (map fst (P1 ++ pair :: P2a)) ->
                           CheckTargets.on_disk fs d q = false)
                     /\ printed = CheckTargets.report_head d U ex mi
                                  ++ CheckTargets.missing_lines mi
                                  ++ [CheckTargets.LAST_HEADER; fst pair;
                                      CheckTargets.abs_of d pair]
                                  ++ CheckTargets.existing_lines
                                       (CheckTargets.show_existing args) ex))
    /\ CheckTargets.main (CheckTargets.mkArgs None false) (Some four_targets)
         (Some "/data") second_and_fourth
       = Returned
           ["DATA_DIR: /data"; "Total unique targets: 4";
            "Existing: 2  |  Missing: 2";
            CheckTargets.MISSING_HEADER; "A -> /data/A"; "C -> /data/C";
            CheckTargets.LAST_HEADER; "D"; "/data/D"].
Proof.
  intros args script data_dir fs.
  split; [apply main_no_index_error|].
  split; [intros fs' Hc Hf; now apply main_ext|].
  split; [|apply four_targets_report].
  intros printed Hmain.
  destruct (main_returned args script data_dir fs printed Hmain)
    as (text & d & -> & Hd & Hrep).
  exists text, d. split; [reflexivity|]. split; [exact Hd|].
  cbv zeta in *.
  set (P := CheckTargets.rel_abs_pairs _ _ d _) in *.
  set (U := CheckTargets.dedup_pairs ∅ P) in *.
  unfold CheckTargets.existing in *.
  destruct (List.filter (CheckTargets.on_disk fs d) U) as [|e kept] eqn:Ef.
  - left. split; [now apply filter_nil_iff|].
    cbn [map] in Hrep. rewrite report_none in Hrep. now injection Hrep as <-.
  - right.
    destruct (exists_last (l := e :: kept) ltac:(discriminate)) as (kept' & x & E).
    rewrite E in *.
    destruct (last_existing_position fs d P kept' x Ef) as (P1 & P2 & HP & Hn & Hx & Hlater).
    exists P1, x, P2. repeat split; auto.
    rewrite List.map_app in Hrep. cbn [map] in Hrep.
    rewrite report_last in Hrep. injection Hrep as <-.
    rewrite List.map_app. reflexivity.
Qed.

Lemma is_file_touch (t : Z) (fs : FileSystem.t) (p : PathLib.PurePath) :
  FileSystem.is_file (touch t fs) p = FileSystem.is_file fs p.
Proof.
  unfold FileSystem.is_file, FileSystem.lookup, FileSystem.key, touch.
  cbn [FileSystem.cwd FileSystem.entries]. rewrite lookup_fmap.
  now destruct (FileSystem.entries fs !! _).
Qed.

Lemma C8_last_existing_by_script_order_witness :
  CheckTargets.main (CheckTargets.mkArgs None false) (Some four_targets)
    (Some "/data") (touch 0 second_and_fourth)
  = CheckTargets.main (CheckTargets.mkArgs None false) (Some four_targets)
      (Some "/data") second_and_fourth.
Proof.
  refine (proj1 (proj2 (C8_last_existing_by_script_order
    (CheckTargets.mkArgs None false) (Some four_targets) (Some "/data")
    second_and_fourth)) (touch 0 second_and_fourth) eq_refl _).
  intros p. apply is_file_touch.
Defined.


(** ** C7: the Target Verifier on a synthesized script *)

Section ScriptLines.
Import PyStr CheckTargets MakeWget.

Lemma extract_app_nl (a b : string) :
  extract_targets_from_sh (a +:+ nl +:+ b)
  = extract_targets_from_sh a ++ extract_targets_from_sh b.
Proof.
  unfold extract_targets_from_sh, nl.
  change (String "010" "" +:+ b) with (String "010" b).
  now rewrite split_app_sep, flat_map_app by reflexivity.
Qed.

Lemma extract_plain (line : string) :
  avoids line_break line -> extract_targets_from_sh line = extract_line line.
Proof.
  intros H. unfold extract_targets_from_sh. rewrite split_plain by exact H.
  cbn [flat_map]. apply app_nil_r.
Qed.

Lemma extract_unlines (lines : list string) (rest : string) :
  Forall (avoids line_break) lines ->
  extract_targets_from_sh (unlines lines +:+ rest)
  = flat_map extract_line lines ++ extract_targets_from_sh rest.
Proof.
  induction 1 as [|line lines Hl _ IH]; [reflexivity|].
  unfold unlines in *. cbn [map concat flat_map].
  rewrite !append_assoc, extract_app_nl, IH, extract_plain by exact Hl.
  now rewrite app_assoc.
Qed.

Lemma render_concat (d : string) (pairs : list (string * string)) :
  render d pairs
  = HEADER (Shlex.quote d)
    +:+ concat (map (fun p => LINE (fst p) (snd p)) pairs).
Proof.
  unfold render. generalize (HEADER (Shlex.quote d)) as acc.
  induction pairs as [|p pairs IH]; intros acc; cbn [fold_left map concat].
  - now rewrite append_nil_r.
  - now rewrite IH, append_assoc.
Qed.

End ScriptLines.

Section Strip.
Import PyStr.
Variable p : ascii -> bool.

Lemma rstrip_app_keep (a b : string) :
  ends_well p b -> rstrip p (a +:+ b) = a +:+ b.
Proof.
  intros [Hb Hne]. induction a as [|c a IH]; cbn [String.append rstrip].
  - exact Hb.
  - rewrite IH. destruct (a +:+ b) eqn:E; [|reflexivity].
    destruct a; [contradiction | discriminate].
Qed.

Lemma ends_well_app (a b : string) : ends_well p b -> ends_well p (a +:+ b).
Proof.
  intros H. split; [now apply rstrip_app_keep|].
  destruct H as [_ Hne]. destruct a; [exact Hne | discriminate].
Qed.

Lemma ends_well_char (e : ascii) : p e = false -> ends_well p (String e "").
Proof. intros H. split; [cbn; now rewrite H | discriminate]. Qed.

(** What [rstrip] leaves of a string that starts with a kept character
    starts with it. *)
Lemma rstrip_head (c : ascii) (s : string) :
  p c = false -> exists s', rstrip p (String c s) = String c s'.
Proof.
  intros H. cbn [rstrip]. destruct (rstrip p s); [rewrite H|]; eauto.
Qed.

Lemma avoids_rstrip (q : ascii -> bool) (s : string) :
  avoids q s -> avoids q (rstrip p s).
Proof.
  induction s as [|c s IH]; [auto|]. intros H.
  apply avoids_cons in H as [Hc Hs]. cbn [rstrip]. specialize (IH Hs).
  destruct (rstrip p s).
  - destruct (p c); [reflexivity|]. now apply avoids_cons.
  - now apply avoids_cons.
Qed.

End Strip.

Section StripLine.
Import PyStr.

Lemma strip_fixed (c : ascii) (s : string) :
  isspace c = false -> ends_well isspace (String c s) ->
  strip (String c s) = String c s.
Proof.
  intros Hc [Hr _]. unfold strip. rewrite Hr. cbn [lstrip]. now rewrite Hc.
Qed.

Lemma strip_head (c : ascii) (s : string) :
  isspace c = false -> exists s', strip (String c s) = String c s'.
Proof.
  intros Hc. unfold strip. destruct (rstrip_head isspace c s Hc) as [s' ->].
  exists s'. cbn [lstrip]. now rewrite Hc.
Qed.

Lemma avoids_strip (q : ascii -> bool) (s : string) :
  avoids q s -> avoids q (strip s).
Proof.
  intros H. unfold strip. apply lstrip_tail; [apply avoids_tail|].
  now apply avoids_rstrip.
Qed.

End StripLine.

Section Lexer.
Import PyStr Shlex.

Lemma push_app (tok w : string) (c : ascii) :
  push tok c +:+ w = tok +:+ String c w.
Proof. unfold push. now rewrite append_assoc. Qed.

Lemma word_char_inv (c : ascii) :
  word_char c = true ->
  whitespace c = false /\ is_quote c = false /\ is_char backslash c = false.
Proof.
  unfold word_char. intros H. apply andb_prop in H as [H H3].
  apply andb_prop in H as [H1 H2].
  now rewrite negb_true_iff in H1, H2, H3.
Qed.

(** Word characters extend the current word. *)
Lemma lex_word_run (w : string) :
  forallb word_char w = true ->
  forall (tok : string) (qd : bool) (rest : string),
    lex Word tok qd (w +:+ rest) = lex Word (tok +:+ w) qd rest.
Proof.
  induction w as [|c w IH]; intros H tok qd rest; cbn [String.append].
  - now rewrite append_nil_r.
  - cbn [forallb] in H. apply andb_prop in H as [Hc Hw].
    destruct (word_char_inv c Hc) as (H1 & H2 & H3).
    cbn [lex]. rewrite H1, H2, H3, IH by exact Hw. now rewrite push_app.
Qed.

(** A word followed by a space is a token. *)
Lemma lex_blank_word (c : ascii) (w rest : string) :
  forallb word_char (String c w) = true ->
  lex Blank "" false (String c w +:+ String " " rest)
  = option_map (cons (String c w)) (lex Blank "" false rest).
Proof.
  intros H. cbn [forallb] in H. apply andb_prop in H as [Hc Hw].
  destruct (word_char_inv c Hc) as (H1 & H2 & H3).
  cbn [String.append lex]. rewrite H1, H2, H3, lex_word_run by exact Hw.
  cbn [lex String.append]. replace (whitespace " ") with true by reflexivity.
  reflexivity.
Qed.

Lemma dquoted_char_inv (c : ascii) :
  dquoted_char c = true ->
  Ascii.eqb c dquote = false /\ is_char backslash c = false.
Proof.
  unfold dquoted_char. intros H. apply andb_prop in H as [H1 H2].
  rewrite negb_true_iff in H1, H2. split; [|exact H2].
  now rewrite <- is_char_sym.
Qed.

(** Between double quotes, the characters other than the quote and the
    backslash are taken as they are. *)
Lemma lex_dquoted_run (w : string) :
  forallb dquoted_char w = true ->
  forall (tok : string) (qd : bool) (rest : string),
    lex (Quoted dquote) tok qd (w +:+ rest)
    = lex (Quoted dquote) (tok +:+ w) qd rest.
Proof.
  induction w as [|c w IH]; intros H tok qd rest; cbn [String.append].
  - now rewrite append_nil_r.
  - cbn [forallb] in H. apply andb_prop in H as [Hc Hw].
    destruct (dquoted_char_inv c Hc) as (H1 & H2).
    cbn [lex]. rewrite H1, H2, IH by exact Hw. cbn [andb].
    now rewrite push_app.
Qed.

(** Text without white space is at most one token. *)
Lemma lex_one_token (s : string) :
  avoids whitespace s ->
  forall (st : state) (tok : string) (qd : bool),
    match lex st tok qd s with
    | Some tokens => List.length tokens <= 1
    | None => True
    end.
Proof.
  induction s as [|c s IH]; intros H st tok qd.
  - destruct st; cbn [lex]; auto. destruct (truthy tok || qd); cbn; lia.
  - apply avoids_cons in H as [Hc Hs]. specialize (IH Hs).
    destruct st as [| |q|[q|]]; cbn [lex]; rewrite ?Hc.
    + destruct (is_char backslash c); [apply IH|].
      destruct (is_quote c); apply IH.
    + destruct (is_quote c); [apply IH|].
      destruct (is_char backslash c); apply IH.
    + destruct (Ascii.eqb c q); [apply IH|].
      destruct (is_char backslash c && is_char dquote q); apply IH.
    + destruct (negb (is_char backslash c) && negb (Ascii.eqb c q)); apply IH.
    + apply IH.
Qed.

(** Between single quotes every character but the quote is taken as it
    is, and the replacement of a quote gives a quote. *)
Lemma lex_squoted_replace (d : string) :
  forall (tok rest : string),
    lex (Quoted squote) tok true (replace squote squote_escape d +:+ rest)
    = lex (Quoted squote) (tok +:+ d) true rest.
Proof.
  induction d as [|c d IH]; intros tok rest; cbn [replace String.append].
  - now rewrite append_nil_r.
  - destruct (Ascii.eqb_spec c squote) as [->|Hne].
    + rewrite append_assoc. unfold squote_escape at 1.
      cbn [String.append lex].
      replace (Ascii.eqb squote squote) with true by reflexivity.
      replace (whitespace dquote) with false by reflexivity.
      replace (is_quote dquote) with true by reflexivity.
      replace (Ascii.eqb squote dquote) with false by reflexivity.
      replace (is_char backslash squote) with false by reflexivity.
      replace (Ascii.eqb dquote dquote) with true by reflexivity.
      replace (whitespace squote) with false by reflexivity.
      replace (is_quote squote) with true by reflexivity.
      cbn [andb]. rewrite IH. now rewrite push_app.
    + cbn [String.append lex]. apply Ascii.eqb_neq in Hne. rewrite Hne.
      replace (is_char dquote squote) with false by reflexivity.
      rewrite andb_false_r, IH. now rewrite push_app.
Qed.

End Lexer.

Section LineTargets.
Import PyStr Shlex CheckTargets MakeWget.

Lemma forallb_of_avoids (p q : ascii -> bool) (s : string) :
  (forall c, p c = false -> q c = true) ->
  avoids p s -> forallb q s = true.
Proof.
  intros Hpq. induction s as [|c s IH]; [reflexivity|].
  intros H. apply avoids_cons in H as [Hc Hs]. cbn [forallb].
  now rewrite (Hpq c Hc), IH.
Qed.

Lemma avoids_weaken (p q : ascii -> bool) (s : string) :
  (forall c, p c = false -> q c = false) ->
  avoids p s -> avoids q s.
Proof.
  intros Hpq. induction s as [|c s IH]; [reflexivity|].
  intros H. apply avoids_cons in H as [Hc Hs]. apply avoids_cons. auto.
Qed.

Lemma special_dquoted (c : ascii) : shell_special c = false -> dquoted_char c = true.
Proof.
  unfold shell_special, dquoted_char. intros H.
  apply orb_false_elim in H as [H H3]. apply orb_false_elim in H as [_ H2].
  now rewrite H2, H3.
Qed.

Lemma isspace_whitespace (c : ascii) : isspace c = false -> whitespace c = false.
Proof.
  destruct c as [[] [] [] [] [] [] [] []]; vm_compute; congruence.
Qed.

Lemma special_whitespace (c : ascii) : shell_special c = false -> whitespace c = false.
Proof.
  unfold shell_special. intros H.
  apply orb_false_elim in H as [H _]. apply orb_false_elim in H as [H _].
  now apply isspace_whitespace.
Qed.

Lemma special_line_break (c : ascii) : shell_special c = false -> line_break c = false.
Proof.
  unfold shell_special. intros H.
  apply orb_false_elim in H as [H _]. apply orb_false_elim in H as [H _].
  revert H. destruct c as [[] [] [] [] [] [] [] []]; vm_compute; congruence.
Qed.

(** The tokens that follow [-O], one step at a time. *)
Lemma targets_after_O_cons (a b : string) (l : list string) :
  targets_after_O (a :: b :: l)
  = (if String.eqb a "-O" then [b] else []) ++ targets_after_O (b :: l).
Proof. cbn [targets_after_O]. now destruct (String.eqb a "-O"). Qed.

Lemma targets_short (l : list string) :
  List.length l <= 1 -> targets_after_O l = [].
Proof. destruct l as [|a [|b l]]; cbn; auto; lia. Qed.

(** A line that is at most one token names no target. *)
Lemma extract_line_one_token (line : string) :
  avoids whitespace line -> extract_line line = [].
Proof.
  intros H. unfold extract_line.
  destruct (negb (truthy (strip line)) || startswith (strip line) "#");
    [reflexivity|].
  unfold Shlex.split.
  pose proof (lex_one_token (strip line) (avoids_strip _ _ H) Blank "" false) as Hl.
  destruct (lex Blank "" false (strip line)); [now apply targets_short | reflexivity].
Qed.

Lemma strip_keep (line : string) :
  lstrip isspace line = line -> ends_well isspace line -> strip line = line.
Proof. intros Hl [Hr _]. unfold strip. now rewrite Hr. Qed.

Lemma ends_well_dq : ends_well isspace dq.
Proof. apply ends_well_char. reflexivity. Qed.

Lemma comment_line_targets (url : string) : extract_line (comment_line url) = [].
Proof.
  unfold extract_line, comment_line. cbn [String.append].
  destruct (strip_head "#" (String " " url) eq_refl) as [s' ->].
  reflexivity.
Qed.

Lemma mkdir_line_targets (rel : string) :
  avoids shell_special rel -> extract_line (mkdir_line rel) = [].
Proof.
  intros Hrel. unfold extract_line.
  assert (Hstrip : strip (mkdir_line rel) = mkdir_line rel).
  { apply strip_keep; [reflexivity|]. unfold mkdir_line.
    repeat apply ends_well_app. apply ends_well_dq. }
  rewrite Hstrip.
  replace (negb (truthy (mkdir_line rel)) || startswith (mkdir_line rel) "#")
    with false by reflexivity.
  assert (Hlex : Shlex.split (mkdir_line rel)
                 = option_map (cons "mkdir")
                     (option_map (cons "-p")
                        (lex Word "$(dirname " true
                           ("$DATA_DIR/" +:+ rel +:+ dq +:+ ")" +:+ dq))))
    by reflexivity.
  rewrite Hlex.
  assert (Htail : avoids whitespace ("$DATA_DIR/" +:+ rel +:+ dq +:+ ")" +:+ dq)).
  { apply avoids_app. split; [reflexivity|]. apply avoids_app. split.
    - apply (avoids_weaken shell_special); [apply special_whitespace | exact Hrel].
    - reflexivity. }
  pose proof (lex_one_token _ Htail Word "$(dirname " true) as Hone.
  destruct (lex Word "$(dirname " true _) as [[|x [|y l]]|]; try reflexivity.
  cbn in Hone. lia.
Qed.

Lemma url_not_flag (url : string) :
  startswith url "http://" || startswith url "https://" = true ->
  String.eqb url "-O" = false.
Proof.
  intros H. apply String.eqb_neq. intros ->. discriminate H.
Qed.

(** A space ends a word that had a quoted part. *)
Lemma lex_word_space (tok rest : string) :
  lex Word tok true (String " " rest)
  = option_map (cons tok) (lex Blank "" false rest).
Proof.
  cbn [lex]. replace (whitespace " ") with true by reflexivity.
  now rewrite orb_true_r.
Qed.

Lemma lex_dquote_close (tok : string) (qd : bool) (rest : string) :
  lex (Quoted dquote) tok qd (String dquote rest) = lex Word tok qd rest.
Proof.
  cbn [lex]. now replace (Ascii.eqb dquote dquote) with true by reflexivity.
Qed.

Lemma lex_blank_dquote (tok : string) (qd : bool) (rest : string) :
  lex Blank tok qd (String dquote rest) = lex (Quoted dquote) tok true rest.
Proof.
  cbn [lex]. replace (whitespace dquote) with false by reflexivity.
  replace (is_char backslash dquote) with false by reflexivity.
  now replace (is_quote dquote) with true by reflexivity.
Qed.

Lemma wget_line_tokens (url rel : string) :
  avoids shell_special url -> avoids shell_special rel ->
  Shlex.split (wget_line url rel)
  = Some ["wget"; "-c"; "--retry-connrefused"; "-t"; "5"; "--timeout=60";
          url; "-O"; fetch_target rel].
Proof.
  intros Hurl Hrel.
  assert (Hu : forallb dquoted_char url = true)
    by (apply (forallb_of_avoids shell_special); [apply special_dquoted | exact Hurl]).
  assert (Ht : forallb dquoted_char (fetch_target rel) = true).
  { apply (forallb_of_avoids shell_special); [apply special_dquoted|].
    unfold fetch_target. apply avoids_app. split; [reflexivity | exact Hrel]. }
  assert (H1 : Shlex.split (wget_line url rel)
               = option_map (cons "wget") (option_map (cons "-c")
                   (option_map (cons "--retry-connrefused")
                      (option_map (cons "-t") (option_map (cons "5")
                         (option_map (cons "--timeout=60")
                            (lex (Quoted dquote) "" true
                               (url +:+ dq +:+ " -O " +:+ dq
                                +:+ "$DATA_DIR/" +:+ rel +:+ dq)))))))).
  { unfold Shlex.split, wget_line.
    change ("wget -c --retry-connrefused -t 5 --timeout=60 " +:+ ?x)
      with ("wget" +:+ String " " ("-c" +:+ String " "
              ("--retry-connrefused" +:+ String " " ("-t" +:+ String " "
                 ("5" +:+ String " " ("--timeout=60" +:+ String " " x)))))).
    rewrite !lex_blank_word by reflexivity. unfold dq. cbn [String.append].
    now rewrite lex_blank_dquote. }
  rewrite H1, (lex_dquoted_run url Hu).
  assert (H2 : forall tok,
             lex (Quoted dquote) tok true
               (dq +:+ " -O " +:+ dq +:+ "$DATA_DIR/" +:+ rel +:+ dq)
             = option_map (cons tok)
                 (option_map (cons "-O")
                    (lex (Quoted dquote) "" true (fetch_target rel +:+ dq)))).
  { intros tok. unfold fetch_target, dq. rewrite append_assoc.
    cbn [String.append]. rewrite lex_dquote_close, lex_word_space.
    change (String "-" (String "O" (String " " ?y)))
      with ("-O" +:+ String " " y).
    rewrite lex_blank_word by reflexivity. now rewrite lex_blank_dquote. }
  rewrite H2, (lex_dquoted_run _ Ht). unfold dq.
  rewrite lex_dquote_close. cbn [lex truthy orb option_map String.append].
  now rewrite orb_true_r.
Qed.

Lemma wget_line_targets (url rel : string) :
  startswith url "http://" || startswith url "https://" = true ->
  avoids shell_special url -> avoids shell_special rel ->
  extract_line (wget_line url rel) = [fetch_target rel].
Proof.
  intros Hhttp Hurl Hrel. unfold extract_line.
  assert (Hstrip : strip (wget_line url rel) = wget_line url rel).
  { apply strip_keep; [reflexivity|]. unfold wget_line.
    repeat apply ends_well_app. apply ends_well_dq. }
  rewrite Hstrip.
  replace (negb (truthy (wget_line url rel)) || startswith (wget_line url rel) "#")
    with false by reflexivity.
  rewrite wget_line_tokens by assumption.
  rewrite !targets_after_O_cons, (url_not_flag url Hhttp). reflexivity.
Qed.

End LineTargets.

Section SynthesizedScript.
Import PyStr Shlex CheckTargets MakeWget.

Lemma avoids_replace (p : ascii -> bool) (c : ascii) (t s : string) :
  avoids p t -> avoids p s -> avoids p (replace c t s).
Proof.
  intros Ht. induction s as [|x s IH]; [auto|]. intros H.
  apply avoids_cons in H as [Hx Hs]. cbn [replace].
  destruct (Ascii.eqb x c).
  - apply avoids_app. auto.
  - apply avoids_cons. auto.
Qed.

Lemma quote_line_break (d : string) :
  avoids line_break d -> avoids line_break (Shlex.quote d).
Proof.
  intros H. unfold Shlex.quote.
  destruct (negb (truthy d)); [reflexivity|].
  destruct (forallb safe_char d); [exact H|].
  apply avoids_cons. split; [reflexivity|].
  apply avoids_app. split; [|reflexivity].
  apply avoids_replace; [reflexivity | exact H].
Qed.

Lemma safe_whitespace (c : ascii) : safe_char c = true -> whitespace c = false.
Proof.
  destruct c as [[] [] [] [] [] [] [] []]; vm_compute; congruence.
Qed.

Lemma safe_avoids_whitespace (s : string) :
  forallb safe_char s = true -> avoids whitespace s.
Proof.
  induction s as [|c s IH]; [reflexivity|]. cbn [forallb]. intros H.
  apply andb_prop in H as [Hc Hs]. apply avoids_cons.
  split; [now apply safe_whitespace | auto].
Qed.

Lemma lex_squote_close (tok : string) (qd : bool) (rest : string) :
  lex (Quoted squote) tok qd (String squote rest) = lex Word tok qd rest.
Proof.
  cbn [lex]. now replace (Ascii.eqb squote squote) with true by reflexivity.
Qed.

Lemma lex_word_squote (tok : string) (qd : bool) (rest : string) :
  lex Word tok qd (String squote rest) = lex (Quoted squote) tok true rest.
Proof.
  cbn [lex]. replace (whitespace squote) with false by reflexivity.
  now replace (is_quote squote) with true by reflexivity.
Qed.

(** The line that sets [DATA_DIR] is one token, whatever the name of the
    directory. *)
Lemma data_dir_line_targets (d : string) :
  extract_line ("DATA_DIR=" +:+ Shlex.quote d) = [].
Proof.
  unfold Shlex.quote. destruct d as [|c d]; [reflexivity|]. cbn [truthy negb].
  destruct (forallb safe_char (String c d)) eqn:Hsafe.
  - apply extract_line_one_token. apply avoids_app.
    split; [reflexivity | now apply safe_avoids_whitespace].
  - fold squote_escape.
    set (body := replace squote squote_escape (String c d)).
    unfold extract_line.
    assert (Hstrip : strip ("DATA_DIR=" +:+ String squote (body +:+ String squote ""))
                     = "DATA_DIR=" +:+ String squote (body +:+ String squote "")).
    { apply strip_keep; [reflexivity|].
      change (String squote (body +:+ String squote ""))
        with (String squote "" +:+ (body +:+ String squote "")).
      repeat apply ends_well_app. apply ends_well_char. reflexivity. }
    rewrite Hstrip.
    replace (negb (truthy ("DATA_DIR=" +:+ String squote (body +:+ String squote "")))
             || startswith ("DATA_DIR=" +:+ String squote (body +:+ String squote "")) "#")
      with false by reflexivity.
    unfold Shlex.split.
    change ("DATA_DIR=" +:+ String squote (body +:+ String squote ""))
      with (String "D" ("ATA_DIR=" +:+ String squote (body +:+ String squote ""))).
    cbn [lex]. replace (whitespace "D") with false by reflexivity.
    replace (is_char backslash "D") with false by reflexivity.
    replace (is_quote "D") with false by reflexivity.
    rewrite lex_word_run by reflexivity.
    rewrite lex_word_squote. unfold body. rewrite lex_squoted_replace.
    rewrite lex_squote_close. cbn [lex]. now rewrite orb_true_r.
Qed.

Lemma header_lines_targets (d : string) :
  flat_map extract_line (HEADER_lines (Shlex.quote d)) = [].
Proof.
  unfold HEADER_lines. cbn [flat_map]. rewrite data_dir_line_targets.
  vm_compute. reflexivity.
Qed.

Lemma header_lines_plain (d : string) :
  avoids line_break d ->
  Forall (avoids line_break) (HEADER_lines (Shlex.quote d)).
Proof.
  intros H. unfold HEADER_lines.
  repeat (apply Forall_cons; split); try apply Forall_nil_2; try reflexivity.
  apply avoids_app. split; [reflexivity | now apply quote_line_break].
Qed.

Lemma header_targets (d rest : string) :
  avoids line_break d ->
  extract_targets_from_sh (HEADER (Shlex.quote d) +:+ rest)
  = extract_targets_from_sh rest.
Proof.
  intros H. unfold HEADER.
  now rewrite extract_unlines, header_lines_targets by now apply header_lines_plain.
Qed.

Lemma line_targets (url rel rest : string) :
  startswith url "http://" || startswith url "https://" = true ->
  avoids shell_special url -> avoids shell_special rel ->
  extract_targets_from_sh (LINE url rel +:+ rest)
  = fetch_target rel :: extract_targets_from_sh rest.
Proof.
  intros Hhttp Hurl Hrel. unfold LINE. rewrite append_assoc.
  change (nl +:+ ?x) with ("" +:+ nl +:+ x).
  rewrite extract_app_nl, extract_unlines.
  - cbn [flat_map]. rewrite comment_line_targets, mkdir_line_targets,
      wget_line_targets by assumption. reflexivity.
  - assert (Hu : avoids line_break url)
      by (apply (avoids_weaken shell_special); [apply special_line_break | exact Hurl]).
    assert (Hr : avoids line_break rel)
      by (apply (avoids_weaken shell_special); [apply special_line_break | exact Hrel]).
    repeat (apply Forall_cons; split); try apply Forall_nil_2.
    + unfold comment_line. apply avoids_app. split; [reflexivity | exact Hu].
    + unfold mkdir_line.
      repeat (apply avoids_app; split; try reflexivity); exact Hr.
    + unfold wget_line.
      repeat (apply avoids_app; split; try reflexivity); assumption.
Qed.

Lemma lines_targets (pairs : list (string * string)) :
  (forall url rel, In (url, rel) pairs ->
     startswith url "http://" || startswith url "https://" = true
     /\ avoids shell_special url /\ avoids shell_special rel) ->
  extract_targets_from_sh (concat (map (fun p => LINE (fst p) (snd p)) pairs))
  = map (fun p => fetch_target (snd p)) pairs.
Proof.
  induction pairs as [|[url rel] pairs IH]; intros H; [reflexivity|].
  cbn [map concat fst snd].
  destruct (H url rel (or_introl eq_refl)) as (H1 & H2 & H3).
  rewrite line_targets by assumption. f_equal. apply IH.
  intros u r Hin. apply H. now right.
Qed.

(** Every fetch block of a synthesized script gives the verifier its
    one target. *)
Lemma render_targets (d : string) (pairs : list (string * string)) :
  avoids line_break d ->
  (forall url rel, In (url, rel) pairs ->
     startswith url "http://" || startswith url "https://" = true
     /\ avoids shell_special url /\ avoids shell_special rel) ->
  extract_targets_from_sh (render d pairs)
  = map (fun p => fetch_target (snd p)) pairs.
Proof.
  intros Hd H. rewrite render_concat, header_targets by exact Hd.
  now apply lines_targets.
Qed.

(** The verifier recovers the relative path from the target. *)
Lemma fetch_target_relative (cwd : list string) (rel : string) (d : option string) :
  fst (normalize_to_relative cwd (fetch_target rel) d) = rel.
Proof.
  unfold normalize_to_relative, fetch_target.
  rewrite startswith_app. cbn [fst]. apply drop_app.
Qed.

End SynthesizedScript.

Section SynthesizerRun.
Import PyStr MakeWget.

(** The characters of a relative path are characters of the URL. *)
Lemma normalize_avoids (p : ascii -> bool) (u t rel : string) :
  avoids p u ->
  MakeWget.normalize_relative_path u t = Some rel ->
  avoids p rel.
Proof.
  intros Hu. rewrite wget_normalize_unfold.
  destruct (UrlParse.urlparse u) as [parsed|] eqn:Hparse; [|discriminate].
  intros [= <-]. apply trim_path_tail; [apply avoids_tail|].
  apply (path_avoids u parsed p Hparse), before_params_avoids.
  unfold cleaned. apply avoids_remove.
  apply lstrip_tail; [apply avoids_tail | exact Hu].
Qed.

Lemma build_pairs_in (t : string) (ps urls : list string)
    (pairs : list (string * string)) (url rel : string) :
  build_pairs t ps urls = Some pairs ->
  In (url, rel) pairs ->
  In url urls /\ MakeWget.normalize_relative_path url t = Some rel
  /\ keeps ps rel = true.
Proof.
  revert pairs. induction urls as [|u urls IH]; intros pairs; cbn [build_pairs].
  - intros [= <-] [].
  - destruct (MakeWget.normalize_relative_path u t) as [r|] eqn:Hn; [|discriminate].
    destruct (build_pairs t ps urls) as [rest|]; [|discriminate].
    destruct (keeps ps r) eqn:Hk; intros [= <-] Hin.
    + destruct Hin as [[= <- <-]|Hin].
      * cbn [In]. auto.
      * destruct (IH rest eq_refl Hin) as (? & ? & ?). cbn [In]. auto.
    + destruct (IH rest eq_refl Hin) as (? & ? & ?). cbn [In]. auto.
Qed.

(** A run of the Script Synthesizer that writes a script: its pairs are
    those of its loop over the listed URLs, and the script is their
    rendering. *)
Lemma wget_main_returned (args : Args) (y : yaml) (cwd : list string)
    (pairs : list (string * string)) (script : string) :
  main args y cwd = Some (Returned (pairs, script)) ->
  exists urls,
    build_pairs (trim_prefix args) (normalize_prefixes (include_prefix args)) urls
    = Some pairs
    /\ script = render (PathLib.to_str (PathLib.resolve cwd
                          (PathLib.parse (data_dir args)))) pairs.
Proof.
  unfold main. destruct (data_paths y) as [[| | | |items|]| |]; try discriminate.
  destruct (str_items items) as [urls|]; [|discriminate].
  destruct (build_pairs _ _ urls) as [[|pair rest]|] eqn:Hb; try discriminate.
  intros [= <- <-]. exists urls. auto.
Qed.

End SynthesizerRun.

(** A URL with a double quote in its path: the pair is kept, and the
    verifier finds no target in the script. *)
Lemma C7_quote_counterexample :
  match MakeWget.main (MakeWget.mkArgs "/data/root" "/p/" [] "download_data.sh")
          (paths_manifest [quoted_url]) [] with
  | Some (Returned (pairs, script)) =>
      (pairs, CheckTargets.extract_targets_from_sh script)
  | _ => ([], [])
  end = ([(quoted_url, "a" +:+ MakeWget.dq +:+ "b")], []).
Proof. vm_compute. reflexivity. Qed.

(** C7 (amended). For every script that the Script Synthesizer writes
    for a data root without line break, if every kept URL starts with
    [http://] or [https://] and holds no white space, double quote or
    backslash: the Target Verifier extracts from the script exactly one
    fetch target per kept pair, in order, and recovers from each target
    the relative path of its pair. For the manifest
    [{data: {paths: [https://h/p/a/x, https://h/p/a/y]}}] with trim
    prefix [/p/], the script has the targets [a/x] and [a/y] under the
    data root, and the verifier with both files present reports 0
    missing and the last existing target [a/y]. *)
Theorem C7_verifier_recovers_pairs :
  forall (args : MakeWget.Args) (y : yaml) (cwd : list string)
         (pairs : list (string * string)) (script : string),
    MakeWget.main args y cwd = Some (Returned (pairs, script)) ->
    avoids CheckTargets.line_break
      (PathLib.to_str (PathLib.resolve cwd (PathLib.parse (MakeWget.data_dir args)))) ->
    (forall url, In url (map fst pairs) ->
       PyStr.startswith url "http://" || PyStr.startswith url "https://" = true
       /\ avoids shell_special url) ->
    CheckTargets.extract_targets_from_sh script
      = map (fun p => fetch_target (snd p)) pairs
    /\ (forall (cwd' : list string) (d : option string),
          map (fun tok => fst (CheckTargets.normalize_to_relative cwd' tok d))
              (CheckTargets.extract_targets_from_sh script)
          = map snd pairs)
    /\ (exists script0,
          MakeWget.main (MakeWget.mkArgs "/data/root" "/p/" [] "download_data.sh")
            two_urls []
          = Some (Returned ([("https://h/p/a/x", "a/x"); ("https://h/p/a/y", "a/y")],
                            script0))
          /\ CheckTargets.extract_targets_from_sh script0
             = ["$DATA_DIR/a/x"; "$DATA_DIR/a/y"]
          /\ CheckTargets.main (CheckTargets.mkArgs None false) (Some script0)
               (Some "/data/root") both_present
             = Returned
                 ["DATA_DIR: /data/root"; "Total unique targets: 2";
                  "Existing: 2  |  Missing: 0";
                  CheckTargets.LAST_HEADER; "a/y"; "/data/root/a/y"]).
Proof.
  intros args y cwd pairs script Hmain Hd Hurls.
  destruct (wget_main_returned args y cwd pairs script Hmain) as (urls & Hb & ->).
  assert (Htargets : CheckTargets.extract_targets_from_sh
                       (MakeWget.render
                          (PathLib.to_str (PathLib.resolve cwd
                             (PathLib.parse (MakeWget.data_dir args)))) pairs)
                     = map (fun p => fetch_target (snd p)) pairs).
  { apply render_targets; [exact Hd|]. intros url rel Hin.
    destruct (Hurls url) as [Hhttp Hplain].
    { apply in_map_iff. now exists (url, rel). }
    destruct (build_pairs_in _ _ _ _ url rel Hb Hin) as (_ & Hn & _).
    repeat split; try assumption.
    now apply (normalize_avoids shell_special url (MakeWget.trim_prefix args)). }
  split; [exact Htargets|]. split.
  - intros cwd' d. rewrite Htargets, List.map_map. apply map_ext.
    intros p. apply fetch_target_relative.
  - eexists. split; [vm_compute; reflexivity|].
    split; vm_compute; reflexivity.
Qed.

Lemma C7_verifier_recovers_pairs_witness :
  CheckTargets.extract_targets_from_sh
    (MakeWget.render "/data/root"
       [("https://h/p/a/x", "a/x"); ("https://h/p/a/y", "a/y")])
  = map (fun p => fetch_target (snd p))
      [("https://h/p/a/x", "a/x"); ("https://h/p/a/y", "a/y")].
Proof.
  refine (proj1 (C7_verifier_recovers_pairs
    (MakeWget.mkArgs "/data/root" "/p/" [] "download_data.sh") two_urls []
    [("https://h/p/a/x", "a/x"); ("https://h/p/a/y", "a/y")]
    (MakeWget.render "/data/root"
       [("https://h/p/a/x", "a/x"); ("https://h/p/a/y", "a/y")]) _ _ _)).
  - vm_compute. reflexivity.
  - vm_compute. reflexivity.
  - intros url [<-|[<-|[]]]; split; vm_compute; reflexivity.
Defined.


#[local] Set Warnings "-clear-no-such-hyp".

(** * Further properties of the three tools *)

(** ** The Extractor of the Download Engine *)

Section UrlPattern.
Import PyStr.

Lemma url_head_inv (s : string) :
  PyRe.url_head s = true ->
  exists pre c r,
    (pre = "https://" \/ pre = "http://") /\ isspace c = false
    /\ s = pre +:+ String c r.
Proof.
  unfold PyRe.url_head. intros H.
  apply orb_prop in H as [H|H]; apply andb_prop in H as [H1 H2];
    apply startswith_inv in H1; cbn [String.length] in H1;
    [exists "https://" | exists "http://"];
    (destruct (drop _ s) as [|c r]; [discriminate H2|]);
    exists c, r; cbn [PyRe.head_nonspace] in H2;
    apply negb_true_iff in H2; auto.
Qed.

Lemma url_head_intro (pre : string) (c : ascii) (r : string) :
  pre = "https://" \/ pre = "http://" -> isspace c = false ->
  PyRe.url_head (pre +:+ String c r) = true.
Proof.
  intros [->| ->] Hc; unfold PyRe.url_head; cbn; rewrite Hc; reflexivity.
Qed.

Lemma single_url_push (m : string) (c : ascii) :
  single_url m -> isspace c = false -> single_url (m +:+ String c "").
Proof.
  intros [Hhead Hsp] Hc. split.
  - apply url_head_inv in Hhead as (pre & c0 & r & Hpre & Hc0 & ->).
    rewrite append_assoc. cbn [String.append].
    now apply url_head_intro.
  - apply avoids_app. split; [assumption|].
    apply avoids_cons. now split.
Qed.

Lemma findall_some_run (w : string) :
  avoids isspace w ->
  forall m r : string,
    PyRe.findall_from (Some m) (w +:+ r) = PyRe.findall_from (Some (m +:+ w)) r.
Proof.
  induction w as [|c w IH]; intros H m r; cbn [String.append].
  - now rewrite append_nil_r.
  - apply avoids_cons in H as [Hc Hw]. cbn [PyRe.findall_from].
    rewrite Hc, IH by assumption. now rewrite append_assoc.
Qed.

(** Every match of the pattern begins with [http://] or [https://],
    goes on with at least one character, and holds no white space. *)
Lemma findall_from_single (n : nat) :
  forall s : string,
    String.length s <= n ->
    Forall single_url (PyRe.findall_from None s)
    /\ (forall m, single_url m -> Forall single_url (PyRe.findall_from (Some m) s)).
Proof.
  induction n as [|n IH]; intros s Hlen.
  - destruct s; [|cbn in Hlen; lia]. cbn. split; [constructor|].
    intros m Hm. constructor; [assumption | constructor].
  - destruct s as [|c r]; [split; [constructor | intros m Hm; constructor; [assumption | constructor]]|].
    cbn [String.length] in Hlen. assert (Hr : String.length r <= n) by lia.
    destruct (IH r Hr) as [IHnone IHsome]. split.
    + cbn [PyRe.findall_from].
      destruct (PyRe.url_head (String c r)) eqn:Hhead; [|exact IHnone].
      apply url_head_inv in Hhead as (pre & c0 & r0 & Hpre & Hc0 & Hs).
      assert (Hrest : exists pre', pre = String c pre' /\ avoids isspace pre'
                                   /\ r = pre' +:+ String c0 r0).
      { destruct Hpre as [->| ->]; cbn in Hs; injection Hs as -> ->;
          [exists "ttps://" | exists "ttp://"];
          (split; [reflexivity | split; reflexivity]). }
      destruct Hrest as (pre' & -> & Hpre' & ->).
      replace (pre' +:+ String c0 r0) with ((pre' +:+ String c0 "") +:+ r0)
        by (rewrite append_assoc; reflexivity).
      rewrite findall_some_run
        by (apply avoids_app; split; [assumption | apply avoids_cons; now split]).
      apply IH.
      * rewrite length_append in Hr. cbn [String.length] in Hr. lia.
      * cbn [String.append]. split.
        -- exact (url_head_intro (String c pre') c0 "" Hpre Hc0).
        -- change (avoids isspace (String c (pre' +:+ String c0 ""))).
           destruct Hpre as [Hp|Hp]; injection Hp as -> ->;
             apply avoids_cons; (split; [reflexivity|]);
             apply avoids_app; (split; [reflexivity|]);
             apply avoids_cons; now split.
    + intros m Hm. cbn [PyRe.findall_from].
      destruct (isspace c) eqn:Hc.
      * constructor; [assumption | exact IHnone].
      * apply IHsome. now apply single_url_push.
Qed.

Lemma findall_urls_single (s : string) : Forall single_url (PyRe.findall_urls s).
Proof. exact (proj1 (findall_from_single (String.length s) s (le_n _))). Qed.

End UrlPattern.

Section Manifest.
Import PyStr DownloadData.

Lemma extract_urls_single (y : yaml) : Forall single_url (extract_urls_from_any y).
Proof.
  induction y as [| b | z | s | l IH | d IH] using yaml_nested_ind;
    cbn [extract_urls_from_any]; try constructor.
  - apply findall_urls_single.
  - apply List.Forall_flat_map. exact IH.
  - apply List.Forall_flat_map.
    eapply List.Forall_impl; [|exact IH]. now intros [k v].
Qed.

Lemma dedup_urls_in (urls : list string) :
  forall (seen : gset string) (u : string),
    In u (dedup_urls seen urls) -> In u urls /\ (u ∉ seen).
Proof.
  induction urls as [|x urls IH]; intros seen u Hu; cbn [dedup_urls] in Hu;
    [contradiction|].
  destruct (bool_decide (x ∉ seen) && _) eqn:E.
  - apply andb_prop in E as [E _]. apply bool_decide_eq_true in E.
    destruct Hu as [->|Hu]; [split; [now left | assumption]|].
    apply IH in Hu as [Hin Hseen]. split; [now right | set_solver].
  - apply IH in Hu as [Hin Hseen]. split; [now right | assumption].
Qed.

Lemma dedup_urls_distinct (urls : list string) :
  forall seen : gset string, NoDup (dedup_urls seen urls).
Proof.
  induction urls as [|x urls IH]; intros seen; cbn [dedup_urls];
    [constructor|].
  destruct (bool_decide (x ∉ seen) && _); [|apply IH].
  apply NoDup_cons_2; [|apply IH].
  intros Hx. apply list_elem_of_In, dedup_urls_in in Hx as [_ Hx]. set_solver.
Qed.

Lemma dedup_urls_complete (urls : list string) :
  forall (seen : gset string) (u : string),
    In u urls -> (u ∉ seen) ->
    startswith u "http://" || startswith u "https://" = true ->
    In u (dedup_urls seen urls).
Proof.
  induction urls as [|x urls IH]; intros seen u Hu Hseen Hhttp;
    [contradiction|]. cbn [dedup_urls].
  destruct (decide (x = u)) as [->|Hne].
  - rewrite Hhttp, bool_decide_eq_true_2 by assumption. now left.
  - destruct Hu as [Hx|Hu]; [contradiction|].
    destruct (bool_decide (x ∉ seen) && _).
    + right. apply IH; [assumption | set_solver | assumption].
    + now apply IH.
Qed.

Lemma dedup_urls_sublist (urls : list string) :
  forall seen : gset string, sublist (dedup_urls seen urls) urls.
Proof.
  induction urls as [|x urls IH]; intros seen; cbn [dedup_urls];
    [constructor|].
  destruct (bool_decide (x ∉ seen) && _);
    [apply sublist_skip | apply sublist_cons]; apply IH.
Qed.

Lemma filter_twice (f g : string -> bool) (l : list string) :
  List.filter f (List.filter g l) = List.filter (fun x => g x && f x) l.
Proof.
  induction l as [|x l IH]; cbn [List.filter]; [reflexivity|].
  destruct (g x); cbn [List.filter andb]; [|exact IH].
  destruct (f x); now rewrite IH.
Qed.

(** The loop that removes duplicates keeps the first occurrences of the
    items that were not seen before. *)
Lemma unique_from_first (l : list string) :
  forall seen : gset string,
    CheckTargets.unique_from seen l
    = List.filter (fun y => negb (bool_decide (y ∈ seen))) (first_occurrences l).
Proof.
  induction l as [|x l IH]; intros seen;
    cbn [CheckTargets.unique_from first_occurrences List.filter]; [reflexivity|].
  rewrite filter_twice. destruct (bool_decide (x ∈ seen)) eqn:E; cbn [negb].
  - rewrite IH. apply List.filter_ext. intros y.
    destruct (String.eqb y x) eqn:Ey; [|reflexivity].
    apply String.eqb_eq in Ey. subst y. now rewrite E.
  - f_equal. rewrite IH. apply List.filter_ext. intros y.
    apply bool_decide_eq_false in E.
    destruct (String.eqb y x) eqn:Ey; cbn [negb andb].
    + apply String.eqb_eq in Ey. subst y.
      rewrite bool_decide_eq_true_2 by set_solver. reflexivity.
    + apply String.eqb_neq in Ey.
      destruct (bool_decide (y ∈ seen)) eqn:Es.
      * apply bool_decide_eq_true in Es.
        rewrite bool_decide_eq_true_2 by set_solver. reflexivity.
      * apply bool_decide_eq_false in Es.
        rewrite bool_decide_eq_false_2 by set_solver. reflexivity.
Qed.

Lemma filter_all_kept (f : string -> bool) (l : list string) :
  (forall x, f x = true) -> List.filter f l = l.
Proof.
  intros H. induction l as [|x l IH]; cbn [List.filter]; [reflexivity|].
  now rewrite H, IH.
Qed.

Lemma unique_first (l : list string) :
  CheckTargets.unique_from ∅ l = first_occurrences l.
Proof.
  rewrite unique_from_first. apply filter_all_kept. intros x.
  rewrite bool_decide_eq_false_2 by set_solver. reflexivity.
Qed.

(** On URLs that pass the test of the scheme, the loop of [gather_urls]
    is the loop that removes duplicates. *)
Lemma dedup_urls_unique (urls : list string) :
  Forall (fun u => startswith u "http://" || startswith u "https://" = true) urls ->
  forall seen : gset string,
    dedup_urls seen urls = CheckTargets.unique_from seen urls.
Proof.
  induction 1 as [|u urls Hu _ IH]; intros seen;
    cbn [dedup_urls CheckTargets.unique_from]; [reflexivity|].
  rewrite Hu, andb_true_r.
  destruct (decide (u ∈ seen)) as [Hin|Hout].
  - rewrite (bool_decide_eq_true_2 _ Hin).
    rewrite bool_decide_eq_false_2 by (intros H; now apply H). apply IH.
  - rewrite (bool_decide_eq_false_2 _ Hout), (bool_decide_eq_true_2 _ Hout).
    now rewrite IH.
Qed.

(** The URLs among which [gather_urls] chooses. *)
Lemma candidates_single (y : yaml) :
  Forall single_url
    (match find_urls_from_data_keys y with
     | [] => fallback_find_all_urls y
     | found => found
     end).
Proof.
  destruct (find_urls_from_data_keys y) as [|u found] eqn:E.
  - apply extract_urls_single.
  - apply List.Forall_forall. intros x Hx. rewrite <- E in Hx.
    apply find_urls_in_extract in Hx.
    pose proof (extract_urls_single y) as H.
    rewrite List.Forall_forall in H. now apply H.
Qed.

Lemma gather_urls_in (y : yaml) (u : string) :
  In u (gather_urls y)
  <-> In u (match find_urls_from_data_keys y with
            | [] => fallback_find_all_urls y
            | found => found
            end).
Proof.
  unfold gather_urls. pose proof (candidates_single y) as Hc.
  destruct (find_urls_from_data_keys y) as [|x found]; (split; intros H;
    [now apply dedup_urls_in in H
    | apply dedup_urls_complete; [assumption | set_solver |];
      rewrite List.Forall_forall in Hc; now apply single_url_scheme, Hc]).
Qed.

Lemma gather_urls_nil (y : yaml) :
  gather_urls y = [] <-> extract_urls_from_any y = [].
Proof.
  split; intros H.
  - destruct (find_urls_from_data_keys y) as [|x found] eqn:E.
    + destruct (extract_urls_from_any y) as [|u l] eqn:Hex; [reflexivity|].
      assert (Hin : In u (gather_urls y)).
      { apply gather_urls_in. rewrite E. unfold fallback_find_all_urls.
        rewrite Hex. now left. }
      rewrite H in Hin. contradiction.
    + assert (Hin : In x (gather_urls y)).
      { apply gather_urls_in. rewrite E. now left. }
      rewrite H in Hin. contradiction.
  - destruct (gather_urls y) as [|u l] eqn:Hg; [reflexivity|].
    assert (Hin : In u (gather_urls y)) by (rewrite Hg; now left).
    apply gather_urls_in in Hin.
    destruct (find_urls_from_data_keys y) as [|x found] eqn:E.
    + unfold fallback_find_all_urls in Hin. rewrite H in Hin. contradiction.
    + rewrite <- E in Hin. apply find_urls_in_extract in Hin.
      rewrite H in Hin. contradiction.
Qed.

Lemma build_tasks_nil (D : PathLib.PurePath) (t : string) (ps urls : list string) :
  build_tasks D t ps urls = Some []
  <-> forall u, In u urls ->
        exists rel, normalize_relative_path u t = Some rel /\ keeps ps rel = false.
Proof.
  induction urls as [|x urls IH]; cbn [build_tasks].
  - split; [intros _ u []|reflexivity].
  - destruct (normalize_relative_path x t) as [rel|] eqn:Hx.
    + destruct (build_tasks D t ps urls) as [tasks|] eqn:Hb.
      * destruct (keeps ps rel) eqn:Hk.
        -- split; [discriminate|]. intros H.
           destruct (H x (or_introl eq_refl)) as (rel' & Hrel & Hk').
           congruence.
        -- split.
           ++ intros H u [<-|Hu]; [now exists rel|]. now apply IH.
           ++ intros H. apply IH. intros u Hu. apply H. now right.
      * split; [discriminate|]. intros H.
        assert (Hnil : @None (list (string * PathLib.PurePath)) = Some [])
          by (apply IH; intros u Hu; apply H; now right).
        discriminate Hnil.
    + split; [discriminate|]. intros H.
      destruct (H x (or_introl eq_refl)) as (rel' & Hrel & _). congruence.
Qed.

End Manifest.

Section Prefixes.
Import PyStr.
Local Abbreviation slash := (PyStr.is_char "/").
Local Abbreviation comma := (PyStr.is_char ",").

(** The fields of [split] hold no separator. *)
Lemma split_fields_avoid (p : ascii -> bool) (s x : string) :
  In x (split p s) -> avoids p x.
Proof.
  revert x. induction s as [|c s IH]; intros x Hx; cbn [split] in Hx.
  - destruct Hx as [<-|[]]. reflexivity.
  - destruct (p c) eqn:Hc.
    + destruct Hx as [<-|Hx]; [reflexivity | now apply IH].
    + pose proof (split_not_nil p s) as Hne.
      destruct (split p s) as [|f fs]; [contradiction|].
      destruct Hx as [<-|Hx].
      * apply avoids_cons. split; [assumption|]. apply IH. now left.
      * apply IH. now right.
Qed.

Lemma normalize_prefixes_cons (raw : string) (rest : list string) :
  DownloadData.normalize_prefixes (raw :: rest)
  = DownloadData.normalize_prefixes [raw] ++ DownloadData.normalize_prefixes rest.
Proof.
  unfold DownloadData.normalize_prefixes. cbn [flat_map].
  now rewrite app_nil_r.
Qed.

End Prefixes.

Section SkipDecision.
Import Requests.

Lemma request_at_least_one (session : Session) (net : network)
    (method url : string) :
  1 <= snd (request session net method url).
Proof.
  unfold request.
  pose proof (urlopen_attempts (total (max_retries session))
                (connect (max_retries session)) (read (max_retries session))
                (max_retries session) method (net method url) 0) as H.
  lia.
Qed.

End SkipDecision.

(** X1. Whatever the manifest holds, every URL that
    [extract_urls_from_any] returns starts with [http://] or [https://],
    goes on with at least one more character, and holds no white
    space. *)
Theorem extracted_urls_are_http_urls :
  forall (y : yaml) (u : string),
    In u (DownloadData.extract_urls_from_any y) ->
    (PyStr.startswith u "http://" || PyStr.startswith u "https://" = true)
    /\ PyRe.url_head u = true
    /\ avoids PyStr.isspace u.
Proof.
  intros y u Hu. pose proof (extract_urls_single y) as H.
  rewrite List.Forall_forall in H. specialize (H u Hu).
  split; [now apply single_url_scheme | exact H].
Qed.

Lemma extracted_urls_are_http_urls_witness :
  (PyStr.startswith "https://h/a" "http://"
   || PyStr.startswith "https://h/a" "https://" = true)
  /\ PyRe.url_head "https://h/a" = true
  /\ avoids PyStr.isspace "https://h/a".
Proof.
  apply (extracted_urls_are_http_urls
           (YDict [("note", YStr "see https://h/a for the data")])).
  now left.
Defined.

(** X2. [gather_urls] returns no URL twice; it returns exactly the URLs
    found under the data-path keys when there is one, and otherwise
    exactly the URLs found anywhere in the manifest; and it returns them
    in the order in which they were found, each at the place of its
    first occurrence. The test of the scheme in its loop never drops a
    URL. *)
Theorem gather_urls_distinct_in_order :
  forall y : yaml,
    let candidates :=
      match DownloadData.find_urls_from_data_keys y with
      | [] => DownloadData.fallback_find_all_urls y
      | found => found
      end in
    DownloadData.gather_urls y = first_occurrences candidates
    /\ NoDup (DownloadData.gather_urls y)
    /\ (forall u, In u (DownloadData.gather_urls y) <-> In u candidates)
    /\ sublist (DownloadData.gather_urls y) candidates
    /\ (forall u, In u (DownloadData.gather_urls y) ->
          In u (DownloadData.extract_urls_from_any y)).
Proof.
  intros y candidates. split.
  { pose proof (candidates_single y) as Hc.
    unfold DownloadData.gather_urls, candidates.
    destruct (DownloadData.find_urls_from_data_keys y) as [|x found];
      (rewrite dedup_urls_unique; [apply unique_first|];
       eapply List.Forall_impl; [|exact Hc]; intros u; apply single_url_scheme). }
  split; [apply dedup_urls_distinct|].
  split; [apply gather_urls_in|]. split.
  - unfold DownloadData.gather_urls, candidates.
    destruct (DownloadData.find_urls_from_data_keys y); apply dedup_urls_sublist.
  - intros u Hu. apply gather_urls_in in Hu.
    destruct (DownloadData.find_urls_from_data_keys y) as [|x found] eqn:E;
      [exact Hu|].
    rewrite <- E in Hu. now apply find_urls_in_extract.
Qed.

(** X3. Once the data directory is there, a run of the Download Engine
    ends with exit status 1 exactly when no string value of the manifest
    holds an http(s) URL, and with exit status 2 exactly when there is
    such a URL and the include prefixes keep none of the gathered
    ones. *)
Theorem engine_exit_statuses :
  forall (home : string -> string) (args : DownloadData.Args) (y : yaml)
         (now : Z) (fs : FileSystem.t) (expanded : PathLib.PurePath),
    PathLib.expanduser home (PathLib.parse (DownloadData.data_dir args))
    = Some expanded ->
    FileSystem.mkdir_parents now
      (PathLib.resolve (FileSystem.cwd fs) expanded) fs <> None ->
    (option_map fst (DownloadData.main home args y now fs) = Some (Exit 1)
     <-> DownloadData.extract_urls_from_any y = [])
    /\ (option_map fst (DownloadData.main home args y now fs) = Some (Exit 2)
        <-> DownloadData.extract_urls_from_any y <> []
            /\ forall u, In u (DownloadData.gather_urls y) ->
                 exists rel,
                   DownloadData.normalize_relative_path u
                     (DownloadData.trim_prefix args) = Some rel
                   /\ DownloadData.keeps
                        (DownloadData.normalize_prefixes
                           (DownloadData.include_prefix args)) rel = false).
Proof.
  intros home args y now fs expanded Hhome Hmkdir. unfold DownloadData.main.
  rewrite Hhome.
  destruct (FileSystem.mkdir_parents now _ fs) as [fs1|]; [|contradiction].
  pose proof (gather_urls_nil y) as Hnil.
  destruct (DownloadData.gather_urls y) as [|u urls] eqn:Hg.
  - cbn [option_map fst]. split.
    + split; [intros _; now apply Hnil | reflexivity].
    + split; [discriminate|]. intros [Hne _]. destruct Hne. now apply Hnil.
  - assert (Hex : DownloadData.extract_urls_from_any y <> [])
      by (intros Hex; apply Hnil in Hex; discriminate).
    pose proof (build_tasks_nil
      (PathLib.resolve (FileSystem.cwd fs) expanded)
      (DownloadData.trim_prefix args)
      (DownloadData.normalize_prefixes (DownloadData.include_prefix args))
      (u :: urls)) as Hb.
    destruct (DownloadData.build_tasks _ _ _ (u :: urls)) as [[|task tasks]|].
    + cbn [List.length Nat.eqb option_map fst]. split.
      * split; [discriminate | contradiction].
      * split; [intros _; split; [assumption | now apply Hb] | reflexivity].
    + cbn [List.length Nat.eqb]. rewrite dispatch_raises. cbn [option_map fst].
      split; (split; [discriminate|]); [contradiction|].
      intros [_ H]. apply Hb in H. discriminate.
    + cbn [option_map]. split; (split; [discriminate|]); [contradiction|].
      intros [_ H]. apply Hb in H. discriminate.
Qed.

Lemma engine_exit_statuses_witness :
  option_map fst
    (DownloadData.main (fun _ => "/home/me")
       (DownloadData.mkArgs "~/data" "/p/" ["b/"] 8)
       (YDict [("data_paths", YList [YStr "https://h/p/a/x"])]) 0%Z
       (FileSystem.mkFs [] ∅))
  = Some (Exit 2).
Proof.
  apply (proj2 (engine_exit_statuses (fun _ => "/home/me")
                  (DownloadData.mkArgs "~/data" "/p/" ["b/"] 8)
                  (YDict [("data_paths", YList [YStr "https://h/p/a/x"])]) 0%Z
                  (FileSystem.mkFs [] ∅) (PathLib.parse "/home/me/data") eq_refl
                  ltac:(now vm_compute))).
  split; [now vm_compute|].
  intros u [<-|[]]. exists "a/x". split; reflexivity.
Defined.

(** X4. An include-prefix argument that lists two prefixes with a comma
    between them gives the same prefixes as the two arguments given one
    after the other, in the Download Engine and in the Script
    Synthesizer. *)
Theorem include_prefix_comma_is_repetition :
  forall (a b : string) (rest : list string),
    DownloadData.normalize_prefixes ((a +:+ "," +:+ b) :: rest)
    = DownloadData.normalize_prefixes (a :: b :: rest)
    /\ MakeWget.normalize_prefixes ((a +:+ "," +:+ b) :: rest)
       = MakeWget.normalize_prefixes (a :: b :: rest).
Proof.
  intros a b rest.
  split; unfold DownloadData.normalize_prefixes, MakeWget.normalize_prefixes;
    cbn [flat_map]; change (a +:+ "," +:+ b) with (a +:+ String "," b);
    rewrite (split_app_sep (PyStr.is_char ",") a b ",") by reflexivity;
    now rewrite flat_map_app, app_assoc.
Qed.

(** X5. No prefix that [normalize_prefixes] returns starts with a slash
    or holds a comma, and each one is a token of an argument, trimmed of
    white space and of its leading slashes. *)
Theorem normalized_prefixes_shape :
  forall (supplied : list string) (p : string),
    In p (DownloadData.normalize_prefixes supplied) ->
    PyStr.startswith p "/" = false
    /\ avoids (PyStr.is_char ",") p
    /\ supplied_prefix supplied p.
Proof.
  intros supplied p Hp. apply in_normalize_prefixes in Hp.
  split; [|split; [|exact Hp]];
    destruct Hp as (raw & token & _ & Htok & _ & ->).
  - apply lstrip_slash_head.
  - apply lstrip_tail; [apply avoids_tail|]. apply avoids_strip.
    eapply split_fields_avoid. exact Htok.
Qed.

Lemma normalized_prefixes_shape_witness :
  PyStr.startswith "a/" "/" = false
  /\ avoids (PyStr.is_char ",") "a/"
  /\ supplied_prefix [" //a/ ,b"] "a/".
Proof.
  apply (normalized_prefixes_shape [" //a/ ,b"] "a/"). now left.
Defined.

(** X6. A token made of slashes only is not dropped as blank: it gives
    the empty prefix, with which every relative path starts, so that the
    Download Engine and the Script Synthesizer keep every item whatever
    the other prefixes are. *)
Theorem slash_token_keeps_everything :
  forall (supplied : list string) (raw token rel : string),
    In raw supplied ->
    In token (PyStr.split (PyStr.is_char ",") raw) ->
    PyStr.strip token <> "" ->
    PyStr.forallb (PyStr.is_char "/") (PyStr.strip token) = true ->
    In "" (DownloadData.normalize_prefixes supplied)
    /\ DownloadData.keeps (DownloadData.normalize_prefixes supplied) rel = true
    /\ MakeWget.keeps (MakeWget.normalize_prefixes supplied) rel = true.
Proof.
  intros supplied raw token rel Hraw Htok Hne Hall.
  assert (Hin : In "" (DownloadData.normalize_prefixes supplied)).
  { apply in_normalize_prefixes. exists raw, token.
    repeat split; try assumption. symmetry. now apply lstrip_all. }
  split; [exact Hin|].
  assert (Hk : DownloadData.keeps (DownloadData.normalize_prefixes supplied) rel
               = true).
  { apply keeps_iff. right. exists "". split; [exact Hin|].
    apply startswith_nil. }
  split; [exact Hk|]. exact Hk.
Qed.

Lemma slash_token_keeps_everything_witness :
  In "" (DownloadData.normalize_prefixes ["docs/, /"])
  /\ DownloadData.keeps (DownloadData.normalize_prefixes ["docs/, /"]) "a/x" = true
  /\ MakeWget.keeps (MakeWget.normalize_prefixes ["docs/, /"]) "a/x" = true.
Proof.
  apply (slash_token_keeps_everything ["docs/, /"] "docs/, /" " /" "a/x").
  - now left.
  - right. now left.
  - discriminate.
  - reflexivity.
Defined.

(** X7. [should_skip] answers [True] only for a destination that exists,
    after a [HEAD] request that was answered, at the first attempt or a
    later one, with a Content-Length that reads as the size of the local
    file. *)
Theorem skip_only_on_equal_size :
  forall (session : Requests.Session) (net : Requests.network)
         (fs : FileSystem.t) (url : string) (dst : PathLib.PurePath) (n : nat),
    DownloadData.should_skip session net fs url dst = (true, n) ->
    exists (st : stat_result) (resp : Requests.response) (cl : string),
      FileSystem.lookup fs dst = Some st
      /\ Requests.request session net "HEAD" url = (Requests.Received resp, n)
      /\ Requests.content_length resp = Some cl
      /\ PyInt.int cl = Some (Z.of_N (st_size st))
      /\ 1 <= n.
Proof.
  intros session net fs url dst n H.
  destruct (FileSystem.lookup fs dst) as [st|] eqn:Hst;
    [|rewrite should_skip_absent in H by assumption; discriminate].
  rewrite (should_skip_present _ _ _ _ _ st) in H by assumption.
  pose proof (request_at_least_one session net "HEAD" url) as Hn.
  destruct (Requests.request session net "HEAD" url) as [[resp|] k];
    [|discriminate].
  destruct (Requests.content_length resp) as [cl|] eqn:Hcl; [|discriminate].
  destruct (PyInt.int cl) as [remote|] eqn:Hint; [|discriminate].
  injection H as Heq <-. apply Z.eqb_eq in Heq. subst remote.
  exists st, resp, cl. cbn [snd] in Hn. auto.
Qed.

Lemma skip_only_on_equal_size_witness :
  exists (st : stat_result) (resp : Requests.response) (cl : string),
    FileSystem.lookup sample_fs (PathLib.parse "/data/a/x") = Some st
    /\ Requests.request DownloadData.default_session sample_net "HEAD"
         "https://h/p/a/x" = (Requests.Received resp, 1)
    /\ Requests.content_length resp = Some cl
    /\ PyInt.int cl = Some (Z.of_N (st_size st))
    /\ 1 <= 1.
Proof.
  apply (skip_only_on_equal_size DownloadData.default_session sample_net
           sample_fs "https://h/p/a/x" (PathLib.parse "/data/a/x") 1).
  now vm_compute.
Defined.


(** ** Directories made by the Download Engine *)

Section MakeDirectories.
Import PathLib FileSystem.

(** One step of [mkdir_parents]. *)
Local Abbreviation mkdir_step now :=
  (fun (acc : option FileSystem.t) (q : PurePath) =>
     match acc with
     | None => None
     | Some fs' =>
         match lookup fs' q with
         | Some st => if st_is_dir st then Some fs' else None
         | None => Some (mkFs (cwd fs')
                              (<[key fs' q := mkStat true 4096%N now]> (entries fs')))
         end
     end).

Lemma grown_refl (fs : FileSystem.t) : grown fs fs.
Proof. repeat split; auto. Qed.

Lemma grown_trans (a b c : FileSystem.t) : grown a b -> grown b c -> grown a c.
Proof.
  intros (Hc1 & Hk1 & Hn1) (Hc2 & Hk2 & Hn2). repeat split.
  - congruence.
  - auto.
  - intros k st H. apply Hn2 in H as [H|[H Hd]].
    + now apply Hn1.
    + right. split; [|assumption].
      destruct (entries a !! k) as [st'|] eqn:E; [|reflexivity].
      apply Hk1 in E. congruence.
Qed.

Lemma grown_lookup (a b : FileSystem.t) (q : PurePath) (st : stat_result) :
  grown a b -> lookup a q = Some st -> lookup b q = Some st.
Proof.
  intros (Hc & Hk & _) H. unfold lookup, key in *. rewrite Hc. now apply Hk.
Qed.

Lemma grown_is_directory (a b : FileSystem.t) (q : PurePath) :
  grown a b -> is_directory a q -> is_directory b q.
Proof.
  intros Hg (st & Hst & Hd). exists st. split; [|assumption].
  now apply (grown_lookup a b).
Qed.

Lemma grown_is_file (a b : FileSystem.t) (q : PurePath) :
  grown a b -> is_file b q = is_file a q.
Proof.
  intros (Hc & Hk & Hn). unfold is_file, lookup, key. rewrite Hc.
  destruct (entries b !! _) as [st|] eqn:Eb.
  - apply Hn in Eb as [Ea|[Ea Hd]]; rewrite Ea; [reflexivity|].
    now rewrite Hd.
  - destruct (entries a !! _) as [st|] eqn:Ea; [|reflexivity].
    apply Hk in Ea. congruence.
Qed.

Lemma mkdir_step_grown (now : Z) (q : PurePath) (fs fs' : FileSystem.t) :
  mkdir_step now (Some fs) q = Some fs' ->
  grown fs fs' /\ is_directory fs' q.
Proof.
  cbn beta iota. destruct (lookup fs q) as [st|] eqn:Hst.
  - destruct (st_is_dir st) eqn:Hd; [|discriminate].
    intros [= <-]. split; [apply grown_refl|]. now exists st.
  - intros [= <-]. split.
    + repeat split; cbn [cwd entries].
      * intros k st Hk. rewrite lookup_insert_ne; [assumption|].
        intros <-. unfold lookup in Hst. congruence.
      * intros k st Hk. destruct (decide (key fs q = k)) as [<-|Hne].
        -- rewrite lookup_insert_eq in Hk. injection Hk as <-. right.
           split; [exact Hst | reflexivity].
        -- rewrite lookup_insert_ne in Hk by assumption. now left.
    + exists (mkStat true 4096%N now). split; [|reflexivity].
      unfold lookup, key. cbn [cwd entries]. apply lookup_insert_eq.
Qed.

Lemma mkdir_fold_none (now : Z) (qs : list PurePath) :
  fold_left (mkdir_step now) qs None = None.
Proof. induction qs as [|q qs IH]; [reflexivity | exact IH]. Qed.

Lemma mkdir_fold_grown (now : Z) (qs : list PurePath) :
  forall fs fs' : FileSystem.t,
    fold_left (mkdir_step now) qs (Some fs) = Some fs' ->
    grown fs fs' /\ (forall q, In q qs -> is_directory fs' q).
Proof.
  induction qs as [|q qs IH]; intros fs fs' H.
  - injection H as <-. split; [apply grown_refl | intros q []].
  - change (fold_left (mkdir_step now) (q :: qs) (Some fs))
      with (fold_left (mkdir_step now) qs (mkdir_step now (Some fs) q)) in H.
    destruct (mkdir_step now (Some fs) q) as [fs1|] eqn:Hstep;
      [|rewrite mkdir_fold_none in H; discriminate].
    apply mkdir_step_grown in Hstep as [Hg1 Hd1].
    apply IH in H as [Hg2 Hd2]. split; [now apply (grown_trans fs fs1)|].
    intros q' [<-|Hq']; [now apply (grown_is_directory fs1) | now apply Hd2].
Qed.

Lemma mkdir_fold_again (now : Z) (qs : list PurePath) (fs : FileSystem.t) :
  (forall q, In q qs -> is_directory fs q) ->
  fold_left (mkdir_step now) qs (Some fs) = Some fs.
Proof.
  induction qs as [|q qs IH]; intros H; [reflexivity|].
  cbn [fold_left]. destruct (H q (or_introl eq_refl)) as (st & Hst & Hd).
  rewrite Hst, Hd. apply IH. intros q' Hq'. apply H. now right.
Qed.

Lemma mkdir_fold_fails (now : Z) (qs : list PurePath) :
  forall fs : FileSystem.t,
    fold_left (mkdir_step now) qs (Some fs) = None
    <-> exists q, In q qs /\ is_file fs q = true.
Proof.
  induction qs as [|q qs IH]; intros fs.
  - split; [discriminate | intros (q & [] & _)].
  - change (fold_left (mkdir_step now) (q :: qs) (Some fs))
      with (fold_left (mkdir_step now) qs (mkdir_step now (Some fs) q)).
    destruct (mkdir_step now (Some fs) q) as [fs1|] eqn:Hstep.
    + pose proof Hstep as Hstep'.
      apply mkdir_step_grown in Hstep as [Hg Hd]. rewrite IH. split.
      * intros (q' & Hq' & Hf). exists q'. split; [now right|].
        now rewrite <- (grown_is_file fs fs1).
      * intros (q' & [<-|Hq'] & Hf).
        -- exfalso. unfold is_file in Hf. cbn beta iota in Hstep'.
           destruct (lookup fs q) as [st|]; [|discriminate].
           destruct (st_is_dir st); discriminate.
        -- exists q'. split; [assumption|].
           now rewrite (grown_is_file fs fs1).
    + rewrite mkdir_fold_none. split; [intros _|reflexivity].
      exists q. split; [now left|]. unfold is_file. cbn beta iota in Hstep.
      destruct (lookup fs q) as [st|]; [|discriminate].
      destruct (st_is_dir st); [discriminate | reflexivity].
Qed.

Lemma in_removelast {A : Type} (x : A) (l : list A) :
  In x (removelast l) -> In x l.
Proof.
  induction l as [|a l IH]; [intros []|]. cbn [removelast].
  destruct l as [|b l]; [intros []|].
  intros [<-|H]; [now left | right; now apply IH].
Qed.

(** Resolution leaves no [..] behind. *)
Lemma resolve_step_plain (acc : list string) (seg : string) :
  ~ In ".." acc -> ~ In ".." (resolve_step acc seg).
Proof.
  intros H. unfold resolve_step. destruct (String.eqb seg "..") eqn:E.
  - intros Hin. apply H. now apply in_removelast.
  - intros Hin. apply in_app_or in Hin as [Hin|[->|[]]]; [contradiction|].
    rewrite String.eqb_refl in E. discriminate.
Qed.

Lemma fold_resolve_no_parent (l acc : list string) :
  ~ In ".." acc -> ~ In ".." (fold_left resolve_step l acc).
Proof.
  revert acc. induction l as [|seg l IH]; intros acc H; [exact H|].
  cbn [fold_left]. now apply IH, resolve_step_plain.
Qed.

Lemma resolve_parts_plain (cwd : list string) (p : PurePath) :
  ~ In ".." cwd -> ~ In ".." (parts (resolve cwd p)).
Proof.
  intros H. unfold resolve. cbn [parts]. apply fold_resolve_no_parent.
  destruct (is_absolute p); [intros [] | exact H].
Qed.

Lemma resolve_resolved (cwd cwd' : list string) (p : PurePath) :
  ~ In ".." cwd -> resolve cwd' (resolve cwd p) = resolve cwd p.
Proof.
  intros H. pose proof (resolve_parts_plain cwd p H) as Hp.
  unfold resolve at 1. cbn [is_absolute root PyStr.truthy parts] in *.
  rewrite fold_resolve_plain by exact Hp. reflexivity.
Qed.

Lemma lineage_last (p : PurePath) :
  parts p <> [] -> In (mkPath (root p) (parts p)) (lineage p).
Proof.
  intros H. unfold lineage. apply in_map_iff.
  exists (List.length (parts p)). split.
  - now rewrite firstn_all.
  - apply in_seq. destruct (parts p); [contradiction | cbn; lia].
Qed.

Lemma mkdir_parents_makes (now : Z) (p : PurePath) (fs fs' : FileSystem.t) :
  ~ In ".." (cwd fs) -> parts (resolve (cwd fs) p) <> [] ->
  mkdir_parents now p fs = Some fs' ->
  is_directory fs' p.
Proof.
  intros Hcwd Hparts H. unfold mkdir_parents in H.
  apply mkdir_fold_grown in H as [(Hc & _) Hd].
  specialize (Hd _ (lineage_last _ Hparts)).
  destruct Hd as (st & Hst & Hdir). exists st. split; [|assumption].
  unfold lookup, key in *. rewrite Hc in *. cbn [root parts resolve] in Hst.
  rewrite <- Hst. f_equal. f_equal.
  change (mkPath "/" (parts (resolve (cwd fs) p))) with (resolve (cwd fs) p).
  symmetry. apply resolve_resolved. exact Hcwd.
Qed.

End MakeDirectories.

(** X8. When [ensure_parent_dir] succeeds, the file system is the one
    before with directories added: no entry is removed or changed, and
    no regular file appears. The parent of the path is then a directory
    (for a working directory without [..], and a parent other than the
    root), and a second call changes nothing. *)
Theorem ensure_parent_dir_effect :
  forall (now : Z) (p : PathLib.PurePath) (fs fs' : FileSystem.t),
    DownloadData.ensure_parent_dir now p fs = Some fs' ->
    grown fs fs'
    /\ (~ In ".." (FileSystem.cwd fs) ->
        PathLib.parts (PathLib.resolve (FileSystem.cwd fs) (PathLib.parent p)) <> [] ->
        is_directory fs' (PathLib.parent p))
    /\ (forall now' : Z, DownloadData.ensure_parent_dir now' p fs' = Some fs').
Proof.
  intros now p fs fs' H. unfold DownloadData.ensure_parent_dir in *.
  pose proof H as Hfold. unfold FileSystem.mkdir_parents in Hfold.
  apply mkdir_fold_grown in Hfold as [Hg Hd]. split; [exact Hg|]. split.
  - intros Hcwd Hparts. now apply (mkdir_parents_makes now _ fs).
  - intros now'. unfold FileSystem.mkdir_parents.
    destruct Hg as (Hc & _). rewrite Hc. now apply mkdir_fold_again.
Qed.

Lemma ensure_parent_dir_effect_witness :
  match DownloadData.ensure_parent_dir 0%Z (PathLib.parse "/data/a/x")
          (FileSystem.mkFs [] ∅) with
  | Some fs' =>
      grown (FileSystem.mkFs [] ∅) fs'
      /\ is_directory fs' (PathLib.parent (PathLib.parse "/data/a/x"))
  | None => False
  end.
Proof.
  destruct (DownloadData.ensure_parent_dir 0%Z (PathLib.parse "/data/a/x")
              (FileSystem.mkFs [] ∅)) as [fs'|] eqn:E.
  - destruct (ensure_parent_dir_effect 0%Z (PathLib.parse "/data/a/x")
                (FileSystem.mkFs [] ∅) fs' E) as (Hg & Hd & _).
    split; [exact Hg|]. apply Hd; [intros [] | discriminate].
  - vm_compute in E. discriminate E.
Defined.

(** X9. For a path whose directory part holds no [..] segment,
    [ensure_parent_dir] fails exactly when the parent of the path, or a
    directory above it, is there as a regular file. (The table of the
    file system is read at the path with its [..] segments folded,
    which is where the operating system looks when there is none.) *)
Theorem ensure_parent_dir_fails_on_file :
  forall (now : Z) (p : PathLib.PurePath) (fs : FileSystem.t),
    ~ In ".." (PathLib.parts (PathLib.parent p)) ->
    DownloadData.ensure_parent_dir now p fs = None
    <-> exists q : PathLib.PurePath,
          In q (FileSystem.lineage
                  (PathLib.resolve (FileSystem.cwd fs) (PathLib.parent p)))
          /\ FileSystem.is_file fs q = true.
Proof.
  intros now p fs _. unfold DownloadData.ensure_parent_dir, FileSystem.mkdir_parents.
  apply mkdir_fold_fails.
Qed.

Lemma ensure_parent_dir_fails_on_file_witness :
  DownloadData.ensure_parent_dir 0%Z (PathLib.parse "/data/a/b/x")
    (FileSystem.mkFs []
       (<["/data" := mkStat true 4096%N 0%Z]>
          (<["/data/a" := mkStat false 10%N 0%Z]> ∅)))
  = None.
Proof.
  apply (ensure_parent_dir_fails_on_file 0%Z (PathLib.parse "/data/a/b/x")).
  - cbn. intros [H|[H|[H|[]]]]; discriminate H.
  - exists (PathLib.parse "/data/a"). split; [|now vm_compute].
    cbn. right. left. reflexivity.
Defined.




(** ** The Script Synthesizer *)

Section SynthesizerPairs.
Import PyStr MakeWget.

Lemma build_pairs_nil (t : string) (ps urls : list string) :
  build_pairs t ps urls = Some []
  <-> forall u, In u urls ->
        exists rel, MakeWget.normalize_relative_path u t = Some rel
                    /\ MakeWget.keeps ps rel = false.
Proof.
  pose proof (build_tasks_nil (PathLib.mkPath "/" []) t ps urls) as H.
  rewrite build_tasks_pairs in H.
  assert (Hmap : option_map (map (task_of_pair (PathLib.mkPath "/" [])))
                   (build_pairs t ps urls) = Some []
                 <-> build_pairs t ps urls = Some []).
  { destruct (build_pairs t ps urls) as [[|pair pairs]|]; cbn; intuition congruence. }
  rewrite <- Hmap, H. split; intros Hall u Hu;
    destruct (Hall u Hu) as (rel & Hrel & Hk); exists rel;
    rewrite wget_normalize_unfold, download_normalize_unfold in *;
    rewrite wget_keeps_same in *; auto.
Qed.

(** The loop that builds the pairs goes through the URLs in order and
    drops those that the include prefixes do not keep. *)
Lemma build_pairs_filter (t : string) (ps urls : list string)
    (pairs : list (string * string)) :
  build_pairs t ps urls = Some pairs ->
  map fst pairs
  = List.filter (fun u => match MakeWget.normalize_relative_path u t with
                          | Some rel => MakeWget.keeps ps rel
                          | None => false
                          end) urls
  /\ Forall (fun pair => MakeWget.normalize_relative_path (fst pair) t
                         = Some (snd pair)) pairs.
Proof.
  revert pairs. induction urls as [|u urls IH]; intros pairs H;
    cbn [build_pairs] in H.
  - injection H as <-. split; [reflexivity | constructor].
  - cbn [List.filter].
    destruct (MakeWget.normalize_relative_path u t) as [rel|] eqn:Hu;
      [|discriminate].
    destruct (build_pairs t ps urls) as [rest|]; [|discriminate].
    destruct (IH rest eq_refl) as [IH1 IH2].
    destruct (MakeWget.keeps ps rel); injection H as <-.
    + cbn [map fst]. split; [now rewrite IH1|]. now constructor.
    + now split.
Qed.

Lemma filter_all {A : Type} (f : A -> bool) (l : list A) :
  (forall x, In x l -> f x = true) -> List.filter f l = l.
Proof.
  induction l as [|a l IH]; intros H; [reflexivity|]. cbn [List.filter].
  rewrite (H a (or_introl eq_refl)), IH; [reflexivity|].
  intros x Hx. apply H. now right.
Qed.

(** [build_pairs] has a result exactly when every URL can be parsed. *)
Lemma build_pairs_some (t : string) (ps urls : list string) :
  (exists pairs, build_pairs t ps urls = Some pairs)
  <-> forall u, In u urls -> MakeWget.normalize_relative_path u t <> None.
Proof.
  induction urls as [|u urls IH]; cbn [build_pairs].
  - split; [intros _ u [] | intros _; now exists []].
  - destruct (MakeWget.normalize_relative_path u t) as [rel|] eqn:Hu.
    + destruct (build_pairs t ps urls) as [rest|].
      * split.
        -- intros _ x [<-|Hx]; [congruence|]. apply IH; [now exists rest | assumption].
        -- intros _. destruct (MakeWget.keeps ps rel); eauto.
      * split; [intros [pairs H]; discriminate|].
        intros H. destruct IH as [_ IH]. destruct IH as [pairs Hp]; [|discriminate].
        intros x Hx. apply H. now right.
    + split; [intros [pairs H]; discriminate|].
      intros H. now destruct (H u (or_introl eq_refl)).
Qed.

End SynthesizerPairs.

Section HeaderLine.
Import PyStr Shlex.

Lemma safe_word_char (c : ascii) : safe_char c = true -> word_char c = true.
Proof.
  destruct c as [[] [] [] [] [] [] [] []]; vm_compute; congruence.
Qed.

Lemma safe_word (s : string) :
  forallb safe_char s = true -> forallb word_char s = true.
Proof.
  induction s as [|c s IH]; [reflexivity|]. cbn [forallb]. intros H.
  apply andb_prop in H as [Hc Hs]. now rewrite safe_word_char, IH.
Qed.

(** After a word, a quoted directory is read back as it was. *)
Lemma lex_word_quote (w d : string) :
  forallb word_char w = true -> w <> "" ->
  lex Blank "" false (w +:+ quote d) = Some [w +:+ d].
Proof.
  intros Hw Hne. destruct w as [|c w]; [contradiction|].
  cbn [String.append lex]. pose proof Hw as Hw'.
  cbn [forallb] in Hw'. apply andb_prop in Hw' as [Hc Hw'].
  destruct (word_char_inv c Hc) as (H1 & H2 & H3). rewrite H1, H2, H3.
  rewrite lex_word_run by exact Hw'. cbn [String.append].
  unfold quote. destruct d as [|x d].
  - cbn [truthy negb].
    rewrite lex_word_squote, lex_squote_close. cbn [lex].
    rewrite orb_true_r. now rewrite append_nil_r.
  - cbn [truthy negb]. destruct (forallb safe_char (String x d)) eqn:Hsafe.
    + replace (String x d) with (String x d +:+ "") at 1 by apply append_nil_r.
      rewrite lex_word_run by now apply safe_word.
      cbn [lex String.append truthy orb]. reflexivity.
    + fold squote_escape.
      rewrite lex_word_squote.
      rewrite lex_squoted_replace, lex_squote_close. cbn [lex].
      rewrite orb_true_r. reflexivity.
Qed.

End HeaderLine.

Section ManifestTest.
Import MakeWget.

Lemma existsb_str_in (k : string) (l : list yaml) :
  List.existsb (fun x => match x with YStr s => String.eqb s k | _ => false end) l
  = true <-> In (YStr k) l.
Proof.
  rewrite List.existsb_exists. split.
  - intros (x & Hx & Hk). destruct x; try discriminate.
    apply String.eqb_eq in Hk. now subst.
  - intros H. exists (YStr k). split; [assumption | apply String.eqb_refl].
Qed.

Lemma data_paths_listed (d dd : list (string * yaml)) (v : yaml) :
  assoc "data" d = Some (YDict dd) -> assoc "paths" dd = Some v ->
  data_paths (YDict d) = Returned v.
Proof.
  intros Hd Hp. unfold data_paths, py_in, getitem. now rewrite Hd, Hp.
Qed.

End ManifestTest.

(** X11. For a manifest that is a mapping, the Script Synthesizer ends
    with exit status 1 exactly when the key [data] is missing, or the
    value under it is a mapping without a key [paths], a string in
    which [paths] does not occur, or a list without the item [paths];
    for a string or a list under [data] that holds [paths], and for a
    scalar that is no string, it ends with a [TypeError]. For a list of
    URLs under [data.paths] it ends with exit status 2 exactly when the
    include prefixes keep none of them, which an empty list fulfils. *)
Theorem synthesizer_exit_statuses :
  forall (args : MakeWget.Args) (d : list (string * yaml)) (cwd : list string),
    (MakeWget.main args (YDict d) cwd = Some (Exit 1)
     <-> MakeWget.assoc "data" d = None
         \/ (exists dd, MakeWget.assoc "data" d = Some (YDict dd)
                        /\ MakeWget.assoc "paths" dd = None)
         \/ (exists s, MakeWget.assoc "data" d = Some (YStr s)
                       /\ PyStr.has_substring "paths" s = false)
         \/ (exists l, MakeWget.assoc "data" d = Some (YList l)
                       /\ ~ In (YStr "paths") l))
    /\ (forall v : yaml,
          MakeWget.assoc "data" d = Some v ->
          match v with
          | YDict _ => True
          | YStr s => PyStr.has_substring "paths" s = true
          | YList l => In (YStr "paths") l
          | _ => True
          end ->
          match v with
          | YDict _ => True
          | _ => MakeWget.main args (YDict d) cwd = Some (Raised TypeError)
          end)
    /\ (forall (dd : list (string * yaml)) (items : list yaml) (urls : list string),
          MakeWget.assoc "data" d = Some (YDict dd) ->
          MakeWget.assoc "paths" dd = Some (YList items) ->
          MakeWget.str_items items = Some urls ->
          (MakeWget.main args (YDict d) cwd = Some (Exit 2)
           <-> forall u, In u urls ->
                 exists rel,
                   MakeWget.normalize_relative_path u (MakeWget.trim_prefix args)
                   = Some rel
                   /\ MakeWget.keeps
                        (MakeWget.normalize_prefixes (MakeWget.include_prefix args))
                        rel = false)).
Proof.
  intros args d cwd. split; [|split].
  - unfold MakeWget.main, MakeWget.data_paths, MakeWget.py_in, MakeWget.getitem.
    destruct (MakeWget.assoc "data" d) as [[| b | z | s | l | dd]|].
    + split; [discriminate|].
      intros [H|[(? & H & _)|[(? & H & _)|(? & H & _)]]]; discriminate H.
    + split; [discriminate|].
      intros [H|[(? & H & _)|[(? & H & _)|(? & H & _)]]]; discriminate H.
    + split; [discriminate|].
      intros [H|[(? & H & _)|[(? & H & _)|(? & H & _)]]]; discriminate H.
    + destruct (PyStr.has_substring "paths" s) eqn:Hs.
      * split; [discriminate|].
        intros [H|[(? & H & _)|[(? & H & Hn)|(? & H & _)]]]; try discriminate H.
        injection H as <-. congruence.
      * split; [|reflexivity]. intros _. right. right. left. now exists s.
    + destruct (List.existsb _ l) eqn:Hl.
      * split; [discriminate|].
        intros [H|[(? & H & _)|[(? & H & _)|(? & H & Hn)]]]; try discriminate H.
        injection H as <-. apply existsb_str_in in Hl. contradiction.
      * split; [|reflexivity]. intros _. right. right. right. exists l.
        split; [reflexivity|]. intros Hin. apply existsb_str_in in Hin. congruence.
    + destruct (MakeWget.assoc "paths" dd) as [v|] eqn:Hp.
      * split.
        -- intros H. exfalso. destruct v as [| | | |items|]; try discriminate.
           destruct (MakeWget.str_items items); [|discriminate].
           destruct (MakeWget.build_pairs _ _ _) as [[|pair pairs]|]; discriminate.
        -- intros [H|[(dd' & H & Hn)|[(? & H & _)|(? & H & _)]]];
             try discriminate H.
           injection H as <-. congruence.
      * split; [|reflexivity]. intros _. right. left. now exists dd.
    + split; [intros _; now left | reflexivity].
  - intros v Hv Hholds.
    unfold MakeWget.main, MakeWget.data_paths, MakeWget.py_in, MakeWget.getitem.
    rewrite Hv. destruct v as [| b | z | s | l | dd]; try reflexivity.
    + now rewrite Hholds.
    + apply existsb_str_in in Hholds. now rewrite Hholds.
  - intros dd items urls Hd Hp Hitems. unfold MakeWget.main.
    rewrite (data_paths_listed d dd _ Hd Hp), Hitems.
    pose proof (build_pairs_nil (MakeWget.trim_prefix args)
                  (MakeWget.normalize_prefixes (MakeWget.include_prefix args)) urls)
      as Hnil.
    destruct (MakeWget.build_pairs _ _ urls) as [[|pair pairs]|].
    + split; [intros _; now apply Hnil | reflexivity].
    + split; [discriminate | intros H; apply Hnil in H; discriminate].
    + split; [discriminate | intros H; apply Hnil in H; discriminate].
Qed.

Lemma synthesizer_exit_statuses_witness :
  MakeWget.main (MakeWget.mkArgs "/data" "/p/" ["b/"] "download_data.sh")
    (YDict [("data", YDict [("paths", YList [YStr "https://h/p/a/x"])])]) []
  = Some (Exit 2)
  /\ MakeWget.main (MakeWget.mkArgs "/data" "/p/" ["b/"] "download_data.sh")
       (YDict [("data", YStr "all paths of the set")]) []
     = Some (Raised TypeError).
Proof.
  split.
  - apply (proj2 (proj2 (synthesizer_exit_statuses
                    (MakeWget.mkArgs "/data" "/p/" ["b/"] "download_data.sh")
                    [("data", YDict [("paths", YList [YStr "https://h/p/a/x"])])] []))
             [("paths", YList [YStr "https://h/p/a/x"])] [YStr "https://h/p/a/x"]
             ["https://h/p/a/x"] eq_refl eq_refl eq_refl).
    intros u [<-|[]]. exists "a/x". split; reflexivity.
  - exact (proj1 (proj2 (synthesizer_exit_statuses
                    (MakeWget.mkArgs "/data" "/p/" ["b/"] "download_data.sh")
                    [("data", YStr "all paths of the set")] []))
             (YStr "all paths of the set") eq_refl eq_refl).
Defined.

(** X12. For every manifest with a list of URLs under [data.paths],
    whatever else it holds: the pairs of the Script Synthesizer are the
    listed URLs that the include prefixes keep, in the order of the
    list and as often as they are listed, each with its normalized
    path; without include prefixes there is one pair for every listed
    URL. *)
Theorem synthesizer_pairs_follow_manifest :
  forall (args : MakeWget.Args) (d dd : list (string * yaml))
         (urls cwd : list string)
         (pairs : list (string * string)) (script : string),
    MakeWget.assoc "data" d = Some (YDict dd) ->
    MakeWget.assoc "paths" dd = Some (YList (map YStr urls)) ->
    MakeWget.main args (YDict d) cwd = Some (Returned (pairs, script)) ->
    let t := MakeWget.trim_prefix args in
    let ps := MakeWget.normalize_prefixes (MakeWget.include_prefix args) in
    map fst pairs
    = List.filter (fun u => match MakeWget.normalize_relative_path u t with
                            | Some rel => MakeWget.keeps ps rel
                            | None => false
                            end) urls
    /\ Forall (fun pair => MakeWget.normalize_relative_path (fst pair) t
                           = Some (snd pair)) pairs
    /\ (ps = [] -> map fst pairs = urls).
Proof.
  intros args d dd urls cwd pairs script Hd Hp Hmain t ps.
  apply (wget_main_pairs args (YDict d) urls) in Hmain as [Hb _];
    [|now apply (data_paths_listed d dd)].
  fold t ps in Hb.
  destruct (build_pairs_filter t ps urls pairs Hb) as [Hf Hn].
  split; [exact Hf|]. split; [exact Hn|].
  intros Hps. rewrite Hf. apply filter_all. intros u Hu.
  assert (Hsome : MakeWget.normalize_relative_path u t <> None).
  { apply (proj1 (build_pairs_some t ps urls)); [now exists pairs | assumption]. }
  destruct (MakeWget.normalize_relative_path u t); [|contradiction].
  now rewrite Hps.
Qed.

Lemma synthesizer_pairs_follow_manifest_witness :
  map fst [("https://h/p/a/x", "a/x"); ("https://h/p/a/x", "a/x")]
  = ["https://h/p/a/x"; "https://h/p/a/x"].
Proof.
  refine (proj2 (proj2 (synthesizer_pairs_follow_manifest
            (MakeWget.mkArgs "/d" "/p/" [] "download_data.sh")
            [("name", YStr "proof-pile");
             ("data", YDict [("format", YStr "npy");
                             ("paths", YList (map YStr ["https://h/p/a/x";
                                                        "https://h/p/a/x"]))])]
            [("format", YStr "npy");
             ("paths", YList (map YStr ["https://h/p/a/x"; "https://h/p/a/x"]))]
            ["https://h/p/a/x"; "https://h/p/a/x"] []
            [("https://h/p/a/x", "a/x"); ("https://h/p/a/x", "a/x")]
            _ eq_refl eq_refl eq_refl)) eq_refl).
Defined.

(** X13. Whatever characters the name of the data directory holds, the
    line of the header that assigns it is read by [shlex.split] as one
    word, [DATA_DIR=] followed by the name as it was; [shlex.quote]
    alone is undone by [shlex.split]. *)
Theorem data_dir_line_is_one_word :
  forall d line : string,
    In line (MakeWget.HEADER_lines (Shlex.quote d)) ->
    PyStr.startswith line "DATA_DIR=" = true ->
    Shlex.split line = Some ["DATA_DIR=" +:+ d]
    /\ Shlex.split (Shlex.quote d) = Some [d].
Proof.
  intros d line Hin Hstart. split.
  - unfold MakeWget.HEADER_lines in Hin. cbn [In] in Hin.
    repeat (destruct Hin as [<-|Hin]; [try discriminate Hstart|]);
      [|contradiction].
    apply lex_word_quote; [reflexivity | discriminate].
  - clear. unfold Shlex.split, Shlex.quote. destruct d as [|x d].
    + reflexivity.
    + cbn [PyStr.truthy negb].
      destruct (PyStr.forallb Shlex.safe_char (String x d)) eqn:Hsafe.
      * pose proof (safe_word _ Hsafe) as Hw. cbn [PyStr.forallb] in Hw.
        apply andb_prop in Hw as [Hx Hd].
        destruct (word_char_inv x Hx) as (H1 & H2 & H3).
        cbn [Shlex.lex]. rewrite H1, H2, H3.
        replace d with (d +:+ "") at 1 by apply append_nil_r.
        rewrite lex_word_run by assumption. reflexivity.
      * fold squote_escape.
        change (Shlex.lex Shlex.Blank "" false
                  (String Shlex.squote
                     (PyStr.replace Shlex.squote squote_escape (String x d)
                      +:+ String Shlex.squote "")))
          with (Shlex.lex (Shlex.Quoted Shlex.squote) "" true
                  (PyStr.replace Shlex.squote squote_escape (String x d)
                   +:+ String Shlex.squote "")).
        rewrite lex_squoted_replace, lex_squote_close. reflexivity.
Qed.

Lemma data_dir_line_is_one_word_witness :
  Shlex.split ("DATA_DIR=" +:+ Shlex.quote "/my data/it's")
  = Some ["DATA_DIR=/my data/it's"]
  /\ Shlex.split (Shlex.quote "/my data/it's") = Some ["/my data/it's"].
Proof.
  apply (data_dir_line_is_one_word "/my data/it's").
  - do 8 right. now left.
  - reflexivity.
Defined.


(** ** The data directory of the Target Verifier *)

Section ResolvedPaths.
Import PyStr PathLib.
Local Abbreviation slash := (PyStr.is_char "/").

Lemma split_join_parts (segs : list string) :
  segs <> [] -> Forall (avoids slash) segs ->
  split slash (join_parts segs) = segs.
Proof.
  induction segs as [|s segs IH]; intros Hne Hall; [contradiction|].
  apply List.Forall_cons_iff in Hall as [Hs Hall].
  destruct segs as [|s' segs].
  - cbn [join_parts]. now apply split_plain.
  - change (join_parts (s :: s' :: segs))
      with (s +:+ String "/" (join_parts (s' :: segs))).
    rewrite (split_app_sep slash s _ "/") by reflexivity.
    rewrite split_plain by exact Hs. rewrite IH; [reflexivity | discriminate | assumption].
Qed.

Lemma filter_plain_segments (segs : list string) :
  Forall plain_segment segs ->
  List.filter (fun seg => negb (String.eqb seg "") && negb (String.eqb seg "."))
    segs = segs.
Proof.
  intros H. apply filter_all. intros x Hx.
  rewrite List.Forall_forall in H. destruct (H x Hx) as (H1 & H2 & _).
  apply String.eqb_neq in H1, H2. now rewrite H1, H2.
Qed.

Lemma plain_segment_head (s : string) :
  plain_segment s -> exists c r, s = String c r /\ slash c = false.
Proof.
  intros (Hne & _ & _ & Hs). destruct s as [|c r]; [contradiction|].
  apply avoids_cons in Hs as [Hc _]. now exists c, r.
Qed.

(** The text of an absolute path with plain segments is parsed into
    these segments. *)
Lemma parse_absolute (segs : list string) :
  Forall plain_segment segs ->
  parse ("/" +:+ join_parts segs) = mkPath "/" segs.
Proof.
  intros H. destruct segs as [|s segs]; [reflexivity|].
  assert (Hsplit : split slash (join_parts (s :: segs)) = s :: segs).
  { apply split_join_parts; [discriminate|].
    eapply List.Forall_impl; [|exact H]. now intros x (_ & _ & _ & Hx). }
  pose proof (List.Forall_inv H) as Hs.
  apply plain_segment_head in Hs as (c & r & -> & Hc).
  unfold parse. f_equal.
  - destruct segs; cbn [join_parts String.append startswith];
      unfold is_char in Hc; rewrite Hc; reflexivity.
  - change ("/" +:+ join_parts (String c r :: segs))
      with (String "/" (join_parts (String c r :: segs))).
    cbn [split]. replace (slash "/") with true by reflexivity.
    rewrite Hsplit.
    change (List.filter ?f ("" :: ?l)) with (List.filter f l).
    now apply filter_plain_segments.
Qed.

Lemma parts_parse_plain (s : string) :
  Forall (fun x => x <> "" /\ x <> "." /\ avoids slash x) (parts (parse s)).
Proof.
  apply List.Forall_forall. intros x Hx. unfold parse in Hx. cbn [parts] in Hx.
  apply filter_In in Hx as [Hin Hx]. apply andb_prop in Hx as [H1 H2].
  apply negb_true_iff in H1, H2. apply String.eqb_neq in H1, H2.
  repeat split; try assumption. eapply split_fields_avoid. exact Hin.
Qed.

Lemma forall_removelast {A : Type} (P : A -> Prop) (l : list A) :
  Forall P l -> Forall P (removelast l).
Proof.
  intros H. apply List.Forall_forall. intros x Hx.
  rewrite List.Forall_forall in H. now apply H, in_removelast.
Qed.

Lemma fold_resolve_plain_segments (l acc : list string) :
  Forall (fun x => x <> "" /\ x <> "." /\ avoids slash x) l ->
  Forall plain_segment acc ->
  Forall plain_segment (fold_left resolve_step l acc).
Proof.
  revert acc. induction l as [|seg l IH]; intros acc Hl Hacc; [exact Hacc|].
  apply List.Forall_cons_iff in Hl as [(H1 & H2 & H3) Hl].
  cbn [fold_left]. apply IH; [exact Hl|]. unfold resolve_step.
  destruct (String.eqb seg "..") eqn:E.
  - now apply forall_removelast.
  - apply String.eqb_neq in E. apply List.Forall_app. split; [exact Hacc|].
    constructor; [|constructor]. repeat split; assumption.
Qed.

Lemma resolve_plain_segments (cwd : list string) (p : PurePath) :
  Forall plain_segment cwd ->
  (forall x, In x (parts p) -> x <> "" /\ x <> "." /\ avoids slash x) ->
  Forall plain_segment (parts (resolve cwd p)).
Proof.
  intros Hcwd Hp. unfold resolve. cbn [parts].
  apply fold_resolve_plain_segments.
  - now apply List.Forall_forall.
  - destruct (is_absolute p); [constructor | exact Hcwd].
Qed.

Lemma plain_segments_no_parent (segs : list string) :
  Forall plain_segment segs -> ~ In ".." segs.
Proof.
  intros H Hin. rewrite List.Forall_forall in H.
  destruct (H _ Hin) as (_ & _ & Hne & _). now apply Hne.
Qed.

(** The text of a resolved path is parsed and resolved into itself,
    whatever the working directory. *)
Lemma resolved_text_fixed (cwd cwd' : list string) (s : string) :
  Forall plain_segment cwd ->
  let d := to_str (resolve cwd (parse s)) in
  parse d = resolve cwd (parse s)
  /\ to_str (resolve cwd' (parse d)) = d.
Proof.
  intros Hcwd d.
  assert (Hplain : Forall plain_segment (parts (resolve cwd (parse s)))).
  { apply resolve_plain_segments; [exact Hcwd|].
    apply List.Forall_forall, parts_parse_plain. }
  assert (Hd : d = "/" +:+ join_parts (parts (resolve cwd (parse s))))
    by reflexivity.
  assert (Hparse : parse d = resolve cwd (parse s)).
  { rewrite Hd. now rewrite parse_absolute. }
  split; [exact Hparse|]. rewrite Hparse.
  rewrite resolve_resolved by now apply plain_segments_no_parent.
  reflexivity.
Qed.

End ResolvedPaths.

Section Backtracking.
Import PyStr PyRe.
Context {R : Type}.
Implicit Types (k : string -> option R) (p q : ascii -> bool).

Lemma lit_app (w s : string) k : lit w k (w +:+ s) = k s.
Proof. unfold lit. now rewrite startswith_app, drop_app. Qed.

Lemma lit_empty (s : string) k : lit "" k s = k s.
Proof. reflexivity. Qed.

Lemma lit_miss (w s : string) k : startswith s w = false -> lit w k s = None.
Proof. unfold lit. now intros ->. Qed.

Lemma star_stop p k (c : ascii) (s : string) :
  p c = false -> star p k (String c s) = k (String c s).
Proof. cbn [star]. now intros ->. Qed.

(** A greedy run that succeeds after the whole run of matching
    characters is not tried any shorter. *)
Lemma star_run_some p k (w rest : string) (r : R) :
  forallb p w = true -> star p k rest = Some r ->
  star p k (w +:+ rest) = Some r.
Proof.
  intros Hw Hrest. induction w as [|c w IH]; [exact Hrest|].
  cbn [forallb] in Hw. apply andb_prop in Hw as [Hc Hw].
  cbn [String.append star]. now rewrite Hc, IH.
Qed.

(** A lazy group goes over the characters at which the rest of the
    pattern cannot match. *)
Lemma lazy_group_run p q (k2 : string -> string -> option R) (w : string) :
  forallb p w = true -> forallb q w = true ->
  (forall (a : string) (c : ascii) (s : string),
     q c = true -> k2 a (String c s) = None) ->
  forall acc rest : string,
    lazy_group p k2 acc (w +:+ rest) = lazy_group p k2 (acc +:+ w) rest.
Proof.
  intros Hp Hq Hk. induction w as [|c w IH]; intros acc rest.
  - now rewrite append_nil_r.
  - cbn [forallb] in Hp, Hq.
    apply andb_prop in Hp as [Hpc Hp]. apply andb_prop in Hq as [Hqc Hq].
    cbn [String.append lazy_group]. rewrite (Hk acc c _ Hqc), Hpc.
    rewrite IH by assumption. now rewrite append_assoc.
Qed.

End Backtracking.

Section TextLines.
Import PyStr CheckTargets.

Lemma text_lines_line (line rest : string) :
  avoids line_break line ->
  text_lines (line +:+ MakeWget.nl +:+ rest)
  = (line +:+ MakeWget.nl) :: text_lines rest.
Proof.
  intros H. induction line as [|c line IH]; [reflexivity|].
  apply avoids_cons in H as [Hc H]. unfold line_break in Hc.
  apply orb_false_elim in Hc as [H1 H2].
  cbn [String.append text_lines]. now rewrite H1, H2, IH.
Qed.

Lemma text_lines_unlines (lines : list string) (rest : string) :
  Forall (avoids line_break) lines ->
  text_lines (MakeWget.unlines lines +:+ rest)
  = map (fun line => line +:+ MakeWget.nl) lines ++ text_lines rest.
Proof.
  induction 1 as [|line lines Hline _ IH]; [reflexivity|].
  unfold MakeWget.unlines in *. cbn [map PyStr.concat app].
  rewrite !append_assoc, text_lines_line by assumption. now rewrite IH.
Qed.

Lemma first_assignment_skip (cwd : list string) (line : string)
    (rest : list string) :
  ASSIGN_RE line = None ->
  first_assignment cwd (line :: rest) = first_assignment cwd rest.
Proof. cbn [first_assignment]. now intros ->. Qed.

Lemma first_assignment_hit (cwd : list string) (line g1 v : string)
    (rest : list string) :
  ASSIGN_RE line = Some (g1, v) -> strip v <> "" ->
  first_assignment cwd (line :: rest)
  = option_map Some (expanduser_resolve cwd (strip v)).
Proof.
  cbn [first_assignment]. intros -> Hv.
  destruct (strip v); [contradiction | reflexivity].
Qed.

End TextLines.

Section Assignment.
Import PyStr PyRe CheckTargets.

Lemma nonspace_not_line_feed (c : ascii) :
  isspace c = false -> is_char "010" c = false.
Proof.
  destruct c as [[] [] [] [] [] [] [] []]; vm_compute; congruence.
Qed.

Lemma at_end_nonspace (c : ascii) (s : string) :
  isspace c = false -> at_end (String c s) = false.
Proof.
  intros H. cbn [at_end]. destruct s; [now apply nonspace_not_line_feed | reflexivity].
Qed.

Lemma blank_all (ws : string) : blank ws -> forallb isspace ws = true.
Proof. exact (fun H => H). Qed.

Lemma avoids_forallb_negb (p : ascii -> bool) (s : string) :
  avoids p s -> forallb (fun c => negb (p c)) s = true.
Proof.
  induction s as [|c s IH]; [reflexivity|]. intros H.
  apply avoids_cons in H as [Hc H]. cbn [forallb]. now rewrite Hc, IH.
Qed.

Lemma avoids_line_feed_dot (v : string) :
  avoids (is_char "010") v -> forallb dot v = true.
Proof. apply avoids_forallb_negb. Qed.

(** The end of the pattern after a value [v] without quotes around
    it: the value ends where only white space follows. *)
Lemma assign_value_bare (v ws5 : string) :
  avoids isspace v -> blank ws5 ->
  lazy_group dot
    (fun g2 => lit "" (star isspace
                         (fun rest => if at_end rest then Some ("", g2) else None)))
    "" (v +:+ ws5)
  = Some ("", v).
Proof.
  intros Hv Hws.
  rewrite (lazy_group_run dot (fun c => negb (isspace c))).
  - cbn [String.append].
    assert (Hend : lit "" (star isspace
                     (fun rest => if at_end rest then Some ("", v) else None))
                     ws5 = Some ("", v)).
    { rewrite lit_empty. rewrite <- (append_nil_r ws5).
      now apply star_run_some. }
    destruct ws5; cbn [lazy_group]; now rewrite Hend.
  - apply avoids_line_feed_dot.
    eapply avoids_weaken; [|exact Hv]. apply nonspace_not_line_feed.
  - now apply avoids_forallb_negb.
  - intros a c s Hc. apply negb_true_iff in Hc.
    rewrite lit_empty, star_stop by assumption.
    now rewrite at_end_nonspace.
Qed.

(** The end of the pattern after a value [v] between two quotes [x]:
    the value ends at the first quote [x]. *)
Lemma assign_value_quoted (x : ascii) (v ws5 : string) :
  avoids (is_char x) v -> avoids (is_char "010") v -> blank ws5 ->
  lazy_group dot
    (fun g2 => lit (String x "")
                 (star isspace
                    (fun rest => if at_end rest
                                 then Some (String x "", g2) else None)))
    "" (v +:+ String x ws5)
  = Some (String x "", v).
Proof.
  intros Hv Hnl Hws.
  rewrite (lazy_group_run dot (fun c => negb (is_char x c))).
  - cbn [String.append lazy_group].
    change (String x ws5) with (String x "" +:+ ws5). rewrite lit_app.
    rewrite <- (append_nil_r ws5).
    now rewrite (star_run_some isspace _ ws5 "" (String x "", v)).
  - now apply avoids_line_feed_dot.
  - now apply avoids_forallb_negb.
  - intros a c s Hc. apply negb_true_iff in Hc.
    apply lit_miss. cbn [startswith]. unfold is_char in Hc. now rewrite Hc.
Qed.

(** The part of the pattern from the first group on. *)
Local Abbreviation assign_tail :=
  (opt_group Shlex.is_quote (fun g1 =>
     lazy_group dot (fun g2 =>
       lit g1 (star isspace
                 (fun rest => if at_end rest then Some (g1, g2) else None)))
       "")).

(** The pattern up to the value: white space, an optional [export],
    the name, and the equals sign with white space around it. *)
Lemma assign_re_line (ws1 ex ws3 ws4 : string) (c : ascii) (tail : string)
    (r : string * string) :
  blank ws1 ->
  ex = "" \/ (exists ws2, ex = "export" +:+ ws2 /\ blank ws2 /\ ws2 <> "") ->
  blank ws3 -> blank ws4 -> isspace c = false ->
  assign_tail (String c tail) = Some r ->
  ASSIGN_RE (ws1 +:+ ex +:+ "DATA_DIR" +:+ ws3 +:+ "=" +:+ ws4 +:+ String c tail)
  = Some r.
Proof.
  intros H1 Hex H3 H4 Hc Htail. unfold ASSIGN_RE.
  apply star_run_some; [exact H1|].
  assert (Hname : forall k : string -> option (string * string),
             k (ws3 +:+ "=" +:+ ws4 +:+ String c tail) = Some r ->
             lit "DATA_DIR" k ("DATA_DIR" +:+ ws3 +:+ "=" +:+ ws4 +:+ String c tail)
             = Some r)
    by (intros k Hk; now rewrite lit_app).
  assert (Hrest :
    lit "DATA_DIR"
      (star isspace (lit "=" (star isspace assign_tail)))
      ("DATA_DIR" +:+ ws3 +:+ "=" +:+ ws4 +:+ String c tail) = Some r).
  { apply Hname. apply star_run_some; [exact H3|].
    change ("=" +:+ ws4 +:+ String c tail) with (String "=" (ws4 +:+ String c tail)).
    rewrite star_stop by reflexivity.
    change (String "=" (ws4 +:+ String c tail))
      with ("=" +:+ ws4 +:+ String c tail).
    rewrite lit_app. apply star_run_some; [exact H4|].
    now rewrite star_stop. }
  destruct Hex as [->|(ws2 & -> & H2 & Hne)].
  - change ("" +:+ "DATA_DIR" +:+ ws3 +:+ "=" +:+ ws4 +:+ String c tail)
      with (String "D" ("ATA_DIR" +:+ ws3 +:+ "=" +:+ ws4 +:+ String c tail)).
    rewrite star_stop by reflexivity. unfold opt at 1.
    rewrite lit_miss by reflexivity. exact Hrest.
  - rewrite append_assoc.
    change ("export" +:+ ws2 +:+ "DATA_DIR" +:+ ws3 +:+ "=" +:+ ws4 +:+ String c tail)
      with (String "e" ("xport" +:+ ws2 +:+ "DATA_DIR" +:+ ws3 +:+ "=" +:+ ws4
                        +:+ String c tail)).
    rewrite star_stop by reflexivity. unfold opt at 1.
    change (String "e" ("xport" +:+ ws2 +:+ "DATA_DIR" +:+ ws3 +:+ "=" +:+ ws4
                        +:+ String c tail))
      with ("export" +:+ ws2 +:+ "DATA_DIR" +:+ ws3 +:+ "=" +:+ ws4 +:+ String c tail).
    rewrite lit_app. destruct ws2 as [|x ws2]; [contradiction|].
    unfold blank in H2. cbn [forallb] in H2. apply andb_prop in H2 as [Hx H2].
    cbn [String.append plus]. rewrite Hx.
    rewrite (star_run_some isspace _ ws2 _ r); [reflexivity | exact H2 |].
    change ("DATA_DIR" +:+ ws3 +:+ "=" +:+ ws4 +:+ String c tail)
      with (String "D" ("ATA_DIR" +:+ ws3 +:+ "=" +:+ ws4 +:+ String c tail)).
    rewrite star_stop by reflexivity. exact Hrest.
Qed.

End Assignment.

Section DataDirValue.
Import PyStr PyRe CheckTargets.

Lemma replace_plain (c : ascii) (t s : string) :
  avoids (is_char c) s -> replace c t s = s.
Proof.
  induction s as [|x s IH]; [reflexivity|]. intros H.
  apply avoids_cons in H as [Hx H]. cbn [replace].
  unfold is_char in Hx. rewrite Ascii.eqb_sym in Hx. now rewrite Hx, IH.
Qed.

Lemma safe_not_space (c : ascii) : Shlex.safe_char c = true -> isspace c = false.
Proof.
  destruct c as [[] [] [] [] [] [] [] []]; vm_compute; congruence.
Qed.

Lemma safe_avoids_space (s : string) :
  forallb Shlex.safe_char s = true -> avoids isspace s.
Proof.
  induction s as [|c s IH]; [reflexivity|]. cbn [forallb]. intros H.
  apply andb_prop in H as [Hc Hs]. apply avoids_cons.
  split; [now apply safe_not_space | auto].
Qed.

Lemma line_break_line_feed (s : string) :
  avoids line_break s -> avoids (is_char "010") s.
Proof.
  apply avoids_weaken. intros c H. unfold line_break in H.
  now apply orb_false_elim in H as [H _].
Qed.

(** The line of the header that assigns the data directory, as the
    pattern reads it. *)
Lemma assign_re_header_line (d0 : string) :
  avoids (is_char Shlex.squote) (String "/" d0) ->
  avoids line_break (String "/" d0) ->
  exists g1, ASSIGN_RE (("DATA_DIR=" +:+ Shlex.quote (String "/" d0)) +:+ MakeWget.nl)
             = Some (g1, String "/" d0).
Proof.
  intros Hq Hnl. unfold Shlex.quote. cbn [truthy negb].
  destruct (forallb Shlex.safe_char (String "/" d0)) eqn:Hsafe.
  - exists "".
    apply (assign_re_line "" "" "" "" "/" (d0 +:+ MakeWget.nl));
      try reflexivity; [now left|].
    cbn [opt_group]. replace (Shlex.is_quote "/") with false by reflexivity.
    apply (assign_value_bare (String "/" d0) MakeWget.nl); [|reflexivity].
    now apply safe_avoids_space.
  - exists (String Shlex.squote ""). fold squote_escape.
    rewrite replace_plain by exact Hq.
    replace (("DATA_DIR=" +:+ String Shlex.squote
                (String "/" d0 +:+ String Shlex.squote "")) +:+ MakeWget.nl)
      with ("" +:+ "" +:+ "DATA_DIR" +:+ "" +:+ "=" +:+ ""
            +:+ String Shlex.squote (String "/" d0 +:+ String Shlex.squote MakeWget.nl))
      by (cbn [String.append]; now rewrite !append_assoc).
    apply assign_re_line; try reflexivity; [now left|].
    cbn [opt_group]. replace (Shlex.is_quote Shlex.squote) with true by reflexivity.
    rewrite (assign_value_quoted Shlex.squote (String "/" d0) MakeWget.nl);
      [reflexivity | exact Hq | now apply line_break_line_feed | reflexivity].
Qed.

Lemma expanduser_resolve_some (cwd : list string) (x d : string) :
  expanduser_resolve cwd x = Some d ->
  d = PathLib.to_str (PathLib.resolve cwd (PathLib.parse x)).
Proof.
  unfold expanduser_resolve. destruct (negb _ && _); [discriminate|].
  now intros [= <-].
Qed.

Lemma expanduser_resolve_resolved (cwd cwd' : list string) (x : string) :
  Forall plain_segment cwd ->
  let d := PathLib.to_str (PathLib.resolve cwd (PathLib.parse x)) in
  expanduser_resolve cwd' d = Some d.
Proof.
  intros Hcwd d. destruct (resolved_text_fixed cwd cwd' x Hcwd) as [Hparse Hfix].
  fold d in Hparse, Hfix. unfold expanduser_resolve. rewrite Hparse at 1 2.
  cbn [PathLib.is_absolute PathLib.resolve PathLib.root truthy negb andb].
  now rewrite Hfix.
Qed.

Lemma first_assignment_some (cwd : list string) (lines : list string) (d : string) :
  first_assignment cwd lines = Some (Some d) ->
  exists x, expanduser_resolve cwd x = Some d.
Proof.
  induction lines as [|line lines IH]; cbn [first_assignment]; [discriminate|].
  destruct (ASSIGN_RE line) as [[g1 g2]|]; [|exact IH].
  destruct (truthy (strip g2)); [|exact IH].
  intros H. exists (strip g2).
  destruct (expanduser_resolve cwd (strip g2)); [|discriminate].
  cbn in H. congruence.
Qed.

Lemma parse_data_dir_some (cli env script : option string) (cwd : list string)
    (d : string) :
  parse_data_dir cli env script cwd = Some (Some d) ->
  exists x, expanduser_resolve cwd x = Some d.
Proof.
  unfold parse_data_dir.
  destruct (opt_truthy cli) as [c|].
  - intros H. exists c. destruct (expanduser_resolve cwd c); [|discriminate].
    cbn in H. congruence.
  - destruct (opt_truthy env) as [e|].
    + intros H. exists e. destruct (expanduser_resolve cwd e); [|discriminate].
      cbn in H. congruence.
    + destruct script as [text|]; [apply first_assignment_some | discriminate].
Qed.

Lemma rstrip_plain (p : ascii -> bool) (s : string) :
  avoids p s -> rstrip p s = s.
Proof.
  induction s as [|c s IH]; [reflexivity|]. intros H.
  apply avoids_cons in H as [Hc H]. cbn [rstrip]. rewrite IH by assumption.
  destruct s; [now rewrite Hc | reflexivity].
Qed.

Lemma strip_plain (s : string) : avoids isspace s -> strip s = s.
Proof.
  intros H. unfold strip. rewrite rstrip_plain by assumption.
  destruct s as [|c s]; [reflexivity|].
  apply avoids_cons in H as [Hc _]. cbn [lstrip]. now rewrite Hc.
Qed.

End DataDirValue.

(** X14. The Target Verifier, given neither [--data-dir] nor the
    environment variable, finds the data directory in a script of the
    Script Synthesizer: [parse_data_dir] returns the resolved directory
    that the Synthesizer wrote, when its name holds no single quote and
    no line break and has no white space at its end. *)
Theorem verifier_finds_data_dir_of_script :
  forall (args : MakeWget.Args) (y : yaml) (cwd cwd' : list string)
         (pairs : list (string * string)) (script : string),
    MakeWget.main args y cwd = Some (Returned (pairs, script)) ->
    Forall plain_segment cwd ->
    let d := PathLib.to_str
               (PathLib.resolve cwd (PathLib.parse (MakeWget.data_dir args))) in
    avoids (PyStr.is_char Shlex.squote) d ->
    avoids CheckTargets.line_break d ->
    PyStr.strip d = d ->
    CheckTargets.parse_data_dir None None (Some script) cwd' = Some (Some d).
Proof.
  intros args y cwd cwd' pairs script Hmain Hcwd d Hq Hnl Hstrip.
  apply wget_main_returned in Hmain as (urls & _ & ->). fold d.
  rewrite render_concat. unfold MakeWget.HEADER.
  unfold CheckTargets.parse_data_dir. cbn [CheckTargets.opt_truthy].
  rewrite text_lines_unlines by now apply header_lines_plain.
  unfold MakeWget.HEADER_lines. cbn [map app].
  do 8 (rewrite first_assignment_skip by (vm_compute; reflexivity)).
  assert (Hd : exists d0, d = String "/" d0) by (now exists
    (PathLib.join_parts (PathLib.parts
       (PathLib.resolve cwd (PathLib.parse (MakeWget.data_dir args)))))).
  destruct Hd as [d0 Hd].
  destruct (assign_re_header_line d0) as [g1 Hre];
    [now rewrite <- Hd | now rewrite <- Hd |].
  rewrite <- Hd in Hre.
  rewrite (first_assignment_hit cwd' _ g1 d);
    [| exact Hre | rewrite Hstrip, Hd; discriminate].
  rewrite Hstrip. unfold d. now rewrite expanduser_resolve_resolved.
Qed.

Lemma verifier_finds_data_dir_of_script_witness :
  CheckTargets.parse_data_dir None None
    (Some (MakeWget.render "/home/me/my data"
             [("https://h/p/a/x", "a/x")])) ["tmp"]
  = Some (Some "/home/me/my data").
Proof.
  refine (verifier_finds_data_dir_of_script
            (MakeWget.mkArgs "my data" "/p/" [] "download_data.sh")
            (paths_manifest ["https://h/p/a/x"]) ["home"; "me"] ["tmp"]
            [("https://h/p/a/x", "a/x")] _ eq_refl _ eq_refl eq_refl eq_refl).
  repeat constructor; try discriminate.
Defined.

Section AssignmentForms.
Import PyStr PyRe CheckTargets.

Lemma assign_re_forms (ws1 ex ws3 ws4 q v ws5 : string) :
  blank ws1 ->
  ex = "" \/ (exists ws2, ex = "export" +:+ ws2 /\ blank ws2 /\ ws2 <> "") ->
  blank ws3 -> blank ws4 -> blank ws5 ->
  q = "" \/ q = String Shlex.squote "" \/ q = String Shlex.dquote "" ->
  v <> "" -> avoids (fun c => isspace c || Shlex.is_quote c) v ->
  ASSIGN_RE (ws1 +:+ ex +:+ "DATA_DIR" +:+ ws3 +:+ "=" +:+ ws4
             +:+ q +:+ v +:+ q +:+ ws5)
  = Some (q, v).
Proof.
  intros H1 Hex H3 H4 H5 Hq Hne Hv.
  assert (Hsp : avoids isspace v)
    by (eapply avoids_weaken; [|exact Hv]; intros c Hc;
        now apply orb_false_elim in Hc as [Hc _]).
  assert (Hsq : avoids (is_char Shlex.squote) v /\ avoids (is_char Shlex.dquote) v).
  { split; (eapply avoids_weaken; [|exact Hv]); intros c Hc;
      apply orb_false_elim in Hc as [_ Hc]; unfold Shlex.is_quote in Hc;
      now apply orb_false_elim in Hc as [Ha Hb]. }
  destruct Hsq as [Hs Hd].
  assert (Hnl : avoids (is_char "010") v)
    by (eapply avoids_weaken; [|exact Hsp]; apply nonspace_not_line_feed).
  destruct Hq as [->|[->| ->]].
  - destruct v as [|c v]; [contradiction|].
    pose proof Hsp as Hc. apply avoids_cons in Hc as [Hc _].
    apply (assign_re_line ws1 ex ws3 ws4 c (v +:+ ws5)); try assumption.
    cbn [opt_group].
    pose proof Hv as Hq. apply avoids_cons in Hq as [Hq _].
    apply orb_false_elim in Hq as [_ Hq]. rewrite Hq.
    exact (assign_value_bare (String c v) ws5 Hsp H5).
  - apply (assign_re_line ws1 ex ws3 ws4 Shlex.squote
             (v +:+ String Shlex.squote ws5)); try assumption; [reflexivity|].
    cbn [opt_group]. replace (Shlex.is_quote Shlex.squote) with true by reflexivity.
    now rewrite (assign_value_quoted Shlex.squote v ws5).
  - apply (assign_re_line ws1 ex ws3 ws4 Shlex.dquote
             (v +:+ String Shlex.dquote ws5)); try assumption; [reflexivity|].
    cbn [opt_group]. replace (Shlex.is_quote Shlex.dquote) with true by reflexivity.
    now rewrite (assign_value_quoted Shlex.dquote v ws5).
Qed.

Lemma blank_app (a b : string) : blank a -> blank b -> blank (a +:+ b).
Proof.
  unfold blank. intros Ha Hb. induction a as [|c a IH]; [exact Hb|].
  cbn [forallb] in Ha. apply andb_prop in Ha as [Hc Ha].
  cbn [String.append forallb]. now rewrite Hc, IH.
Qed.

End AssignmentForms.

(** X15. The assignment of the data directory is read in all its
    forms alike: with or without [export], with white space before the
    line, around the equals sign and after the value, and with the
    value bare, between single quotes or between double quotes. For a
    value without white space and quotes the pattern yields the value
    itself, and a script with this one line gives the resolved
    value. *)
Theorem assignment_forms_agree :
  forall (ws1 ex ws3 ws4 q v ws5 : string) (cwd : list string),
    blank ws1 ->
    ex = "" \/ (exists ws2, ex = "export" +:+ ws2 /\ blank ws2 /\ ws2 <> "") ->
    blank ws3 -> blank ws4 -> blank ws5 ->
    q = "" \/ q = String Shlex.squote "" \/ q = String Shlex.dquote "" ->
    v <> "" ->
    avoids (fun c => PyStr.isspace c || Shlex.is_quote c) v ->
    let line := ws1 +:+ ex +:+ "DATA_DIR" +:+ ws3 +:+ "=" +:+ ws4
                +:+ q +:+ v +:+ q +:+ ws5 in
    CheckTargets.ASSIGN_RE line = Some (q, v)
    /\ (avoids CheckTargets.line_break line ->
        CheckTargets.parse_data_dir None None (Some (line +:+ MakeWget.nl)) cwd
        = option_map Some (CheckTargets.expanduser_resolve cwd v)).
Proof.
  intros ws1 ex ws3 ws4 q v ws5 cwd H1 Hex H3 H4 H5 Hq Hne Hv line.
  split; [now apply assign_re_forms|].
  intros Hline. unfold CheckTargets.parse_data_dir.
  cbn [CheckTargets.opt_truthy].
  replace (line +:+ MakeWget.nl) with (line +:+ MakeWget.nl +:+ "")
    by now rewrite append_nil_r.
  rewrite text_lines_line by assumption. cbn [PyStr.text_lines].
  assert (Hsp : avoids PyStr.isspace v)
    by (eapply avoids_weaken; [|exact Hv]; intros c Hc;
        now apply orb_false_elim in Hc as [Hc _]).
  rewrite (first_assignment_hit cwd _ q v).
  - now rewrite strip_plain.
  - unfold line. rewrite !append_assoc.
    apply assign_re_forms; try assumption. now apply blank_app.
  - now rewrite strip_plain.
Qed.

Lemma assignment_forms_agree_witness :
  CheckTargets.ASSIGN_RE
    ("  " +:+ "export  " +:+ "DATA_DIR" +:+ " " +:+ "=" +:+ " "
     +:+ MakeWget.dq +:+ "/srv/data" +:+ MakeWget.dq +:+ " ")
  = Some (MakeWget.dq, "/srv/data").
Proof.
  refine (proj1 (assignment_forms_agree "  " "export  " " " " " MakeWget.dq
                   "/srv/data" " " [] eq_refl _ eq_refl eq_refl eq_refl
                   (or_intror (or_intror eq_refl)) _ eq_refl)).
  - right. exists "  ". split; [reflexivity | split; [reflexivity | discriminate]].
  - discriminate.
Defined.

(** X16. What [parse_data_dir] returns is never empty: it is an
    absolute path, whichever of the command line, the environment and
    the script it comes from, and a path already resolved, which
    resolves to itself in every working directory. *)
Theorem parse_data_dir_absolute :
  forall (cli env script : option string) (cwd : list string) (d : string),
    CheckTargets.parse_data_dir cli env script cwd = Some (Some d) ->
    PyStr.startswith d "/" = true
    /\ CheckTargets.opt_truthy (Some d) = Some d
    /\ (Forall plain_segment cwd ->
        forall cwd' : list string,
          CheckTargets.expanduser_resolve cwd' d = Some d).
Proof.
  intros cli env script cwd d H.
  apply parse_data_dir_some in H as [x Hx].
  apply expanduser_resolve_some in Hx. subst d.
  split; [reflexivity|]. split; [reflexivity|].
  intros Hcwd cwd'. now apply expanduser_resolve_resolved.
Qed.

Lemma parse_data_dir_absolute_witness :
  PyStr.startswith "/home/me/data" "/" = true
  /\ CheckTargets.opt_truthy (Some "/home/me/data") = Some "/home/me/data"
  /\ (Forall plain_segment ["home"; "me"] ->
      forall cwd' : list string,
        CheckTargets.expanduser_resolve cwd' "/home/me/data" = Some "/home/me/data").
Proof.
  apply (parse_data_dir_absolute None (Some "./data/") None ["home"; "me"]).
  reflexivity.
Defined.


#[local] Set Warnings "-clear-no-such-hyp".

(** ** The targets of the Target Verifier *)

Section FirstSeen.
Import CheckTargets.

Lemma unique_from_in (items : list string) :
  forall (seen : gset string) (x : string),
    In x (unique_from seen items) <-> In x items /\ (x ∉ seen).
Proof.
  induction items as [|a items IH]; intros seen x; cbn [unique_from].
  - cbn. tauto.
  - destruct (bool_decide (a ∈ seen)) eqn:E.
    + apply bool_decide_eq_true in E. rewrite IH. cbn [In]. split.
      * intros [H1 H2]. tauto.
      * intros [[<-|H1] H2]; [contradiction | tauto].
    + apply bool_decide_eq_false in E. cbn [In]. rewrite IH. split.
      * intros [<-|[H1 H2]]; [tauto|]. split; [tauto | set_solver].
      * intros [[<-|H1] H2]; [tauto|].
        destruct (decide (a = x)) as [->|Hne]; [tauto|].
        right. split; [assumption | set_solver].
Qed.

Lemma unique_from_distinct (items : list string) :
  forall seen : gset string, NoDup (unique_from seen items).
Proof.
  induction items as [|a items IH]; intros seen; cbn [unique_from];
    [constructor|].
  destruct (bool_decide (a ∈ seen)); [apply IH|].
  apply NoDup_cons_2; [|apply IH].
  intros Ha. apply list_elem_of_In, unique_from_in in Ha as [_ Ha]. set_solver.
Qed.

Lemma unique_from_sublist (items : list string) :
  forall seen : gset string, sublist (unique_from seen items) items.
Proof.
  induction items as [|a items IH]; intros seen; cbn [unique_from];
    [constructor|].
  destruct (bool_decide (a ∈ seen));
    [apply sublist_cons | apply sublist_skip]; apply IH.
Qed.

Lemma unique_from_fixed (items : list string) :
  forall seen : gset string,
    NoDup items -> (forall x, In x items -> x ∉ seen) ->
    unique_from seen items = items.
Proof.
  induction items as [|a items IH]; intros seen Hnd Hseen; [reflexivity|].
  cbn [unique_from]. apply NoDup_cons in Hnd as [Ha Hnd].
  rewrite bool_decide_eq_false_2 by (apply Hseen; now left).
  f_equal. apply IH; [assumption|]. intros x Hx.
  assert (x <> a) by (intros ->; apply Ha; now apply list_elem_of_In).
  specialize (Hseen x (or_intror Hx)). set_solver.
Qed.

(** The loop of [main] keeps the pairs whose relative path
    [unique_preserve_order] would keep. *)
Lemma dedup_pairs_unique (pairs : list (string * option string)) :
  forall seen : gset string,
    map fst (dedup_pairs seen pairs) = unique_from seen (map fst pairs).
Proof.
  induction pairs as [|[rel ab] pairs IH]; intros seen; [reflexivity|].
  cbn [dedup_pairs map fst unique_from].
  destruct (bool_decide (rel ∈ seen)); [apply IH|].
  cbn [map fst]. now rewrite IH.
Qed.

Lemma dedup_pairs_app (P Q : list (string * option string)) :
  forall seen : gset string,
    dedup_pairs seen (P ++ Q)
    = dedup_pairs seen P
      ++ dedup_pairs (list_to_set (map fst P) ∪ seen) Q.
Proof.
  induction P as [|[rel ab] P IH]; intros seen; cbn [app dedup_pairs map fst].
  - f_equal. set_solver.
  - destruct (bool_decide (rel ∈ seen)) eqn:E.
    + apply bool_decide_eq_true in E. rewrite IH. f_equal. f_equal.
      set_solver.
    + rewrite IH. cbn [app]. f_equal. f_equal. f_equal. set_solver.
Qed.

Lemma dedup_pairs_seen (Q : list (string * option string)) :
  forall seen : gset string,
    (forall rel, In rel (map fst Q) -> rel ∈ seen) ->
    dedup_pairs seen Q = [].
Proof.
  induction Q as [|[rel ab] Q IH]; intros seen H; [reflexivity|].
  cbn [dedup_pairs]. rewrite bool_decide_eq_true_2 by (apply H; now left).
  apply IH. intros x Hx. apply H. now right.
Qed.

End FirstSeen.

Section Spellings.
Import PyStr PathLib CheckTargets.
Local Abbreviation slash := (PyStr.is_char "/").

Lemma parts_parse_app (a b : string) :
  parts (parse (a +:+ String "/" b)) = parts (parse a) ++ parts (parse b).
Proof.
  unfold parse. cbn [parts].
  rewrite (split_app_sep slash a b "/") by reflexivity.
  apply List.filter_app.
Qed.

Lemma root_slash_head (d : string) :
  root (parse d) = "/" -> exists d', d = String "/" d'.
Proof.
  unfold parse. cbn [root]. destruct d as [|c d]; [discriminate|].
  destruct (Ascii.eqb "/" c) eqn:E.
  - apply Ascii.eqb_eq in E as <-. intros _. now exists d.
  - cbn [startswith]. rewrite E. cbn [andb]. discriminate.
Qed.

Lemma is_absolute_slash_head (s : string) :
  is_absolute (parse (String "/" s)) = true.
Proof.
  unfold is_absolute, parse. cbn [root].
  destruct (startswith (String "/" s) "//" && _); reflexivity.
Qed.

Lemma normalize_dollar (cwd : list string) (r : string) (data_dir : option string) :
  normalize_to_relative cwd ("$DATA_DIR/" +:+ r) data_dir
  = (r, option_map (fun d => to_str (joinpath (parse d) r)) (opt_truthy data_dir)).
Proof. reflexivity. Qed.

Lemma normalize_braces (cwd : list string) (r : string) (data_dir : option string) :
  normalize_to_relative cwd ("${DATA_DIR}/" +:+ r) data_dir
  = (r, option_map (fun d => to_str (joinpath (parse d) r)) (opt_truthy data_dir)).
Proof. reflexivity. Qed.

Lemma normalize_absolute_under (cwd : list string) (d r : string) :
  root (parse d) = "/" -> ~ In ".." (parts (parse d)) ->
  startswith r "/" = false -> ~ In ".." (parts (parse r)) ->
  normalize_to_relative cwd (d +:+ String "/" r) (Some d)
  = (to_str (parse r), Some (to_str (joinpath (parse d) r))).
Proof.
  intros Hd Hdp Hr Hrp. pose proof (root_slash_head d Hd) as [d' ->].
  unfold normalize_to_relative.
  replace (startswith (String "/" d' +:+ String "/" r) "$DATA_DIR/")
    with false by reflexivity.
  replace (startswith (String "/" d' +:+ String "/" r) "${DATA_DIR}/")
    with false by reflexivity.
  change (String "/" d' +:+ String "/" r) with (String "/" (d' +:+ String "/" r)).
  rewrite is_absolute_slash_head.
  change (String "/" (d' +:+ String "/" r)) with (String "/" d' +:+ String "/" r).
  cbn [opt_truthy truthy].
  assert (Hres : resolve cwd (parse (String "/" d' +:+ String "/" r))
                 = mkPath "/" (parts (parse (String "/" d')) ++ parts (parse r))).
  { unfold resolve.
    change (String "/" d' +:+ String "/" r) with (String "/" (d' +:+ String "/" r)).
    rewrite is_absolute_slash_head.
    change (String "/" (d' +:+ String "/" r)) with (String "/" d' +:+ String "/" r).
    rewrite parts_parse_app, fold_resolve_plain; [reflexivity|].
    intros Hin. apply in_app_or in Hin as [Hin|Hin]; contradiction. }
  assert (Hresd : resolve cwd (parse (String "/" d'))
                  = mkPath "/" (parts (parse (String "/" d')))).
  { unfold resolve. rewrite is_absolute_slash_head.
    now rewrite fold_resolve_plain. }
  rewrite Hres, Hresd. unfold relative_to. cbn [root parts].
  cbn [String.eqb]. rewrite Ascii.eqb_refl. rewrite strip_prefix_app.
  cbn [option_map]. pose proof (parse_relative r Hr) as Hroot. f_equal.
  - destruct (parse r) as [rt ps]. cbn [root parts] in *. now subst rt.
  - unfold joinpath, is_absolute. rewrite Hroot, Hd. reflexivity.
Qed.

End Spellings.

(** X17. The three spellings of a target that the Target Verifier
    understands agree: [$DATA_DIR/r] and [${DATA_DIR}/r] always give
    the same relative and absolute path, and so does the absolute path
    [d/r] under the data directory [d], for a relative path [r] in
    normal form and without [..] . *)
Theorem target_spellings_agree :
  forall (cwd : list string) (d r : string),
    CheckTargets.normalize_to_relative cwd ("${DATA_DIR}/" +:+ r) (Some d)
    = CheckTargets.normalize_to_relative cwd ("$DATA_DIR/" +:+ r) (Some d)
    /\ (PathLib.root (PathLib.parse d) = "/" ->
        ~ In ".." (PathLib.parts (PathLib.parse d)) ->
        PathLib.to_str (PathLib.parse r) = r ->
        PyStr.startswith r "/" = false ->
        ~ In ".." (PathLib.parts (PathLib.parse r)) ->
        CheckTargets.normalize_to_relative cwd (d +:+ "/" +:+ r) (Some d)
        = CheckTargets.normalize_to_relative cwd ("$DATA_DIR/" +:+ r) (Some d)
        /\ fst (CheckTargets.normalize_to_relative cwd (d +:+ "/" +:+ r) (Some d))
           = r).
Proof.
  intros cwd d r. split; [now rewrite normalize_braces, normalize_dollar|].
  intros Hd Hdp Hnorm Hr Hrp.
  change (d +:+ "/" +:+ r) with (d +:+ String "/" r).
  rewrite normalize_absolute_under, normalize_dollar by assumption.
  rewrite Hnorm. destruct (root_slash_head d Hd) as [d' ->].
  cbn [CheckTargets.opt_truthy PyStr.truthy option_map]. now split.
Qed.

Lemma target_spellings_agree_witness :
  CheckTargets.normalize_to_relative ["tmp"] ("/data/root" +:+ "/" +:+ "a/x")
    (Some "/data/root")
  = CheckTargets.normalize_to_relative ["tmp"] ("$DATA_DIR/" +:+ "a/x")
      (Some "/data/root")
  /\ fst (CheckTargets.normalize_to_relative ["tmp"]
            ("/data/root" +:+ "/" +:+ "a/x") (Some "/data/root"))
     = "a/x".
Proof.
  apply (proj2 (target_spellings_agree ["tmp"] "/data/root" "a/x"));
    try reflexivity; vm_compute; intuition discriminate.
Defined.

(** X18. [unique_preserve_order] returns every item once, in the order
    of the first occurrences: the head of the list comes first, and
    what follows is the result for the rest without the head. A list
    without duplicates is returned as it is, so that a second pass
    changes nothing. *)
Theorem unique_preserve_order_first_seen :
  forall items : list string,
    let uniq := CheckTargets.unique_preserve_order items in
    uniq = first_occurrences items
    /\ (forall (x : string) (rest : list string),
          CheckTargets.unique_preserve_order (x :: rest)
          = x :: List.filter (fun y => negb (String.eqb y x))
                   (CheckTargets.unique_preserve_order rest))
    /\ NoDup uniq
    /\ (forall x, In x uniq <-> In x items)
    /\ sublist uniq items
    /\ (NoDup items -> uniq = items)
    /\ CheckTargets.unique_preserve_order uniq = uniq.
Proof.
  intros items uniq. unfold uniq, CheckTargets.unique_preserve_order.
  assert (Hnd : NoDup (CheckTargets.unique_from ∅ items))
    by apply unique_from_distinct.
  split; [apply unique_first|].
  split; [intros x rest; now rewrite !unique_first|].
  split; [exact Hnd|]. split.
  - intros x. rewrite unique_from_in. split; [tauto|].
    intros H. split; [exact H | set_solver].
  - split; [apply unique_from_sublist|]. split.
    + intros H. apply unique_from_fixed; [exact H | set_solver].
    + apply unique_from_fixed; [exact Hnd | set_solver].
Qed.

(** X19. The loop of [main] that removes duplicate targets keeps the
    first pair of every relative path: the relative paths it keeps are
    those of [unique_preserve_order], and each kept pair is the first
    pair of the script with its relative path. *)
Theorem main_dedup_is_first_seen :
  forall pairs : list (string * option string),
    map fst (CheckTargets.dedup_pairs ∅ pairs)
    = CheckTargets.unique_preserve_order (map fst pairs)
    /\ NoDup (map fst (CheckTargets.dedup_pairs ∅ pairs))
    /\ (forall pair, In pair (CheckTargets.dedup_pairs ∅ pairs) ->
          exists P1 P2, pairs = P1 ++ pair :: P2 /\ ~ In (fst pair) (map fst P1)).
Proof.
  intros pairs.
  assert (H : map fst (CheckTargets.dedup_pairs ∅ pairs)
              = CheckTargets.unique_preserve_order (map fst pairs))
    by apply dedup_pairs_unique.
  split; [exact H|]. split.
  - rewrite H. apply unique_from_distinct.
  - intros pair Hin. apply in_split in Hin as (U1 & U2 & HU).
    apply dedup_pairs_split in HU as (P1 & P2 & HP & _ & Hfirst & _).
    now exists P1, P2.
Qed.

Lemma main_dedup_is_first_seen_witness :
  exists P1 P2,
    [("a", Some "/d/a"); ("b", None); ("a", Some "/e/a")]
    = P1 ++ ("a", Some "/d/a") :: P2
    /\ ~ In (fst ("a", Some "/d/a")) (map fst P1).
Proof.
  apply (proj2 (proj2 (main_dedup_is_first_seen
                         [("a", Some "/d/a"); ("b", None); ("a", Some "/e/a")]))).
  now left.
Defined.

Section Report.
Import CheckTargets.

Lemma filter_split_length {A : Type} (f : A -> bool) (l : list A) :
  List.length (List.filter f l)
  + List.length (List.filter (fun x => negb (f x)) l)
  = List.length l.
Proof.
  induction l as [|a l IH]; [reflexivity|]. cbn [List.filter].
  destruct (f a); cbn [negb List.length]; lia.
Qed.

Lemma directory_not_file (fs : FileSystem.t) (p : PathLib.PurePath) :
  is_directory fs p -> FileSystem.is_file fs p = false.
Proof.
  intros (st & Hst & Hd). unfold FileSystem.is_file. now rewrite Hst, Hd.
Qed.

Lemma existing_lines_none (show_all : bool) :
  forall ex : list (string * string),
    existing_lines false ex = [].
Proof. reflexivity. Qed.

End Report.

(** X20. In the report every unique target is counted once, as
    existing when its absolute path is a regular file and as missing
    otherwise: the two counts add up to the total, and a target that is
    there as a directory is listed as missing. *)
Theorem report_counts_add_up :
  forall (fs : FileSystem.t) (d : string) (U : list (string * option string)),
    List.length (CheckTargets.existing fs d U)
    + List.length (CheckTargets.missing fs d U)
    = List.length U
    /\ (forall pair, In pair U ->
          let line := (fst pair, CheckTargets.abs_of d pair) in
          (FileSystem.is_file fs (PathLib.parse (CheckTargets.abs_of d pair)) = true ->
           In line (CheckTargets.existing fs d U))
          /\ (FileSystem.is_file fs (PathLib.parse (CheckTargets.abs_of d pair)) = false ->
              In line (CheckTargets.missing fs d U))
          /\ (is_directory fs (PathLib.parse (CheckTargets.abs_of d pair)) ->
              In line (CheckTargets.missing fs d U))).
Proof.
  intros fs d U. split.
  - unfold CheckTargets.existing, CheckTargets.missing.
    rewrite !length_map. apply filter_split_length.
  - intros pair Hin line. unfold CheckTargets.existing, CheckTargets.missing.
    assert (Hmiss : FileSystem.is_file fs
                      (PathLib.parse (CheckTargets.abs_of d pair)) = false ->
                    In line
                      (map (fun pair => (fst pair, CheckTargets.abs_of d pair))
                         (List.filter
                            (fun pair => negb (CheckTargets.on_disk fs d pair)) U))).
    { intros H. apply in_map_iff. exists pair. split; [reflexivity|].
      apply filter_In. split; [assumption|].
      unfold CheckTargets.on_disk. now rewrite H. }
    split; [|split; [exact Hmiss|]].
    + intros H. apply in_map_iff. exists pair. split; [reflexivity|].
      apply filter_In. now split.
    + intros H. now apply Hmiss, directory_not_file.
Qed.

(** X21. The option [--show-existing] only adds to the report: what is
    printed without it is printed with it, followed by the list of all
    existing targets when there is one; the exit statuses are the
    same. *)
Theorem show_existing_only_adds :
  forall (fp : option string) (script data_dir : option string)
         (fs : FileSystem.t),
    match CheckTargets.main (CheckTargets.mkArgs fp false) script data_dir fs with
    | Returned printed =>
        exists ex : list (string * string),
          CheckTargets.main (CheckTargets.mkArgs fp true) script data_dir fs
          = Returned (printed
                      ++ match ex with
                         | [] => []
                         | _ :: _ => CheckTargets.ALL_HEADER
                                     :: map CheckTargets.arrow ex
                         end)
          /\ (forall text d,
                script = Some text -> CheckTargets.opt_truthy data_dir = Some d ->
                ex = CheckTargets.existing fs d
                       (CheckTargets.dedup_pairs ∅
                          (CheckTargets.rel_abs_pairs (FileSystem.cwd fs) fp d
                             (CheckTargets.extract_targets_from_sh text))))
    | other =>
        CheckTargets.main (CheckTargets.mkArgs fp true) script data_dir fs = other
    end.
Proof.
  intros fp script data_dir fs. unfold CheckTargets.main.
  cbn [CheckTargets.filter_prefix CheckTargets.show_existing].
  destruct script as [text|]; [|cbv beta iota; reflexivity].
  destruct (CheckTargets.opt_truthy data_dir) as [d|]; [|cbv beta iota; reflexivity].
  destruct (CheckTargets.extract_targets_from_sh text) as [|tok toks] eqn:Htoks;
    [cbv beta iota; reflexivity|].
  destruct (CheckTargets.rel_abs_pairs _ _ _ _) as [|pair pairs] eqn:Hpairs;
    [cbv beta iota; reflexivity|].
  set (U := CheckTargets.dedup_pairs ∅ (pair :: pairs)).
  assert (Hsame : forall text' d',
            Some text = Some text' -> Some d = Some d' ->
            CheckTargets.existing fs d U
            = CheckTargets.existing fs d'
                (CheckTargets.dedup_pairs ∅
                   (CheckTargets.rel_abs_pairs (FileSystem.cwd fs) fp d'
                      (CheckTargets.extract_targets_from_sh text')))).
  { intros text' d' [= <-] [= <-]. now rewrite Htoks, Hpairs. }
  destruct (CheckTargets.existing fs d U) as [|e0 ex0] eqn:Hex.
  - rewrite !report_none. exists []. split; [now rewrite app_nil_r | exact Hsame].
  - destruct (exists_last (l := e0 :: ex0) ltac:(discriminate)) as (ex' & e & Hlast).
    rewrite Hlast in *. rewrite !report_last. exists (ex' ++ [e]).
    split; [|exact Hsame]. unfold CheckTargets.existing_lines.
    rewrite !app_assoc, app_nil_r.
    destruct (ex' ++ [e]) eqn:E; [now destruct ex' | reflexivity].
Qed.

Section VerifierRun.
Import PyStr CheckTargets.

Lemma report_prints (show_all : bool) (d : string)
    (U : list (string * option string)) (ex mi : list (string * string)) :
  exists printed, report show_all d U ex mi = inr printed.
Proof.
  unfold report. destruct ex as [|e ex]; [eauto|].
  pose proof (py_last_cons e ex) as H.
  destruct (py_last (e :: ex)) as [[r a]|]; [eauto | contradiction].
Qed.

Lemma rel_abs_pairs_app (cwd : list string) (fp : option string) (d : string)
    (T1 T2 : list string) :
  rel_abs_pairs cwd fp d (T1 ++ T2)
  = rel_abs_pairs cwd fp d T1 ++ rel_abs_pairs cwd fp d T2.
Proof. unfold rel_abs_pairs. apply flat_map_app. Qed.

Lemma rel_abs_pairs_in (cwd : list string) (fp : option string) (d : string)
    (T : list string) (pair : string * option string) :
  In pair (rel_abs_pairs cwd fp d T)
  <-> exists tok, In tok T /\ normalize_to_relative cwd tok (Some d) = pair
                  /\ verifier_keeps fp (fst pair) = true.
Proof.
  induction T as [|t T IH].
  - split; [intros [] | intros (tok & [] & _)].
  - change (t :: T) with ([t] ++ T).
    rewrite rel_abs_pairs_app, in_app_iff, IH, rel_abs_pairs_one.
    cbv zeta. split.
    + intros [H|(tok & Htok & H)].
      * exists t. split; [now left|].
        destruct (verifier_keeps fp
                    (fst (normalize_to_relative cwd t (Some d)))) eqn:E;
          [|contradiction].
        destruct H as [<-|[]]. now split.
      * exists tok. split; [now right | exact H].
    + intros (tok & [<-|Htok] & Hn & Hk).
      * left. rewrite Hn, Hk. now left.
      * right. now exists tok.
Qed.

Lemma rel_abs_pairs_nil (cwd : list string) (fp : option string) (d : string)
    (T : list string) :
  rel_abs_pairs cwd fp d T = []
  <-> forall tok, In tok T ->
        verifier_keeps fp (fst (normalize_to_relative cwd tok (Some d))) = false.
Proof.
  split.
  - intros H tok Htok.
    destruct (verifier_keeps fp _) eqn:E; [|reflexivity].
    assert (Hin : In (normalize_to_relative cwd tok (Some d))
                     (rel_abs_pairs cwd fp d T))
      by (apply rel_abs_pairs_in; now exists tok).
    rewrite H in Hin. contradiction.
  - intros H. destruct (rel_abs_pairs cwd fp d T) as [|pair pairs] eqn:E;
      [reflexivity|].
    assert (Hin : In pair (rel_abs_pairs cwd fp d T)) by (rewrite E; now left).
    apply rel_abs_pairs_in in Hin as (tok & Htok & Hn & Hk).
    specialize (H tok Htok). rewrite Hn in H. congruence.
Qed.

(** A text that the tokenizer accepts is rejected when a backslash is
    put after it: the text ends outside quotes and escapes, where the
    backslash begins an escape that nothing follows. *)
Lemma lex_complete_backslash (s : string) :
  forall (st : Shlex.state) (tok : string) (qd : bool),
    Shlex.lex st tok qd s <> None ->
    Shlex.lex st tok qd (s +:+ String Shlex.backslash "") = None.
Proof.
  induction s as [|c s IH]; intros st tok qd H.
  - destruct st as [| | q | [q|]]; cbn [Shlex.lex] in H; try (now elim H);
      reflexivity.
  - cbn [String.append Shlex.lex] in *. destruct st as [| | q | [q|]].
    + destruct (Shlex.whitespace c); [now apply IH|].
      destruct (is_char Shlex.backslash c); [now apply IH|].
      destruct (Shlex.is_quote c); now apply IH.
    + destruct (Shlex.whitespace c).
      * destruct (truthy tok || qd); [|now apply IH].
        rewrite IH; [reflexivity|].
        intros Hn. rewrite Hn in H. now elim H.
      * destruct (Shlex.is_quote c); [now apply IH|].
        destruct (is_char Shlex.backslash c); now apply IH.
    + destruct (Ascii.eqb c q); [now apply IH|].
      destruct (is_char Shlex.backslash c && is_char Shlex.dquote q);
        now apply IH.
    + destruct (negb (is_char Shlex.backslash c) && negb (Ascii.eqb c q));
        now apply IH.
    + now apply IH.
Qed.

(** What [main] does with the targets of the script. *)
#[warnings="-inconsistent-scopes"]
Local Abbreviation run_on args d fs T :=
  (match T with
   | [] => Exit 3
   | _ :: _ =>
       match rel_abs_pairs (FileSystem.cwd fs) (filter_prefix args) d T with
       | [] => Exit 4
       | _ :: _ =>
           let U := dedup_pairs ∅
                      (rel_abs_pairs (FileSystem.cwd fs) (filter_prefix args) d T) in
           match report (show_existing args) d U (existing fs d U) (missing fs d U) with
           | inl e => Raised e
           | inr printed => Returned printed
           end
       end
   end).

Lemma main_run_on (args : Args) (text : string) (d : string) (fs : FileSystem.t) :
  opt_truthy (Some d) = Some d ->
  main args (Some text) (Some d) fs
  = run_on args d fs (extract_targets_from_sh text).
Proof.
  intros Hd. unfold main. rewrite Hd.
  destruct (extract_targets_from_sh text) as [|tok toks]; [reflexivity|].
  destruct (rel_abs_pairs _ _ _ _); reflexivity.
Qed.

Lemma run_on_repeated (args : Args) (d : string) (fs : FileSystem.t)
    (T E : list string) :
  (forall tok, In tok E ->
     exists tok', In tok' T
       /\ fst (normalize_to_relative (FileSystem.cwd fs) tok (Some d))
          = fst (normalize_to_relative (FileSystem.cwd fs) tok' (Some d))) ->
  run_on args d fs (T ++ E) = run_on args d fs T.
Proof.
  intros H.
  assert (Hsub : forall rel,
            In rel (map fst (rel_abs_pairs (FileSystem.cwd fs)
                               (filter_prefix args) d E)) ->
            In rel (map fst (rel_abs_pairs (FileSystem.cwd fs)
                               (filter_prefix args) d T))).
  { intros rel Hrel. apply in_map_iff in Hrel as (pair & <- & Hpair).
    apply rel_abs_pairs_in in Hpair as (tok & Htok & Hn & Hk).
    destruct (H tok Htok) as (tok' & Htok' & Hsame).
    apply in_map_iff.
    exists (normalize_to_relative (FileSystem.cwd fs) tok' (Some d)).
    split; [now rewrite <- Hsame, Hn|].
    apply rel_abs_pairs_in. exists tok'. split; [assumption|].
    split; [reflexivity|]. now rewrite <- Hsame, Hn. }
  rewrite rel_abs_pairs_app.
  generalize dependent (rel_abs_pairs (FileSystem.cwd fs) (filter_prefix args) d E).
  generalize (rel_abs_pairs (FileSystem.cwd fs) (filter_prefix args) d T).
  intros P Q Hsub.
  assert (Hdedup : dedup_pairs ∅ (P ++ Q) = dedup_pairs ∅ P).
  { rewrite dedup_pairs_app. rewrite (dedup_pairs_seen Q); [apply app_nil_r|].
    intros rel Hrel. apply Hsub in Hrel.
    apply elem_of_union_l, elem_of_list_to_set, list_elem_of_In. exact Hrel. }
  cbv zeta. rewrite Hdedup.
  destruct T as [|t T'].
  - destruct E as [|e E']; [|destruct (H e (or_introl eq_refl)) as (tok' & [] & _)].
    reflexivity.
  - cbn [app]. destruct P as [|p P']; [|reflexivity].
    destruct Q as [|q Q']; [reflexivity|].
    destruct (Hsub (fst q) (or_introl eq_refl)).
Qed.

End VerifierRun.

(** X22. With a script and a data directory, the Target Verifier ends
    with exit status 3 exactly when no line of the script names a
    target after [-O], and with exit status 4 exactly when there are
    targets and the filter prefix keeps none of them; in every other
    case it prints its report. Without a script the exit status is 1,
    and without a data directory, or with an empty one, it is 2. *)
Theorem verifier_exit_statuses :
  forall (args : CheckTargets.Args) (text d : string) (fs : FileSystem.t),
    d <> "" ->
    let T := CheckTargets.extract_targets_from_sh text in
    let kept tok :=
      verifier_keeps (CheckTargets.filter_prefix args)
        (fst (CheckTargets.normalize_to_relative (FileSystem.cwd fs) tok (Some d))) in
    (CheckTargets.main args (Some text) (Some d) fs = Exit 3 <-> T = [])
    /\ (CheckTargets.main args (Some text) (Some d) fs = Exit 4
        <-> T <> [] /\ forall tok, In tok T -> kept tok = false)
    /\ ((exists tok, In tok T /\ kept tok = true) ->
        exists printed,
          CheckTargets.main args (Some text) (Some d) fs = Returned printed)
    /\ CheckTargets.main args None (Some d) fs = Exit 1
    /\ CheckTargets.main args (Some text) None fs = Exit 2
    /\ CheckTargets.main args (Some text) (Some "") fs = Exit 2.
Proof.
  intros args text d fs Hd T kept.
  assert (Hnil := rel_abs_pairs_nil (FileSystem.cwd fs)
                    (CheckTargets.filter_prefix args) d T).
  fold kept in Hnil.
  unfold CheckTargets.main. destruct d as [|c d]; [contradiction|].
  cbn [CheckTargets.opt_truthy PyStr.truthy]. fold T.
  destruct T as [|tok toks] eqn:HT.
  - split; [now split|]. split; [split; [discriminate | now intros [H _]]|].
    split; [now intros (tok & [] & _)|]. now repeat split.
  - destruct (CheckTargets.rel_abs_pairs _ _ _ (tok :: toks))
      as [|pair pairs] eqn:HP.
    + split; [split; discriminate|].
      split; [split; [intros _; split; [discriminate | now apply Hnil] | reflexivity]|].
      split; [|now repeat split].
      intros (t & Ht & Hk). pose proof (proj1 Hnil eq_refl t Ht) as Hf.
      unfold kept in *. congruence.
    + destruct (report_prints (CheckTargets.show_existing args) (String c d)
                  (CheckTargets.dedup_pairs ∅ (pair :: pairs))
                  (CheckTargets.existing fs (String c d)
                     (CheckTargets.dedup_pairs ∅ (pair :: pairs)))
                  (CheckTargets.missing fs (String c d)
                     (CheckTargets.dedup_pairs ∅ (pair :: pairs))))
        as [printed ->].
      split; [split; discriminate|].
      split; [split; [discriminate|]|].
      * intros [_ H]. apply Hnil in H. discriminate.
      * split; [intros _; now exists printed | now repeat split].
Qed.

Lemma verifier_exit_statuses_witness :
  CheckTargets.main (CheckTargets.mkArgs (Some "b/") false)
    (Some "wget -c https://h/A -O $DATA_DIR/a/A") (Some "/data")
    (FileSystem.mkFs [] ∅)
  = Exit 4.
Proof.
  apply (proj1 (proj2 (verifier_exit_statuses
                         (CheckTargets.mkArgs (Some "b/") false)
                         "wget -c https://h/A -O $DATA_DIR/a/A" "/data"
                         (FileSystem.mkFs [] ∅) ltac:(discriminate)))).
  split; [discriminate|]. intros tok [<-|[]]. reflexivity.
Defined.

(** X23. A line that is a complete command line, which the tokenizer
    accepts, followed by a backslash, as a shell command continued on
    the next line is, gives no target, whatever [-O], quoted parts and
    escaped characters it holds: the tokenizer rejects the line and the
    line is skipped. *)
Theorem continued_line_has_no_target :
  forall raw body : string,
    PyStr.strip raw = body +:+ String Shlex.backslash "" ->
    Shlex.split body <> None ->
    Shlex.split (PyStr.strip raw) = None
    /\ CheckTargets.extract_line raw = [].
Proof.
  intros raw body Hraw Hbody.
  assert (Hnone : Shlex.split (PyStr.strip raw) = None).
  { rewrite Hraw. unfold Shlex.split in *. now apply lex_complete_backslash. }
  split; [exact Hnone|].
  unfold CheckTargets.extract_line. cbv zeta. rewrite Hnone.
  now destruct (negb _ || _).
Qed.

Lemma continued_line_has_no_target_witness :
  Shlex.split
    (PyStr.strip ("  wget -c 'https://h/a b' -O $DATA_DIR/a\ b "
                  +:+ String Shlex.backslash "")) = None
  /\ CheckTargets.extract_line
       ("  wget -c 'https://h/a b' -O $DATA_DIR/a\ b "
        +:+ String Shlex.backslash "") = [].
Proof.
  apply (continued_line_has_no_target
           ("  wget -c 'https://h/a b' -O $DATA_DIR/a\ b "
            +:+ String Shlex.backslash "")
           "wget -c 'https://h/a b' -O $DATA_DIR/a\ b ").
  - reflexivity.
  - now vm_compute.
Defined.

(** X24. Lines added to a script change nothing in the report when the
    relative path of each of their targets is that of a target named
    before: repeated targets are counted once, at their first place. *)
Theorem repeated_targets_change_nothing :
  forall (args : CheckTargets.Args) (text more : string)
         (data_dir : option string) (fs : FileSystem.t),
    (forall d tok,
       CheckTargets.opt_truthy data_dir = Some d ->
       In tok (CheckTargets.extract_targets_from_sh more) ->
       exists tok',
         In tok' (CheckTargets.extract_targets_from_sh text)
         /\ fst (CheckTargets.normalize_to_relative (FileSystem.cwd fs) tok (Some d))
            = fst (CheckTargets.normalize_to_relative (FileSystem.cwd fs) tok'
                     (Some d))) ->
    CheckTargets.main args (Some (text +:+ MakeWget.nl +:+ more)) data_dir fs
    = CheckTargets.main args (Some text) data_dir fs.
Proof.
  intros args text more data_dir fs H.
  destruct (CheckTargets.opt_truthy data_dir) as [d|] eqn:Hd.
  - assert (Hdd : data_dir = Some d /\ CheckTargets.opt_truthy (Some d) = Some d).
    { destruct data_dir as [x|]; [|discriminate]. cbn in Hd.
      destruct (PyStr.truthy x) eqn:E; [|discriminate].
      injection Hd as <-. cbn. now rewrite E. }
    destruct Hdd as [-> Hdd]. rewrite !main_run_on by exact Hdd.
    rewrite extract_app_nl. apply run_on_repeated. intros tok Htok.
    now apply (H d).
  - unfold CheckTargets.main. now rewrite Hd.
Qed.

Lemma repeated_targets_change_nothing_witness :
  CheckTargets.main (CheckTargets.mkArgs None false)
    (Some (four_targets +:+ MakeWget.nl +:+ "wget -c https://h/B -O ${DATA_DIR}/B"))
    (Some "/data") second_and_fourth
  = CheckTargets.main (CheckTargets.mkArgs None false) (Some four_targets)
      (Some "/data") second_and_fourth.
Proof.
  apply (repeated_targets_change_nothing (CheckTargets.mkArgs None false)
           four_targets "wget -c https://h/B -O ${DATA_DIR}/B" (Some "/data")
           second_and_fourth).
  intros d tok [= <-] [<-|[]]. exists "$DATA_DIR/B". split; [|reflexivity].
  right. now left.
Defined.


#[local] Set Warnings "-clear-no-such-hyp".

(** ** The data-path keys, and the lines of a script *)

Section DataKeys.
Import DownloadData.

Lemma find_urls_entries (y : yaml) (u : string) :
  In u (find_urls_from_data_keys y)
  <-> exists k v, In (k, v) (all_entries y) /\ (k ∈ DATA_KEYS)
                  /\ In u (extract_urls_from_any v).
Proof.
  revert u.
  induction y as [| b | z | s | l IH | d IH] using yaml_nested_ind; intros u;
    cbn [find_urls_from_data_keys all_entries];
    try (split; [intros [] | intros (k & v & [] & _)]).
  - rewrite in_flat_map. rewrite List.Forall_forall in IH. split.
    + intros (x & Hx & Hu). apply (IH x Hx) in Hu as (k & v & Hkv & Hk & Hv).
      exists k, v. split; [|now split]. apply in_flat_map. now exists x.
    + intros (k & v & Hkv & Hk & Hv). apply in_flat_map in Hkv as (x & Hx & Hkv).
      exists x. split; [assumption|]. apply (IH x Hx). now exists k, v.
  - rewrite in_flat_map. rewrite List.Forall_forall in IH. split.
    + intros ([k v] & Hkv & Hu). apply in_app_or in Hu as [Hu|Hu].
      * destruct (decide (k ∈ DATA_KEYS)) as [Hk|]; [|contradiction].
        exists k, v. split; [|now split]. apply in_flat_map.
        exists (k, v). split; [assumption | now left].
      * apply (IH (k, v) Hkv) in Hu as (k' & v' & Hin & Hk' & Hv').
        exists k', v'. split; [|now split]. apply in_flat_map.
        exists (k, v). split; [assumption | now right].
    + intros (k' & v' & Hin & Hk' & Hv').
      apply in_flat_map in Hin as ([k v] & Hkv & Hin).
      exists (k, v). split; [assumption|]. apply in_or_app.
      destruct Hin as [[= -> ->]|Hin].
      * left. destruct (decide (k' ∈ DATA_KEYS)); [assumption | contradiction].
      * right. apply (IH (k, v) Hkv). now exists k', v'.
Qed.

End DataKeys.

(** X25. [find_urls_from_data_keys] finds exactly the URLs in the values
    of the keys [data-path], [data_path], [data-paths] and [data_paths],
    at any depth of the manifest; each of them is among the URLs that
    [gather_urls] returns. *)
Theorem data_keys_found_at_any_depth :
  forall (y : yaml) (u : string),
    (In u (DownloadData.find_urls_from_data_keys y)
     <-> exists k v, In (k, v) (all_entries y)
                     /\ In k ["data-path"; "data_path"; "data-paths"; "data_paths"]
                     /\ In u (DownloadData.extract_urls_from_any v))
    /\ (In u (DownloadData.find_urls_from_data_keys y) ->
        In u (DownloadData.gather_urls y)).
Proof.
  intros y u. split.
  - rewrite find_urls_entries. split; intros (k & v & Hkv & Hk & Hv);
      exists k, v; (split; [assumption|]); (split; [|assumption]).
    + unfold DownloadData.DATA_KEYS in Hk. apply elem_of_list_to_set in Hk.
      now apply list_elem_of_In.
    + unfold DownloadData.DATA_KEYS. apply elem_of_list_to_set.
      now apply list_elem_of_In.
  - intros H. apply gather_urls_in.
    destruct (DownloadData.find_urls_from_data_keys y); [contradiction | exact H].
Qed.

Lemma data_keys_found_at_any_depth_witness :
  In "https://h/a"
    (DownloadData.gather_urls
       (YDict [("sets", YList [YDict [("data_path", YStr "https://h/a")]]);
               ("docs", YStr "https://h/readme")])).
Proof.
  apply (proj2 (data_keys_found_at_any_depth
                  (YDict [("sets", YList [YDict [("data_path", YStr "https://h/a")]]);
                          ("docs", YStr "https://h/readme")])
                  "https://h/a")).
  now left.
Defined.

Section LinesOfScript.
Import PyStr CheckTargets.

Lemma rstrip_all (p : ascii -> bool) (w : string) :
  forallb p w = true -> rstrip p w = "".
Proof.
  induction w as [|c w IH]; [reflexivity|]. cbn [forallb]. intros H.
  apply andb_prop in H as [Hc Hw]. cbn [rstrip]. now rewrite IH, Hc.
Qed.

Lemma rstrip_app_all (p : ascii -> bool) (l w : string) :
  forallb p w = true -> rstrip p (l +:+ w) = rstrip p l.
Proof.
  intros Hw. induction l as [|c l IH]; cbn [String.append rstrip].
  - now apply rstrip_all.
  - now rewrite IH.
Qed.

(** The line feed that ends a line does not count. *)
Lemma extract_line_feed (l : string) :
  extract_line (l +:+ MakeWget.nl) = extract_line l.
Proof.
  unfold extract_line, strip.
  now rewrite (rstrip_app_all isspace l MakeWget.nl) by reflexivity.
Qed.

(** The lines that the iteration over the file yields, against the
    fields between line feeds and carriage returns. *)
Lemma text_lines_split (s : string) :
  match split line_break s with
  | [] => False
  | f :: fs =>
      (fs = [] /\ text_lines s = if truthy f then [f] else [])
      \/ (fs <> []
          /\ exists rest,
               text_lines s = (f +:+ MakeWget.nl) :: rest
               /\ flat_map extract_line rest = flat_map extract_line fs)
  end.
Proof.
  induction s as [|c r IH]; [now left|].
  assert (Hall : flat_map extract_line (text_lines r)
                 = flat_map extract_line (split line_break r)).
  { destruct (split line_break r) as [|f fs]; [contradiction|].
    destruct IH as [[-> ->]|(_ & rest & -> & Hrest)].
    - destruct f; reflexivity.
    - cbn [flat_map]. now rewrite extract_line_feed, Hrest. }
  cbn [split text_lines]. unfold line_break at 1.
  destruct (is_char "010" c) eqn:Hlf; cbn [orb].
  - right. split; [apply split_not_nil|]. exists (text_lines r). now split.
  - destruct (is_char "013" c) eqn:Hcr.
    + right. split; [apply split_not_nil|]. eexists. split; [reflexivity|].
      destruct r as [|d r']; [reflexivity|].
      destruct (is_char "010" d) eqn:Hd; [|exact Hall].
      cbn [split text_lines] in Hall. unfold line_break in Hall at 1.
      rewrite Hd in Hall. cbn [orb flat_map] in Hall.
      cbn [split]. unfold line_break at 1. rewrite Hd. cbn [orb flat_map].
      exact Hall.
    + destruct (split line_break r) as [|f fs]; [contradiction|].
      destruct IH as [[-> Htl]|(Hne & rest & Htl & Hrest)]; rewrite Htl.
      * left. split; [reflexivity|]. now destruct f.
      * right. split; [assumption|]. exists rest. now split.
Qed.

End LinesOfScript.

(** X26. The targets of a script are those of its lines as the
    iteration over the text file yields them, whether the lines end
    with a line feed, a carriage return, or both: cutting the text at
    every line feed and carriage return loses no target and adds
    none. *)
Theorem targets_line_by_line :
  forall script : string,
    flat_map CheckTargets.extract_line (PyStr.text_lines script)
    = CheckTargets.extract_targets_from_sh script.
Proof.
  intros script. unfold CheckTargets.extract_targets_from_sh.
  pose proof (text_lines_split script) as H.
  destruct (PyStr.split CheckTargets.line_break script) as [|f fs];
    [contradiction|].
  destruct H as [[-> ->]|(_ & rest & -> & Hrest)].
  - destruct f; reflexivity.
  - cbn [flat_map]. now rewrite extract_line_feed, Hrest.
Qed.

Section AbsolutePaths.
Import PyStr PathLib CheckTargets.

Lemma join_parts_nonempty (segs : list string) :
  segs <> [] -> (forall x, In x segs -> x <> "") -> join_parts segs <> "".
Proof.
  intros Hne Hall. destruct segs as [|s segs]; [contradiction|].
  specialize (Hall s (or_introl eq_refl)).
  destruct s as [|c s]; [contradiction|]. destruct segs; discriminate.
Qed.

Lemma to_str_nonempty (p : PurePath) :
  (forall x, In x (parts p) -> x <> "") -> to_str p <> "".
Proof.
  intros H. unfold to_str. destruct (root p) as [|c rt] eqn:Hr.
  - destruct (parts p) as [|s segs] eqn:Hp; [discriminate|].
    cbn [String.append]. apply join_parts_nonempty; [discriminate | exact H].
  - discriminate.
Qed.

Lemma parse_parts_nonempty (s x : string) : In x (parts (parse s)) -> x <> "".
Proof.
  intros H. pose proof (parts_parse_plain s) as Hall.
  rewrite List.Forall_forall in Hall. now destruct (Hall x H).
Qed.

Lemma joinpath_nonempty (d r : string) : to_str (joinpath (parse d) r) <> "".
Proof.
  apply to_str_nonempty. unfold joinpath.
  destruct (is_absolute (parse r)); cbn [parts]; intros x Hx.
  - now apply parse_parts_nonempty in Hx.
  - apply in_app_or in Hx as [Hx|Hx]; now apply parse_parts_nonempty in Hx.
Qed.

Lemma root_parse_cases (s : string) :
  root (parse s) = "" \/ root (parse s) = "/" \/ root (parse s) = "//".
Proof.
  unfold parse. cbn [root].
  destruct (startswith s "//" && negb (startswith s "///")); [auto|].
  destruct (startswith s "/"); auto.
Qed.

Lemma root_parse_absolute (s : string) :
  startswith s "/" = true -> root (parse s) = "/" \/ root (parse s) = "//".
Proof.
  intros H. unfold parse. cbn [root]. rewrite H.
  destruct (startswith s "//" && negb (startswith s "///")); auto.
Qed.

Lemma to_str_rooted (p : PurePath) :
  root p = "/" \/ root p = "//" -> startswith (to_str p) "/" = true.
Proof. unfold to_str. intros [-> | ->]; reflexivity. Qed.

(** A path joined to an absolute directory is absolute. *)
Lemma joinpath_absolute (d r : string) :
  startswith d "/" = true ->
  startswith (to_str (joinpath (parse d) r)) "/" = true.
Proof.
  intros Hd. apply to_str_rooted. unfold joinpath.
  destruct (is_absolute (parse r)) eqn:E; cbn [root].
  - unfold is_absolute in E.
    destruct (root_parse_cases r) as [H|H]; [|exact H].
    rewrite H in E. discriminate E.
  - now apply root_parse_absolute.
Qed.

End AbsolutePaths.

(** X27. With a data directory, [normalize_to_relative] always returns a
    path that is not empty, so that [main] checks this path for every
    target and never builds another one from the relative path; and the
    path is absolute when the data directory is, as the one that
    [parse_data_dir] returns. *)
Theorem target_always_has_absolute_path :
  forall (cwd : list string) (tok d : string),
    d <> "" ->
    exists ab : string,
      snd (CheckTargets.normalize_to_relative cwd tok (Some d)) = Some ab
      /\ ab <> ""
      /\ CheckTargets.abs_of d (CheckTargets.normalize_to_relative cwd tok (Some d))
         = ab
      /\ (PyStr.startswith d "/" = true -> PyStr.startswith ab "/" = true).
Proof.
  intros cwd tok d Hd.
  assert (Hsome : exists ab,
            snd (CheckTargets.normalize_to_relative cwd tok (Some d)) = Some ab
            /\ ab <> ""
            /\ (PyStr.startswith d "/" = true -> PyStr.startswith ab "/" = true)).
  { unfold CheckTargets.normalize_to_relative.
    destruct d as [|c d]; [contradiction|].
    cbn [CheckTargets.opt_truthy PyStr.truthy option_map].
    destruct (PyStr.startswith tok "$DATA_DIR/");
      [eexists; split; [reflexivity |
         split; [apply joinpath_nonempty | apply joinpath_absolute]]|].
    destruct (PyStr.startswith tok "${DATA_DIR}/");
      [eexists; split; [reflexivity |
         split; [apply joinpath_nonempty | apply joinpath_absolute]]|].
    destruct (PathLib.is_absolute (PathLib.parse tok)).
    - eexists. split; [reflexivity|]. split; [discriminate | reflexivity].
    - eexists. split; [reflexivity|].
      split; [apply joinpath_nonempty | apply joinpath_absolute]. }
  destruct Hsome as (ab & Hab & Hne & Habs). exists ab. split; [exact Hab|].
  split; [exact Hne|]. split; [|exact Habs].
  unfold CheckTargets.abs_of. rewrite Hab.
  destruct ab; [contradiction | reflexivity].
Qed.

Lemma target_always_has_absolute_path_witness :
  exists ab : string,
    snd (CheckTargets.normalize_to_relative [] "part-0.npy" (Some "/data"))
    = Some ab
    /\ ab <> ""
    /\ CheckTargets.abs_of "/data"
         (CheckTargets.normalize_to_relative [] "part-0.npy" (Some "/data"))
       = ab
    /\ PyStr.startswith ab "/" = true.
Proof.
  destruct (target_always_has_absolute_path [] "part-0.npy" "/data")
    as (ab & H1 & H2 & H3 & H4); [discriminate|].
  exists ab. split; [exact H1|]. split; [exact H2|]. split; [exact H3|].
  now apply H4.
Defined.

Section FetchLines.
Import PyStr MakeWget.

Lemma concat_app (l1 l2 : list string) :
  concat (l1 ++ l2) = concat l1 +:+ concat l2.
Proof.
  induction l1 as [|s l1 IH]; [reflexivity|]. cbn [app concat].
  now rewrite IH, append_assoc.
Qed.

(** A line of a text that stands between two line feeds is one of the
    fields of the text. *)
Lemma line_in_split (a line b : string) :
  avoids CheckTargets.line_break line ->
  In line (split CheckTargets.line_break (a +:+ nl +:+ line +:+ nl +:+ b)).
Proof.
  intros H. unfold nl.
  change (a +:+ String "010" "" +:+ line +:+ String "010" "" +:+ b)
    with (a +:+ String "010" (line +:+ String "010" b)).
  rewrite (split_app_sep CheckTargets.line_break a _ "010") by reflexivity.
  rewrite (split_app_sep CheckTargets.line_break line b "010") by reflexivity.
  rewrite (split_plain CheckTargets.line_break line) by exact H.
  apply in_or_app. right. now left.
Qed.

Lemma special_avoids_line_break (s : string) :
  avoids shell_special s -> avoids CheckTargets.line_break s.
Proof. apply avoids_weaken, special_line_break. Qed.

End FetchLines.

(** X28. For every pair of a run of the Script Synthesizer whose URL and
    relative path hold no white space, double quote or backslash, the
    script has a fetch line that [shlex.split] reads as a resumable
    [wget] call with five tries and a timeout of 60 seconds, for this
    URL, writing to [$DATA_DIR/] followed by the relative path. *)
Theorem fetch_line_of_every_pair :
  forall (args : MakeWget.Args) (y : yaml) (cwd : list string)
         (pairs : list (string * string)) (script url rel : string),
    MakeWget.main args y cwd = Some (Returned (pairs, script)) ->
    In (url, rel) pairs ->
    avoids shell_special url -> avoids shell_special rel ->
    In (MakeWget.wget_line url rel) (PyStr.split CheckTargets.line_break script)
    /\ Shlex.split (MakeWget.wget_line url rel)
       = Some ["wget"; "-c"; "--retry-connrefused"; "-t"; "5"; "--timeout=60";
               url; "-O"; "$DATA_DIR/" +:+ rel].
Proof.
  intros args y cwd pairs script url rel Hmain Hin Hurl Hrel.
  split; [|now apply wget_line_tokens].
  apply wget_main_returned in Hmain as (urls & _ & ->).
  rewrite render_concat. apply in_split in Hin as (P1 & P2 & ->).
  rewrite map_app, concat_app. cbn [map PyStr.concat fst snd].
  unfold MakeWget.LINE, MakeWget.unlines. cbn [map PyStr.concat].
  rewrite !append_assoc.
  rewrite <- (append_assoc (MakeWget.HEADER _)).
  rewrite <- (append_assoc (MakeWget.HEADER _ +:+ _)).
  rewrite <- (append_assoc ((MakeWget.HEADER _ +:+ _) +:+ _)).
  rewrite <- (append_assoc (((MakeWget.HEADER _ +:+ _) +:+ _) +:+ _)).
  rewrite <- (append_assoc ((((MakeWget.HEADER _ +:+ _) +:+ _) +:+ _) +:+ _)).
  cbn [String.append].
  apply line_in_split. unfold MakeWget.wget_line.
  repeat (apply avoids_app; split); try reflexivity;
    now apply special_avoids_line_break.
Qed.

Lemma fetch_line_of_every_pair_witness :
  In (MakeWget.wget_line "https://h/p/a/x" "a/x")
    (PyStr.split CheckTargets.line_break
       (MakeWget.render "/data/root" [("https://h/p/a/x", "a/x")]))
  /\ Shlex.split (MakeWget.wget_line "https://h/p/a/x" "a/x")
     = Some ["wget"; "-c"; "--retry-connrefused"; "-t"; "5"; "--timeout=60";
             "https://h/p/a/x"; "-O"; "$DATA_DIR/" +:+ "a/x"].
Proof.
  refine (fetch_line_of_every_pair
            (MakeWget.mkArgs "/data/root" "/p/" [] "download_data.sh")
            (paths_manifest ["https://h/p/a/x"]) []
            [("https://h/p/a/x", "a/x")] _ "https://h/p/a/x" "a/x"
            eq_refl (or_introl eq_refl) eq_refl eq_refl).
Defined.
